(** * EcoTrack backend: progress computation and unlocking engine

    A shallow embedding of the achievement and goal engine of the EcoTrack
    backend (Mongoose models [Achievement], [Goal], [Activity], [User] and the
    route module [routes/achievements.js]), followed by the properties of the
    specification stated and settled against it, and by further properties
    of the models and of the achievement, goal and activity handlers.

    Conventions of the embedding:
    - a JavaScript [Number] is an integer [Z]; the engine only compares,
      subtracts, and takes [Math.max]/[Math.min] of them;
    - a [Date] is its time value, the number of milliseconds since the epoch
      ([Z]); an absent optional [Date] field is [None], and a present [Date]
      object is truthy whatever its time value;
    - an [ObjectId] is a [Z];
    - one request reads the clock once: every [new Date()] of an invocation
      yields the same instant [now];
    - an awaited store query either resolves with a value or rejects
      ([Result]). *)

From Stdlib Require Import ZArith String QArith Qminmax Lia Lqa.
From stdpp Require Import base decidable option list gmap sorting strings.

Local Open Scope Z_scope.

(** ** Awaited computations *)

Inductive Result (A : Type) : Type :=
  | Ok (a : A)
  | Rejected.
Arguments Ok {A} a.
Arguments Rejected {A}.

Definition bindR {A B} (r : Result A) (k : A → Result B) : Result B :=
  match r with
  | Ok a => k a
  | Rejected => Rejected
  end.

Notation "'await' x ← r ; k" := (bindR r (λ x, k))
  (at level 10, x name, r at level 100, k at level 200).

(** ** Dates: the part of the JavaScript [Date] API the engine uses *)

Module JsDate.

Definition msPerDay : Z := 86400000.

(** Local-time operations of [Date], as functions on time values.
    They depend on the time zone of the host, hence the record. *)
Record Calendar := {
  (** [d.setHours(0, 0, 0, 0)] *)
  setHours0 : Z → Z;
  (** [d.setDate(d.getDate() + k)] *)
  setDate : Z → Z → Z;
  (** [d.setMonth(d.getMonth() + k)] *)
  setMonth : Z → Z → Z;
  (** [d.setFullYear(d.getFullYear() + k)] *)
  setFullYear : Z → Z → Z
}.

(** Day number of the proleptic Gregorian date [y]-[m]-[d], [m] a
    month index in 0..11, day 0 being 1970-01-01. *)
Definition daysFromCivil (y m d : Z) : Z :=
  let y' := if bool_decide (m ≤ 1) then y - 1 else y in
  let era := y' `div` 400 in
  let yoe := y' - era * 400 in
  let mp := if bool_decide (m ≤ 1) then m + 10 else m - 2 in
  let doy := (153 * mp + 2) `div` 5 + d - 1 in
  let doe := yoe * 365 + yoe `div` 4 - yoe `div` 100 + doy in
  era * 146097 + doe - 719468.

(** Year, month index (0..11) and day of month of a day number. *)
Definition civilFromDays (z : Z) : Z * Z * Z :=
  let z' := z + 719468 in
  let era := z' `div` 146097 in
  let doe := z' - era * 146097 in
  let yoe := (doe - doe `div` 1460 + doe `div` 36524 - doe `div` 146096) `div` 365 in
  let doy := doe - (365 * yoe + yoe `div` 4 - yoe `div` 100) in
  let mp := (5 * doy + 2) `div` 153 in
  let d := doy - (153 * mp + 2) `div` 5 + 1 in
  let m := if bool_decide (mp < 10) then mp + 2 else mp - 10 in
  let y := yoe + era * 400 in
  (if bool_decide (m ≤ 1) then y + 1 else y, m, d).

(** [MakeDate(MakeDay(y, m, d), tod)] read in a zone [off] milliseconds
    ahead of UTC; month and day overflow are carried as ECMAScript does. *)
Definition makeLocal (off y m d tod : Z) : Z :=
  (daysFromCivil (y + m `div` 12) (m `mod` 12) 1 + (d - 1)) * msPerDay + tod - off.

Definition localDay (off t : Z) : Z := (t + off) `div` msPerDay.
Definition localTimeOfDay (off t : Z) : Z := (t + off) `mod` msPerDay.

(** The calendar of a host whose zone stays [off] milliseconds ahead of
    UTC all year. *)
Definition fixedOffset (off : Z) : Calendar := {|
  setHours0 t := t - localTimeOfDay off t;
  setDate t k := t + k * msPerDay;
  setMonth t k :=
    let '(y, m, d) := civilFromDays (localDay off t) in
    makeLocal off y (m + k) d (localTimeOfDay off t);
  setFullYear t k :=
    let '(y, m, d) := civilFromDays (localDay off t) in
    makeLocal off (y + k) m d (localTimeOfDay off t)
|}.

Definition utc : Calendar := fixedOffset 0.

End JsDate.

(** ** models/User.js *)

Module User.

Record CarbonFootprint := {
  total : Z;
  baseline : Z;
  target : Z;
  lastCalculated : Z
}.

Record t := {
  _id : Z;
  name : string;
  email : string;
  carbonFootprint : CarbonFootprint;
  isActive : bool
}.

(** The object [userSchema.methods.getStats] returns. *)
Record Stats := {
  totalFootprint : Z;
  baselineFootprint : Z;
  targetFootprint : Z;
  reduction : Z;
  reductionPercentage : Q
}.

(** [userSchema.methods.getStats] *)
Definition getStats (u : t) : Stats :=
  let cf := carbonFootprint u in
  {| totalFootprint := total cf;
     baselineFootprint := baseline cf;
     targetFootprint := target cf;
     reduction := baseline cf - total cf;
     reductionPercentage :=
       if bool_decide (0 < baseline cf)
       then (inject_Z (baseline cf - total cf) / inject_Z (baseline cf) * 100)%Q
       else 0%Q |}.

End User.

(** ** models/Activity.js *)

Module Activity.

Inductive Status := active | completed | cancelled.

Global Instance Status_eq_dec : EqDecision Status.
Proof. solve_decision. Defined.

Inductive CarbonUnit := kg | tons.

Record CarbonFootprint := {
  value : Z;
  unit : CarbonUnit
}.

Record t := {
  user : Z;
  category : string;
  title : string;
  date : Z;
  carbonFootprint : CarbonFootprint;
  status : Status
}.

(** The filter [{ user: userId, date: { $gte: startDate }, status: 'active' }]. *)
Definition matches (userId startDate : Z) (a : t) : Prop :=
  user a = userId ∧ startDate ≤ date a ∧ status a = active.

Global Instance matches_dec userId startDate a : Decision (matches userId startDate a).
Proof. unfold matches. apply _. Defined.

(** [.sort({ date: -1 })] *)
Definition dateDesc (a b : t) : Prop := date b ≤ date a.

Global Instance dateDesc_dec : RelDecision dateDesc.
Proof. intros a b. unfold dateDesc. apply _. Defined.

Definition countDocuments (coll : list t) (userId startDate : Z) : Z :=
  Z.of_nat (length (filter (matches userId startDate) coll)).

Definition find (coll : list t) (userId startDate : Z) : list t :=
  merge_sort dateDesc (filter (matches userId startDate) coll).

(** [unit === 'tons' ? value * 1000 : value]: the [$cond] under [totalKg]
    in the aggregations, and the [carbonValue] of the activity handlers. *)
Definition carbonKg (a : t) : Z :=
  match unit (carbonFootprint a) with
  | tons => value (carbonFootprint a) * 1000
  | kg => value (carbonFootprint a)
  end.

(** The virtual [carbonFootprintTons], and the [$cond] under [totalTons]. *)
Definition carbonFootprintTons (a : t) : Q :=
  match unit (carbonFootprint a) with
  | tons => inject_Z (value (carbonFootprint a))
  | kg => (inject_Z (value (carbonFootprint a)) / 1000)%Q
  end.

(** The [$match] stage of the two aggregations: the date range is added
    only [if (startDate && endDate)]; a bound is [None] when the argument
    is absent or empty. *)
Definition matchStage (userId : Z) (startDate endDate : option Z) (a : t) : Prop :=
  user a = userId ∧ status a = active
  ∧ match startDate, endDate with
    | Some s, Some e => s ≤ date a ∧ date a ≤ e
    | _, _ => True
    end.

Global Instance matchStage_dec userId startDate endDate a :
  Decision (matchStage userId startDate endDate a).
Proof. unfold matchStage. destruct startDate, endDate; apply _. Defined.

Module Total.
Record t := {
  totalKg : Z;
  totalTons : Q;
  activityCount : Z
}.
End Total.

(** The accumulators of a [$group] over the documents [group]. *)
Definition sumKg (group : list t) : Z := foldr (λ a sum, carbonKg a + sum) 0 group.

Definition sumTons (group : list t) : Q :=
  foldr (λ a sum, (carbonFootprintTons a + sum)%Q) 0%Q group.

(** [activitySchema.statics.getUserTotalFootprint]: one group with
    [_id: null] when a document matches, and
    [result[0] || { totalKg: 0, totalTons: 0, activityCount: 0 }]. *)
Definition getUserTotalFootprint (coll : list t) (userId : Z)
    (startDate endDate : option Z) : Total.t :=
  let result :=
    match filter (matchStage userId startDate endDate) coll with
    | [] => []
    | matched =>
        [{| Total.totalKg := sumKg matched;
            Total.totalTons := sumTons matched;
            Total.activityCount := Z.of_nat (length matched) |}]
    end in
  default {| Total.totalKg := 0; Total.totalTons := 0%Q; Total.activityCount := 0 |}
    (head result).

Module ByCategory.
Record t := {
  _id : string;
  totalKg : Z;
  totalTons : Q;
  count : Z
}.
End ByCategory.

(** [{ $sort: { totalKg: -1 } }] *)
Definition totalKgDesc (x y : ByCategory.t) : Prop :=
  ByCategory.totalKg y ≤ ByCategory.totalKg x.

Global Instance totalKgDesc_dec : RelDecision totalKgDesc.
Proof. intros x y. unfold totalKgDesc. apply _. Defined.

(** The group of the [$group] stage for the category [c]. *)
Definition categoryGroup (matched : list t) (c : string) : ByCategory.t :=
  let group := filter (λ a, category a = c) matched in
  {| ByCategory._id := c;
     ByCategory.totalKg := sumKg group;
     ByCategory.totalTons := sumTons group;
     ByCategory.count := Z.of_nat (length group) |}.

(** [activitySchema.statics.getFootprintByCategory]: one group for each
    category that occurs among the matching documents, sorted. *)
Definition getFootprintByCategory (coll : list t) (userId : Z)
    (startDate endDate : option Z) : list ByCategory.t :=
  let matched := filter (matchStage userId startDate endDate) coll in
  merge_sort totalKgDesc (categoryGroup matched <$> remove_dups (category <$> matched)).

End Activity.

(** ** models/Goal.js *)

Module Goal.

Inductive Status := active | completed | paused | cancelled.

Global Instance Status_eq_dec : EqDecision Status.
Proof. solve_decision. Defined.

Inductive Priority := low | medium | high | critical.
Inductive Difficulty := easy | moderate | hard | expert.

Module Target.
Record t := {
  value : Z;
  unit : string;
  timeframe : string
}.
End Target.

Module Current.
Record t := {
  value : Z;
  lastUpdated : Z
}.
End Current.

Module Milestone.
Record t := {
  title : string;
  targetValue : Z;
  achievedValue : Z;
  achieved : bool;
  achievedDate : option Z
}.
End Milestone.

Module Reminders.
Record t := {
  enabled : bool;
  frequency : string;
  lastReminder : option Z
}.
End Reminders.

Record t := {
  user : Z;
  title : string;
  description : string;
  category : string;
  target : Target.t;
  current : Current.t;
  startDate : Z;
  endDate : Z;
  status : Status;
  priority : Priority;
  difficulty : Difficulty;
  milestones : list Milestone.t;
  tags : list string;
  isPublic : bool;
  reminders : Reminders.t;
  notes : string;
  (** maintained by the schema option [timestamps: true] *)
  createdAt : Z;
  updatedAt : Z
}.

(** The body of the [forEach] callback of [updateProgress], for a goal
    whose [current.value] is [cur]. *)
Definition sweepMilestone (now cur : Z) (m : Milestone.t) : Milestone.t :=
  if negb (Milestone.achieved m) && bool_decide (Milestone.targetValue m ≤ cur)
  then {| Milestone.title := Milestone.title m;
          Milestone.targetValue := Milestone.targetValue m;
          Milestone.achievedValue := Milestone.targetValue m;
          Milestone.achieved := true;
          Milestone.achievedDate := Some now |}
  else m.

(** [goalSchema.methods.updateProgress], run at instant [now]; the result is
    the document as [this.save()] leaves it ([updatedAt] is stamped by the
    schema's timestamps). *)
Definition updateProgress (now newValue : Z) (g : t) : t :=
  let cur := Z.max 0 newValue in
  {| user := user g;
     title := title g;
     description := description g;
     category := category g;
     target := target g;
     current := {| Current.value := cur; Current.lastUpdated := now |};
     startDate := startDate g;
     endDate := endDate g;
     status :=
       if bool_decide (Target.value (target g) ≤ cur) && bool_decide (status g = active)
       then completed else status g;
     priority := priority g;
     difficulty := difficulty g;
     milestones := sweepMilestone now cur <$> milestones g;
     tags := tags g;
     isPublic := isPublic g;
     reminders := reminders g;
     notes := notes g;
     createdAt := createdAt g;
     updatedAt := now |}.

(** The filter [{ user: userId, status: 'completed', updatedAt: { $gte: startDate } }]. *)
Definition matchesCompleted (userId startDate : Z) (g : t) : Prop :=
  user g = userId ∧ status g = completed ∧ startDate ≤ updatedAt g.

Global Instance matchesCompleted_dec userId startDate g :
  Decision (matchesCompleted userId startDate g).
Proof. unfold matchesCompleted. apply _. Defined.

Definition countDocuments (coll : list t) (userId startDate : Z) : Z :=
  Z.of_nat (length (filter (matchesCompleted userId startDate) coll)).

(** The virtual [progressPercentage]. *)
Definition progressPercentage (g : t) : Q :=
  if bool_decide (Target.value (target g) = 0) then 0%Q
  else Qmin (inject_Z (Current.value (current g)) / inject_Z (Target.value (target g)) * 100)%Q
            100%Q.

(** The virtual [daysRemaining], read at instant [now]:
    [Math.max(0, Math.ceil((end - now) / (1000 * 60 * 60 * 24)))]. *)
Definition daysRemaining (now : Z) (g : t) : Z :=
  let diffTime := endDate g - now in
  let diffDays := (diffTime + (1000 * 60 * 60 * 24 - 1)) `div` (1000 * 60 * 60 * 24) in
  Z.max 0 diffDays.

(** The virtual [isOverdue], read at instant [now]. *)
Definition isOverdue (now : Z) (g : t) : bool :=
  bool_decide (endDate g < now) && bool_decide (status g = active).

(** A stored document: its [_id] and its fields. *)
Definition Doc : Type := Z * t.

(** The filter [{ user: userId, status: 'active' }]. *)
Definition activeOf (userId : Z) (d : Doc) : Prop :=
  user d.2 = userId ∧ status d.2 = active.

Global Instance activeOf_dec userId d : Decision (activeOf userId d).
Proof. unfold activeOf. apply _. Defined.

(** [.sort({ endDate: 1 })] *)
Definition endDateAsc (x y : Doc) : Prop := endDate x.2 ≤ endDate y.2.

Global Instance endDateAsc_dec : RelDecision endDateAsc.
Proof. intros x y. unfold endDateAsc. apply _. Defined.

(** [goalSchema.statics.getUserActiveGoals] *)
Definition getUserActiveGoals (coll : gmap Z t) (userId : Z) : list Doc :=
  merge_sort endDateAsc (filter (activeOf userId) (map_to_list coll)).

(** The filter [{ user: userId, category: category }]. *)
Definition inCategory (userId : Z) (c : string) (d : Doc) : Prop :=
  user d.2 = userId ∧ category d.2 = c.

Global Instance inCategory_dec userId c d : Decision (inCategory userId c d).
Proof. unfold inCategory. apply _. Defined.

(** [.sort({ createdAt: -1 })] *)
Definition createdAtDesc (x y : Doc) : Prop := createdAt y.2 ≤ createdAt x.2.

Global Instance createdAtDesc_dec : RelDecision createdAtDesc.
Proof. intros x y. unfold createdAtDesc. apply _. Defined.

(** [goalSchema.statics.getGoalsByCategory] *)
Definition getGoalsByCategory (coll : gmap Z t) (userId : Z) (c : string) : list Doc :=
  merge_sort createdAtDesc (filter (inCategory userId c) (map_to_list coll)).

(** [goalSchema.methods.toResponseFormat], read at instant [now]. *)
Module View.
Record t := {
  id : Z;
  title : string;
  description : string;
  category : string;
  target : Target.t;
  current : Current.t;
  progressPercentage : Q;
  startDate : Z;
  endDate : Z;
  daysRemaining : Z;
  isOverdue : bool;
  status : Status;
  priority : Priority;
  difficulty : Difficulty;
  milestones : list Milestone.t;
  tags : list string;
  isPublic : bool;
  notes : string;
  createdAt : Z;
  updatedAt : Z
}.
End View.

Definition toResponseFormat (now : Z) (d : Doc) : View.t :=
  {| View.id := d.1;
     View.title := title d.2;
     View.description := description d.2;
     View.category := category d.2;
     View.target := target d.2;
     View.current := current d.2;
     View.progressPercentage := progressPercentage d.2;
     View.startDate := startDate d.2;
     View.endDate := endDate d.2;
     View.daysRemaining := daysRemaining now d.2;
     View.isOverdue := isOverdue now d.2;
     View.status := status d.2;
     View.priority := priority d.2;
     View.difficulty := difficulty d.2;
     View.milestones := milestones d.2;
     View.tags := tags d.2;
     View.isPublic := isPublic d.2;
     View.notes := notes d.2;
     View.createdAt := createdAt d.2;
     View.updatedAt := updatedAt d.2 |}.

End Goal.

(** ** models/Achievement.js *)

Module Achievement.

Inductive Metric :=
  | carbon_reduction | activities_count | streak_days
  | goals_completed | community_posts | education_modules.

Inductive Unit := kg | tons | count | days | percentage.

Inductive Timeframe := lifetime | daily | weekly | monthly | yearly.

Inductive Rarity := common | uncommon | rare | epic | legendary.

(** The value the [rarity] path stores: a [String] restricted by [enum]. *)
Definition rarityString (r : Rarity) : string :=
  match r with
  | common => "common"%string
  | uncommon => "uncommon"%string
  | rare => "rare"%string
  | epic => "epic"%string
  | legendary => "legendary"%string
  end.

Record Criteria := {
  metric : Metric;
  threshold : Z;
  unit : Unit;
  timeframe : Timeframe
}.

Record Progress := {
  current : Z;
  required : Z;
  lastUpdated : Z
}.

Record t := {
  user : Z;
  title : string;
  description : string;
  category : string;
  type : string;
  criteria : Criteria;
  icon : string;
  badge : string;
  points : Z;
  rarity : Rarity;
  isUnlocked : bool;
  unlockedAt : option Z;
  progress : Progress;
  tags : list string;
  isHidden : bool;
  expiresAt : option Z;
  isActive : bool;
  (** maintained by the schema option [timestamps: true] *)
  createdAt : Z;
  updatedAt : Z
}.

(** The assignments an instance method makes before [this.save()], gathered:
    new [progress], [isUnlocked], [unlockedAt], and the [updatedAt] stamp of
    the save. *)
Definition assign (a : t) (p : Progress) (unlocked : bool) (at_ : option Z)
    (now : Z) : t :=
  {| user := user a; title := title a; description := description a;
     category := category a; type := type a; criteria := criteria a;
     icon := icon a; badge := badge a; points := points a; rarity := rarity a;
     isUnlocked := unlocked;
     unlockedAt := at_;
     progress := p;
     tags := tags a; isHidden := isHidden a; expiresAt := expiresAt a;
     isActive := isActive a; createdAt := createdAt a;
     updatedAt := now |}.

(** [achievementSchema.methods.updateProgress] at instant [now]. *)
Definition updateProgress (now newProgress : Z) (a : t) : t :=
  let cur := Z.max 0 newProgress in
  let p := {| current := cur;
              required := required (progress a);
              lastUpdated := now |} in
  if bool_decide (required (progress a) ≤ cur) && negb (isUnlocked a)
  then assign a p true (Some now) now
  else assign a p (isUnlocked a) (unlockedAt a) now.

(** [achievementSchema.methods.unlock] at instant [now]. A save of an
    unmodified document writes nothing. *)
Definition unlock (now : Z) (a : t) : t :=
  if negb (isUnlocked a)
  then assign a {| current := required (progress a);
                   required := required (progress a);
                   lastUpdated := now |} true (Some now) now
  else a.

(** The virtual [progressPercentage]. *)
Definition progressPercentage (a : t) : Q :=
  if bool_decide (required (progress a) = 0) then 0%Q
  else Qmin (inject_Z (current (progress a)) / inject_Z (required (progress a)) * 100)%Q 100%Q.

(** The virtual [isExpired], read at instant [now]. *)
Definition isExpired (now : Z) (a : t) : bool :=
  match expiresAt a with
  | None => false
  | Some e => bool_decide (e < now)
  end.

(** A stored document: its [_id] and its fields. *)
Definition Doc : Type := Z * t.

(** [$or: [{ expiresAt: { $exists: false } }, { expiresAt: { $gt: now } }]] *)
Definition unexpired (now : Z) (e : option Z) : Prop :=
  match e with
  | None => True
  | Some e => now < e
  end.

Global Instance unexpired_dec now e : Decision (unexpired now e).
Proof. destruct e; simpl; apply _. Defined.

(** The filter of [getUserAvailableAchievements], evaluated at [now]. *)
Definition available (userId now : Z) (d : Doc) : Prop :=
  user d.2 = userId ∧ isUnlocked d.2 = false ∧ isHidden d.2 = false ∧
  isActive d.2 = true ∧ unexpired now (expiresAt d.2).

Global Instance available_dec userId now d : Decision (available userId now d).
Proof. unfold available. apply _. Defined.

(** The order of [.sort({ rarity: 1, createdAt: 1 })]: the stored rarity
    strings ascending, compared as strings, then [createdAt] ascending. *)
Definition sortLeb (x y : Doc) : bool :=
  match String.compare (rarityString (rarity x.2)) (rarityString (rarity y.2)) with
  | Lt => true
  | Eq => bool_decide (createdAt x.2 ≤ createdAt y.2)
  | Gt => false
  end.

Definition sortLe (x y : Doc) : Prop := sortLeb x y = true.

Global Instance sortLe_dec : RelDecision sortLe.
Proof. intros x y. unfold sortLe. apply _. Defined.

(** [achievementSchema.statics.getUserAvailableAchievements], on the
    collection [coll] at instant [now]. *)
Definition getUserAvailableAchievements (coll : gmap Z t) (userId now : Z) : list Doc :=
  merge_sort sortLe (filter (available userId now) (map_to_list coll)).

(** What [this.save()] does to the collection. *)
Definition save (d : Doc) (coll : gmap Z t) : gmap Z t := <[d.1 := d.2]> coll.

(** [achievementSchema.methods.toResponseFormat], read at instant [now]. *)
Module View.
Record t := {
  id : Z;
  title : string;
  description : string;
  category : string;
  type : string;
  criteria : Criteria;
  icon : string;
  badge : string;
  points : Z;
  rarity : Rarity;
  isUnlocked : bool;
  unlockedAt : option Z;
  progressCurrent : Z;
  progressRequired : Z;
  progressPercentage : Q;
  tags : list string;
  isHidden : bool;
  isExpired : bool;
  createdAt : Z;
  updatedAt : Z
}.
End View.

Definition toResponseFormat (now : Z) (d : Doc) : View.t :=
  {| View.id := d.1;
     View.title := title d.2;
     View.description := description d.2;
     View.category := category d.2;
     View.type := type d.2;
     View.criteria := criteria d.2;
     View.icon := icon d.2;
     View.badge := badge d.2;
     View.points := points d.2;
     View.rarity := rarity d.2;
     View.isUnlocked := isUnlocked d.2;
     View.unlockedAt := unlockedAt d.2;
     View.progressCurrent := current (progress d.2);
     View.progressRequired := required (progress d.2);
     View.progressPercentage := progressPercentage d.2;
     View.tags := tags d.2;
     View.isHidden := isHidden d.2;
     View.isExpired := isExpired now d.2;
     View.createdAt := createdAt d.2;
     View.updatedAt := updatedAt d.2 |}.

Global Instance Rarity_eq_dec : EqDecision Rarity.
Proof. solve_decision. Defined.

(** The filter [{ user: userId, isUnlocked: true, isActive: true }] of
    [getUserUnlockedAchievements] and of the [$match] stage of
    [getUserTotalPoints]. *)
Definition unlockedActive (userId : Z) (d : Doc) : Prop :=
  user d.2 = userId ∧ isUnlocked d.2 = true ∧ isActive d.2 = true.

Global Instance unlockedActive_dec userId d : Decision (unlockedActive userId d).
Proof. unfold unlockedActive. apply _. Defined.

(** The order of an optional date in a sort: a missing field sorts below
    every date. *)
Definition dateLe (x y : option Z) : Prop :=
  match x, y with
  | None, _ => True
  | Some _, None => False
  | Some a, Some b => a ≤ b
  end.

Global Instance dateLe_dec x y : Decision (dateLe x y).
Proof. destruct x, y; simpl; apply _. Defined.

(** [.sort({ unlockedAt: -1 })] *)
Definition unlockedAtDesc (x y : Doc) : Prop := dateLe (unlockedAt y.2) (unlockedAt x.2).

Global Instance unlockedAtDesc_dec : RelDecision unlockedAtDesc.
Proof. intros x y. unfold unlockedAtDesc. apply _. Defined.

(** [achievementSchema.statics.getUserUnlockedAchievements] *)
Definition getUserUnlockedAchievements (coll : gmap Z t) (userId : Z) : list Doc :=
  merge_sort unlockedAtDesc (filter (unlockedActive userId) (map_to_list coll)).

(** The filter [{ user: userId, category: category, isActive: true }]. *)
Definition inCategory (userId : Z) (c : string) (d : Doc) : Prop :=
  user d.2 = userId ∧ category d.2 = c ∧ isActive d.2 = true.

Global Instance inCategory_dec userId c d : Decision (inCategory userId c d).
Proof. unfold inCategory. apply _. Defined.

(** [.sort({ isUnlocked: 1, rarity: 1 })]: [false] before [true], then the
    stored rarity strings ascending. *)
Definition lockedFirstLeb (x y : Doc) : bool :=
  match isUnlocked x.2, isUnlocked y.2 with
  | false, true => true
  | true, false => false
  | _, _ => String.leb (rarityString (rarity x.2)) (rarityString (rarity y.2))
  end.

Definition lockedFirst (x y : Doc) : Prop := lockedFirstLeb x y = true.

Global Instance lockedFirst_dec : RelDecision lockedFirst.
Proof. intros x y. unfold lockedFirst. apply _. Defined.

(** [achievementSchema.statics.getAchievementsByCategory] *)
Definition getAchievementsByCategory (coll : gmap Z t) (userId : Z) (c : string) : list Doc :=
  merge_sort lockedFirst (filter (inCategory userId c) (map_to_list coll)).

(** The documents of the [$group] stage of [getUserTotalPoints]. *)
Record TotalPoints := {
  totalPoints : Z;
  achievementCount : Z
}.

(** The pipeline of [getUserTotalPoints]: the matching documents form one
    group with [_id: null]; without a matching document there is no group. *)
Definition aggregateTotalPoints (coll : gmap Z t) (userId : Z) : list TotalPoints :=
  match filter (unlockedActive userId) (map_to_list coll) with
  | [] => []
  | matched =>
      [{| totalPoints := foldr (λ d sum, points d.2 + sum) 0 matched;
          achievementCount := Z.of_nat (length matched) |}]
  end.

(** [achievementSchema.statics.getUserTotalPoints]:
    [result[0] || { totalPoints: 0, achievementCount: 0 }]. *)
Definition getUserTotalPoints (coll : gmap Z t) (userId : Z) : TotalPoints :=
  default {| totalPoints := 0; achievementCount := 0 |}
    (head (aggregateTotalPoints coll userId)).

End Achievement.

(** ** routes/achievements.js *)

Module AchievementRoutes.

Import JsDate.

(** The collections the metric evaluation queries. A collection whose
    queries reject (store unreachable, query error) is [Rejected]. *)
Record Stores := {
  activities : Result (list Activity.t);
  goals : Result (list Goal.t)
}.

(** The first [switch] of [calculateAchievementProgress]: the start of the
    window of a timeframe. *)
Definition startDateOf (cal : Calendar) (now : Z) (timeframe : Achievement.Timeframe) : Z :=
  match timeframe with
  | Achievement.daily => setHours0 cal now
  | Achievement.weekly => setDate cal now (-7)
  | Achievement.monthly => setMonth cal now (-1)
  | Achievement.yearly => setFullYear cal now (-1)
  | Achievement.lifetime => 0
  end.

(** The [filter] callback of the streak loop: the activity falls on the
    calendar day that starts at [currentDate]. *)
Definition onDay (cal : Calendar) (currentDate : Z) (activity : Activity.t) : Prop :=
  setHours0 cal (Activity.date activity) = currentDate.

Global Instance onDay_dec cal currentDate activity : Decision (onDay cal currentDate activity).
Proof. unfold onDay. apply _. Defined.

(** The [for] loop of the [streak_days] case with [n] iterations left. *)
Fixpoint streakLoop (cal : Calendar) (activities : list Activity.t) (n : nat)
    (currentDate streak : Z) : Z :=
  match n with
  | O => streak
  | S n' =>
      let dayActivities := filter (onDay cal currentDate) activities in
      if bool_decide (0 < length dayActivities)%nat
      then streakLoop cal activities n' (setDate cal currentDate (-1)) (streak + 1)
      else streak
  end.

(** The [streak_days] case after its query: [let streak = 0; ...;
    progress = streak]. *)
Definition streakDays (cal : Calendar) (now : Z) (activities : list Activity.t) : Z :=
  streakLoop cal activities 365 (setHours0 cal now) 0.

(** [calculateAchievementProgress(user, achievement)] *)
Definition calculateAchievementProgress (cal : Calendar) (now : Z) (db : Stores)
    (user : User.t) (achievement : Achievement.t) : Result Z :=
  let metric := Achievement.metric (Achievement.criteria achievement) in
  let threshold := Achievement.threshold (Achievement.criteria achievement) in
  let timeframe := Achievement.timeframe (Achievement.criteria achievement) in
  let startDate := startDateOf cal now timeframe in
  await progress ←
    match metric with
    | Achievement.carbon_reduction =>
        let baseline := User.baseline (User.carbonFootprint user) in
        let current := User.total (User.carbonFootprint user) in
        Ok (Z.max 0 (baseline - current))
    | Achievement.activities_count =>
        await coll ← activities db;
        Ok (Activity.countDocuments coll (User._id user) startDate)
    | Achievement.streak_days =>
        await coll ← activities db;
        Ok (streakDays cal now (Activity.find coll (User._id user) startDate))
    | Achievement.goals_completed =>
        await coll ← goals db;
        Ok (Goal.countDocuments coll (User._id user) startDate)
    | Achievement.community_posts => Ok 0
    | Achievement.education_modules => Ok 0
    end;
  Ok (Z.min progress threshold).

(** The [for ... of] loop of the [/check] handler over the achievements
    still to visit: the state is the Achievement collection and the
    [newlyUnlocked] array; a rejected evaluation leaves the loop with the
    collection as it then is. *)
Fixpoint checkLoop (cal : Calendar) (now : Z) (db : Stores) (user : User.t)
    (todo : list Achievement.Doc) (coll : gmap Z Achievement.t)
    (newlyUnlocked : list Achievement.View.t)
    : Result (list Achievement.View.t) * gmap Z Achievement.t :=
  match todo with
  | [] => (Ok newlyUnlocked, coll)
  | achievement :: todo' =>
      match calculateAchievementProgress cal now db user achievement.2 with
      | Rejected => (Rejected, coll)
      | Ok progress =>
          if bool_decide (progress ≠ Achievement.current (Achievement.progress achievement.2))
          then
            let achievement' :=
              (achievement.1, Achievement.updateProgress now progress achievement.2) in
            let coll' := Achievement.save achievement' coll in
            if Achievement.isUnlocked achievement'.2
               && negb (bool_decide (is_Some (Achievement.unlockedAt achievement'.2)))
            then checkLoop cal now db user todo' coll'
                   (newlyUnlocked ++ [Achievement.toResponseFormat now achievement'])
            else checkLoop cal now db user todo' coll' newlyUnlocked
          else checkLoop cal now db user todo' coll newlyUnlocked
      end
  end.

(** One turn of the loop whose evaluation resolved with [progress], read
    as its effect on the collection and on the [newlyUnlocked] array. *)
Definition turnColl (now progress : Z) (d : Achievement.Doc)
    (coll : gmap Z Achievement.t) : gmap Z Achievement.t :=
  if bool_decide (progress ≠ Achievement.current (Achievement.progress d.2))
  then Achievement.save (d.1, Achievement.updateProgress now progress d.2) coll
  else coll.

Definition turnNewly (now progress : Z) (d : Achievement.Doc)
    (newlyUnlocked : list Achievement.View.t) : list Achievement.View.t :=
  if bool_decide (progress ≠ Achievement.current (Achievement.progress d.2))
     && (Achievement.isUnlocked (Achievement.updateProgress now progress d.2)
         && negb (bool_decide (is_Some (Achievement.unlockedAt
                                          (Achievement.updateProgress now progress d.2)))))
  then newlyUnlocked
       ++ [Achievement.toResponseFormat now (d.1, Achievement.updateProgress now progress d.2)]
  else newlyUnlocked.

(** The state in which one turn of the loop leaves the achievement it
    visits, when the evaluation resolved with [progress]. *)
Definition afterVisit (now progress : Z) (a : Achievement.t) : Achievement.t :=
  if bool_decide (progress ≠ Achievement.current (Achievement.progress a))
  then Achievement.updateProgress now progress a
  else a.

Inductive Response :=
  (** [res.json({ message, newlyUnlocked, totalUnlocked })] *)
  | Json (newlyUnlocked : list Achievement.View.t) (totalUnlocked : Z)
  (** [res.status(500).json({ error: 'Server error' })] *)
  | ServerError.

(** The handler of [POST /api/achievements/check] for the authenticated
    [user], on the Achievement collection [coll]: the response and the
    collection after the request. The Achievement collection itself is
    taken to answer its query and to accept the saves. *)
Definition check (cal : Calendar) (now : Z) (db : Stores) (user : User.t)
    (coll : gmap Z Achievement.t) : Response * gmap Z Achievement.t :=
  let availableAchievements :=
    Achievement.getUserAvailableAchievements coll (User._id user) now in
  match checkLoop cal now db user availableAchievements coll [] with
  | (Ok newlyUnlocked, coll') => (Json newlyUnlocked (Z.of_nat (length newlyUnlocked)), coll')
  | (Rejected, coll') => (ServerError, coll')
  end.

(** [Math.ceil(total / limit)] for a positive [limit]. *)
Definition ceilDiv (total limit : Z) : Z := (total + limit - 1) `div` limit.

(** [.skip((page - 1) * limit).limit(limit)] on the sorted result of a
    query, for a page number and a page size that [parseInt] reads as
    positive integers. *)
Definition skipLimit {A} (page limit : positive) (sorted : list A) : list A :=
  take (Pos.to_nat limit) (drop ((Pos.to_nat page - 1) * Pos.to_nat limit) sorted).

Record Pagination := {
  page : Z;
  limit : Z;
  total : Z;
  pages : Z
}.

(** The [pagination] object of the list handlers. *)
Definition pagination (page limit : positive) (total : nat) : Pagination :=
  {| page := Z.pos page; limit := Z.pos limit; total := Z.of_nat total;
     pages := ceilDiv (Z.of_nat total) (Z.pos limit) |}.


(** The [filter] object of [GET /api/achievements]: [status] and
    [category] are the query parameters, absent when not sent; an empty
    [category] is falsy. *)
Definition listFilter (userId : Z) (status category : option string)
    (d : Achievement.Doc) : Prop :=
  Achievement.user d.2 = userId
  ∧ match status with
    | Some s =>
        if decide (s = "unlocked"%string) then Achievement.isUnlocked d.2 = true
        else if decide (s = "available"%string)
        then Achievement.isUnlocked d.2 = false ∧ Achievement.isHidden d.2 = false
        else True
    | None => True
    end
  ∧ match category with
    | Some c => if decide (c = EmptyString) then True else Achievement.category d.2 = c
    | None => True
    end.

Global Instance listFilter_dec userId status category d :
  Decision (listFilter userId status category d).
Proof.
  unfold listFilter. apply and_dec; [apply _ |]. apply and_dec.
  - destruct status as [s |]; [| apply _]. repeat case_decide; apply _.
  - destruct category as [c |]; [| apply _]. case_decide; apply _.
Defined.

(** The handler of [GET /api/achievements]: the page of views and the
    pagination object. *)
Definition getAchievements (now userId : Z) (status category : option string)
    (page limit : positive) (coll : gmap Z Achievement.t)
    : list Achievement.View.t * Pagination :=
  let matching := filter (listFilter userId status category) (map_to_list coll) in
  let achievements := skipLimit page limit (merge_sort Achievement.sortLe matching) in
  (Achievement.toResponseFormat now <$> achievements,
   pagination page limit (length matching)).

(** The handlers of [GET /api/achievements/unlocked] and [/available]. *)
Definition getUnlocked (now userId : Z) (coll : gmap Z Achievement.t)
    : list Achievement.View.t :=
  Achievement.toResponseFormat now <$> Achievement.getUserUnlockedAchievements coll userId.

Definition getAvailable (now userId : Z) (coll : gmap Z Achievement.t)
    : list Achievement.View.t :=
  Achievement.toResponseFormat now
    <$> Achievement.getUserAvailableAchievements coll userId now.

(** The handler of [GET /api/achievements/:id]: the view, or [None] for
    the 404 answer. *)
Definition getAchievement (now userId id : Z) (coll : gmap Z Achievement.t)
    : option Achievement.View.t :=
  match coll !! id with
  | Some a =>
      if bool_decide (Achievement.user a = userId)
      then Some (Achievement.toResponseFormat now (id, a))
      else None
  | None => None
  end.

(** The [stats] object of [GET /api/achievements/stats/overview]. *)
Record Stats := {
  statsTotal : Z;
  statsUnlocked : Z;
  statsAvailable : Z;
  statsTotalPoints : Z;
  statsAchievementCount : Z;
  completionRate : Q
}.

(** [Achievement.countDocuments({ user: user._id })] *)
Definition countOfUser (userId : Z) (coll : gmap Z Achievement.t) : Z :=
  Z.of_nat (length (filter (λ d : Achievement.Doc, Achievement.user d.2 = userId)
                      (map_to_list coll))).

(** One step of the [forEach] that fills [rarityStats]:
    [rarityStats[rarity] = (rarityStats[rarity] || 0) + 1]. *)
Definition countRarity (rarityStats : gmap string Z) (achievement : Achievement.Doc)
    : gmap string Z :=
  let key := Achievement.rarityString (Achievement.rarity achievement.2) in
  <[key := default 0 (rarityStats !! key) + 1]> rarityStats.

Record Overview := {
  stats : Stats;
  rarityStats : gmap string Z;
  recentUnlocked : list Achievement.View.t
}.

(** The handler of [GET /api/achievements/stats/overview]. *)
Definition statsOverview (now userId : Z) (coll : gmap Z Achievement.t) : Overview :=
  let unlockedAchievements := Achievement.getUserUnlockedAchievements coll userId in
  let availableAchievements := Achievement.getUserAvailableAchievements coll userId now in
  let totalPoints := Achievement.getUserTotalPoints coll userId in
  let count := countOfUser userId coll in
  {| stats :=
       {| statsTotal := count;
          statsUnlocked := Z.of_nat (length unlockedAchievements);
          statsAvailable := Z.of_nat (length availableAchievements);
          statsTotalPoints := Achievement.totalPoints totalPoints;
          statsAchievementCount := Achievement.achievementCount totalPoints;
          completionRate :=
            if bool_decide (0 < count)
            then (inject_Z (Z.of_nat (length unlockedAchievements)) / inject_Z count * 100)%Q
            else 0%Q |};
     rarityStats := foldl countRarity ∅ unlockedAchievements;
     recentUnlocked :=
       Achievement.toResponseFormat now <$> take 5 unlockedAchievements |}.

End AchievementRoutes.

(** ** routes/goals.js *)

Module GoalRoutes.

Inductive Response :=
  (** [res.json({ message, goal })] *)
  | Json (goal : Goal.View.t)
  (** [res.json({ message })] of the delete handler *)
  | Deleted
  (** [res.status(400).json({ error: 'Validation failed', details })] *)
  | ValidationFailed
  (** [res.status(404).json({ error: 'Goal not found' })] *)
  | NotFound.

(** [Goal.findOne({ _id: id, user: userId })] *)
Definition findOne (coll : gmap Z Goal.t) (id userId : Z) : option Goal.t :=
  match coll !! id with
  | Some goal => if bool_decide (Goal.user goal = userId) then Some goal else None
  | None => None
  end.

(** The handler of [GET /api/goals/:id]. *)
Definition getGoal (now userId id : Z) (coll : gmap Z Goal.t) : Response :=
  match findOne coll id userId with
  | Some goal => Json (Goal.toResponseFormat now (id, goal))
  | None => NotFound
  end.

(** The handler of [PUT /api/goals/:id/progress]. The body field [value]
    is [None] when it is missing or not numeric; the validator
    [isFloat({ min: 0 })] accepts it otherwise when it is at least 0. *)
Definition putProgress (now userId id : Z) (value : option Z) (coll : gmap Z Goal.t)
    : Response * gmap Z Goal.t :=
  match value with
  | Some v =>
      if bool_decide (0 ≤ v)
      then match findOne coll id userId with
           | Some goal =>
               let goal' := Goal.updateProgress now v goal in
               (Json (Goal.toResponseFormat now (id, goal')), <[id := goal']> coll)
           | None => (NotFound, coll)
           end
      else (ValidationFailed, coll)
  | None => (ValidationFailed, coll)
  end.

(** The handler of [DELETE /api/goals/:id]. *)
Definition deleteGoal (userId id : Z) (coll : gmap Z Goal.t) : Response * gmap Z Goal.t :=
  match findOne coll id userId with
  | Some _ => (Deleted, delete id coll)
  | None => (NotFound, coll)
  end.

(** The value a [status] path stores. *)
Definition statusString (s : Goal.Status) : string :=
  match s with
  | Goal.active => "active"
  | Goal.completed => "completed"
  | Goal.paused => "paused"
  | Goal.cancelled => "cancelled"
  end.

(** The [filter] object of [GET /api/goals]: a query parameter that is
    absent or empty adds no condition. *)
Definition listFilter (userId : Z) (status category : option string) (d : Goal.Doc) : Prop :=
  Goal.user d.2 = userId
  ∧ match status with
    | Some s => if decide (s = EmptyString) then True else statusString (Goal.status d.2) = s
    | None => True
    end
  ∧ match category with
    | Some c => if decide (c = EmptyString) then True else Goal.category d.2 = c
    | None => True
    end.

Global Instance listFilter_dec userId status category d :
  Decision (listFilter userId status category d).
Proof.
  unfold listFilter. apply and_dec; [apply _ |]. apply and_dec.
  - destruct status as [s |]; [| apply _]. case_decide; apply _.
  - destruct category as [c |]; [| apply _]. case_decide; apply _.
Defined.


(** The filter [{ user: userId, status: 'completed' }]. *)
Definition completedOf (userId : Z) (d : Goal.Doc) : Prop :=
  Goal.user d.2 = userId ∧ Goal.status d.2 = Goal.completed.

Global Instance completedOf_dec userId d : Decision (completedOf userId d).
Proof. unfold completedOf. apply _. Defined.

(** [.sort({ updatedAt: -1 })] *)
Definition updatedAtDesc (x y : Goal.Doc) : Prop := Goal.updatedAt y.2 ≤ Goal.updatedAt x.2.

Global Instance updatedAtDesc_dec : RelDecision updatedAtDesc.
Proof. intros x y. unfold updatedAtDesc. apply _. Defined.

(** The [stats] object of [GET /api/goals/stats/overview]. *)
Record Stats := {
  total : Z;
  active : Z;
  completed : Z;
  overdue : Z;
  averageProgress : Q
}.

Record Overview := {
  stats : Stats;
  activeGoals : list Goal.View.t;
  recentCompleted : list Goal.View.t
}.

(** The handler of [GET /api/goals/stats/overview]. *)
Definition statsOverview (now userId : Z) (coll : gmap Z Goal.t) : Overview :=
  let activeGoals := Goal.getUserActiveGoals coll userId in
  let completedGoals :=
    take 5 (merge_sort updatedAtDesc (filter (completedOf userId) (map_to_list coll))) in
  {| stats :=
       {| total := Z.of_nat (length (filter (λ d : Goal.Doc, Goal.user d.2 = userId)
                                       (map_to_list coll)));
          active := Z.of_nat (length activeGoals);
          completed := Z.of_nat (length (filter (completedOf userId) (map_to_list coll)));
          overdue := Z.of_nat (length (filter (λ goal : Goal.Doc,
                                                 Goal.isOverdue now goal.2 = true)
                                         activeGoals));
          averageProgress :=
            if bool_decide (0 < length activeGoals)%nat
            then (foldl (λ sum (goal : Goal.Doc), sum + Goal.progressPercentage goal.2) 0
                    activeGoals
                  / inject_Z (Z.of_nat (length activeGoals)))%Q
            else 0%Q |};
     activeGoals := Goal.toResponseFormat now <$> activeGoals;
     recentCompleted := Goal.toResponseFormat now <$> completedGoals |}.

End GoalRoutes.

(** ** routes/activities.js *)

Module ActivityRoutes.

Inductive Response :=
  (** [res.status(201).json({ message, activity })] *)
  | Created (activity : Activity.t)
  (** [res.json({ message })] of the delete handler *)
  | Deleted
  (** [res.status(404).json({ error: 'Activity not found' })] *)
  | NotFound
  (** [res.status(500).json({ error: 'Server error' })] *)
  | ServerError.

(** [user.carbonFootprint.total += delta;
     user.carbonFootprint.lastCalculated = new Date()] *)
Definition addToTotal (now delta : Z) (user : User.t) : User.t :=
  {| User._id := User._id user;
     User.name := User.name user;
     User.email := User.email user;
     User.carbonFootprint :=
       {| User.total := User.total (User.carbonFootprint user) + delta;
          User.baseline := User.baseline (User.carbonFootprint user);
          User.target := User.target (User.carbonFootprint user);
          User.lastCalculated := now |};
     User.isActive := User.isActive user |}.

(** [{ ...req.body, user: user._id }]: the document owned by [userId]. *)
Definition ownedBy (userId : Z) (a : Activity.t) : Activity.t :=
  {| Activity.user := userId;
     Activity.category := Activity.category a;
     Activity.title := Activity.title a;
     Activity.date := Activity.date a;
     Activity.carbonFootprint := Activity.carbonFootprint a;
     Activity.status := Activity.status a |}.

(** The handler of [POST /api/activities] from [new Activity(activityData)]
    on, for a body that has passed validation: [body] holds its fields
    (its [date] already defaulted to the time of the request) and [id] is
    the [_id] the driver generates. Saving under an [_id] in use is
    rejected by the store. *)
Definition postActivity (now id : Z) (body : Activity.t) (user : User.t)
    (coll : gmap Z Activity.t) : Response * User.t * gmap Z Activity.t :=
  let activity := ownedBy (User._id user) body in
  match coll !! id with
  | Some _ => (ServerError, user, coll)
  | None =>
      let carbonValue := Activity.carbonKg activity in
      (Created activity, addToTotal now carbonValue user, <[id := activity]> coll)
  end.

(** [Activity.findOne({ _id: id, user: userId })] *)
Definition findOne (coll : gmap Z Activity.t) (id userId : Z) : option Activity.t :=
  match coll !! id with
  | Some a => if bool_decide (Activity.user a = userId) then Some a else None
  | None => None
  end.

(** The handler of [DELETE /api/activities/:id]. *)
Definition deleteActivity (now id : Z) (user : User.t) (coll : gmap Z Activity.t)
    : Response * User.t * gmap Z Activity.t :=
  match findOne coll id (User._id user) with
  | Some activity =>
      let carbonValue := Activity.carbonKg activity in
      (Deleted, addToTotal now (- carbonValue) user, delete id coll)
  | None => (NotFound, user, coll)
  end.

(** The [filter] object of [GET /api/activities]: each date bound is added
    on its own. *)
Definition listFilter (userId : Z) (category : option string) (startDate endDate : option Z)
    (d : Z * Activity.t) : Prop :=
  Activity.user d.2 = userId ∧ Activity.status d.2 = Activity.active
  ∧ match category with
    | Some c => if decide (c = EmptyString) then True else Activity.category d.2 = c
    | None => True
    end
  ∧ match startDate with Some s => s ≤ Activity.date d.2 | None => True end
  ∧ match endDate with Some e => Activity.date d.2 ≤ e | None => True end.

Global Instance listFilter_dec userId category startDate endDate d :
  Decision (listFilter userId category startDate endDate d).
Proof.
  unfold listFilter. repeat apply and_dec; try apply _.
  - destruct category as [c |]; [| apply _]. case_decide; apply _.
  - destruct startDate; apply _.
  - destruct endDate; apply _.
Defined.

(** [.sort({ date: -1 })] on stored documents. *)
Definition dateDesc (x y : Z * Activity.t) : Prop := Activity.dateDesc x.2 y.2.

Global Instance dateDesc_dec : RelDecision dateDesc.
Proof. intros x y. unfold dateDesc. apply _. Defined.

(** The handler of [GET /api/activities]. *)
Definition getActivities (userId : Z) (category : option string)
    (startDate endDate : option Z) (page limit : positive) (coll : gmap Z Activity.t)
    : list (Z * Activity.t) * AchievementRoutes.Pagination :=
  let matching := filter (listFilter userId category startDate endDate) (map_to_list coll) in
  (AchievementRoutes.skipLimit page limit (merge_sort dateDesc matching),
   AchievementRoutes.pagination page limit (length matching)).

(** The handler of [GET /api/activities/stats]. *)
Definition getStats (user : User.t) (startDate endDate : option Z)
    (coll : gmap Z Activity.t)
    : Activity.Total.t * list Activity.ByCategory.t * User.Stats :=
  (Activity.getUserTotalFootprint (map_to_list coll).*2 (User._id user) startDate endDate,
   Activity.getFootprintByCategory (map_to_list coll).*2 (User._id user) startDate endDate,
   User.getStats user).

End ActivityRoutes.

(** ** The specification's own notions

    Definitions that follow the wording of the specification, to compare
    with the code above. *)

Module Spec.

Import JsDate.

(** §4.1 step 1: the window start of a timeframe. *)
Definition windowStart (cal : Calendar) (now : Z) (timeframe : Achievement.Timeframe) : Z :=
  match timeframe with
  | Achievement.daily => setHours0 cal now
  | Achievement.weekly => setDate cal now (-7)
  | Achievement.monthly => setMonth cal now (-1)
  | Achievement.yearly => setFullYear cal now (-1)
  | Achievement.lifetime => 0
  end.

(** §4.2: the start of the calendar day [k] days before today. *)
Definition dayBack (cal : Calendar) (now : Z) (k : nat) : Z :=
  Nat.iter k (λ d, setDate cal d (-1)) (setHours0 cal now).

(** §4.2: a day is matching if the date of some activity, truncated to its
    calendar day, is the day under test. *)
Definition dayHasActivity (cal : Calendar) (activities : list Activity.t) (day : Z) : Prop :=
  Exists (λ a, setHours0 cal (Activity.date a) = day) activities.

Global Instance dayHasActivity_dec cal activities day :
  Decision (dayHasActivity cal activities day).
Proof. unfold dayHasActivity. apply _. Defined.

(** §4.2: the number of days scanned backward from today before the first
    gap day, at most 365. *)
Definition streak (cal : Calendar) (now : Z) (activities : list Activity.t) : Z :=
  match list_find (λ k, ¬ dayHasActivity cal activities (dayBack cal now k)) (seq 0 365) with
  | Some (k, _) => Z.of_nat k
  | None => 365
  end.

(** §6 [listActive]: the user's active activities dated in the window. *)
Definition activeInWindow (coll : list Activity.t) (userId start : Z) : list Activity.t :=
  filter (λ a, Activity.user a = userId ∧ Activity.status a = Activity.active
               ∧ start ≤ Activity.date a) coll.

(** §6 [countGoals]: the user's completed goals updated in the window. *)
Definition completedInWindow (coll : list Goal.t) (userId start : Z) : list Goal.t :=
  filter (λ g, Goal.user g = userId ∧ Goal.status g = Goal.completed
               ∧ start ≤ Goal.updatedAt g) coll.

(** §4.1 step 2: the value of a metric before the clamp of step 3. *)
Definition metricValue (cal : Calendar) (now : Z) (db : AchievementRoutes.Stores)
    (user : User.t) (criteria : Achievement.Criteria) : Result Z :=
  let start := windowStart cal now (Achievement.timeframe criteria) in
  match Achievement.metric criteria with
  | Achievement.carbon_reduction =>
      Ok (Z.max 0 (User.baseline (User.carbonFootprint user)
                   - User.total (User.carbonFootprint user)))
  | Achievement.activities_count =>
      await coll ← AchievementRoutes.activities db;
      Ok (Z.of_nat (length (activeInWindow coll (User._id user) start)))
  | Achievement.streak_days =>
      await coll ← AchievementRoutes.activities db;
      Ok (streak cal now (activeInWindow coll (User._id user) start))
  | Achievement.goals_completed =>
      await coll ← AchievementRoutes.goals db;
      Ok (Z.of_nat (length (completedInWindow coll (User._id user) start)))
  | Achievement.community_posts | Achievement.education_modules => Ok 0
  end.

(** §4.3 step 1: the rarity order common < uncommon < rare < epic < legendary. *)
Definition rarityRank (r : Achievement.Rarity) : Z :=
  match r with
  | Achievement.common => 0
  | Achievement.uncommon => 1
  | Achievement.rare => 2
  | Achievement.epic => 3
  | Achievement.legendary => 4
  end.

(** §4.3 step 1: rarity ascending, then creation order. *)
Definition rarityThenCreation (x y : Achievement.Doc) : Prop :=
  rarityRank (Achievement.rarity x.2) < rarityRank (Achievement.rarity y.2)
  ∨ (Achievement.rarity x.2 = Achievement.rarity y.2
     ∧ Achievement.createdAt x.2 ≤ Achievement.createdAt y.2).

End Spec.

(** The position of each rarity in the order of the stored strings. *)
Definition storedRarityRank (r : Achievement.Rarity) : Z :=
  match r with
  | Achievement.common => 0
  | Achievement.epic => 1
  | Achievement.legendary => 2
  | Achievement.rare => 3
  | Achievement.uncommon => 4
  end.

(** ** Sample data *)

Module Sample.

Local Open Scope string_scope.

Definition user (baseline total : Z) : User.t :=
  {| User._id := 1; User.name := "Ada"; User.email := "ada@example.org";
     User.carbonFootprint :=
       {| User.total := total; User.baseline := baseline; User.target := 0;
          User.lastCalculated := 0 |};
     User.isActive := true |}.

(** A fresh, locked achievement of user 1. *)
Definition achievement (metric : Achievement.Metric) (timeframe : Achievement.Timeframe)
    (threshold required : Z) (rarity : Achievement.Rarity) (createdAt : Z) : Achievement.t :=
  {| Achievement.user := 1; Achievement.title := "Badge";
     Achievement.description := "A badge"; Achievement.category := "milestone";
     Achievement.type := "milestone";
     Achievement.criteria :=
       {| Achievement.metric := metric; Achievement.threshold := threshold;
          Achievement.unit := Achievement.count; Achievement.timeframe := timeframe |};
     Achievement.icon := EmptyString; Achievement.badge := EmptyString; Achievement.points := 10;
     Achievement.rarity := rarity; Achievement.isUnlocked := false;
     Achievement.unlockedAt := None;
     Achievement.progress :=
       {| Achievement.current := 0; Achievement.required := required;
          Achievement.lastUpdated := createdAt |};
     Achievement.tags := []; Achievement.isHidden := false;
     Achievement.expiresAt := None; Achievement.isActive := true;
     Achievement.createdAt := createdAt; Achievement.updatedAt := createdAt |}.

(** An active activity of user [userId] dated [date]. *)
Definition activity (userId date : Z) : Activity.t :=
  {| Activity.user := userId; Activity.category := "transportation";
     Activity.title := "Cycled to work"; Activity.date := date;
     Activity.carbonFootprint := {| Activity.value := 0; Activity.unit := Activity.kg |};
     Activity.status := Activity.active |}.

(** An active activity of user [userId] with the given category and
    carbon footprint. *)
Definition activityOf (userId date : Z) (category : string) (value : Z)
    (unit : Activity.CarbonUnit) : Activity.t :=
  {| Activity.user := userId; Activity.category := category;
     Activity.title := "Logged"; Activity.date := date;
     Activity.carbonFootprint := {| Activity.value := value; Activity.unit := unit |};
     Activity.status := Activity.active |}.

Definition milestone (targetValue : Z) : Goal.Milestone.t :=
  {| Goal.Milestone.title := "Step"; Goal.Milestone.targetValue := targetValue;
     Goal.Milestone.achievedValue := 0; Goal.Milestone.achieved := false;
     Goal.Milestone.achievedDate := None |}.

(** A fresh goal of user 1 with the given target, status and milestones. *)
Definition goal (targetValue : Z) (status : Goal.Status)
    (milestones : list Goal.Milestone.t) : Goal.t :=
  {| Goal.user := 1; Goal.title := "Cut emissions"; Goal.description := EmptyString;
     Goal.category := "carbon_reduction";
     Goal.target := {| Goal.Target.value := targetValue; Goal.Target.unit := "kg";
                       Goal.Target.timeframe := "monthly" |};
     Goal.current := {| Goal.Current.value := 0; Goal.Current.lastUpdated := 0 |};
     Goal.startDate := 0; Goal.endDate := 1000; Goal.status := status;
     Goal.priority := Goal.medium; Goal.difficulty := Goal.moderate;
     Goal.milestones := milestones; Goal.tags := []; Goal.isPublic := false;
     Goal.reminders := {| Goal.Reminders.enabled := true;
                          Goal.Reminders.frequency := "weekly";
                          Goal.Reminders.lastReminder := None |};
     Goal.notes := EmptyString; Goal.createdAt := 0; Goal.updatedAt := 0 |}.

(** Three goals of user 1: one active with two milestones, one completed
    at instant 5, one paused. *)
Definition collGoals : gmap Z Goal.t :=
  list_to_map
    [ (1, goal 100 Goal.active [milestone 25; milestone 75]);
      (2, Goal.updateProgress 5 50 (goal 50 Goal.active []));
      (3, goal 10 Goal.paused []) ].

(** Stores that answer every query, and stores whose Activity queries reject. *)
Definition storesUp (activities : list Activity.t) : AchievementRoutes.Stores :=
  {| AchievementRoutes.activities := Ok activities; AchievementRoutes.goals := Ok [] |}.

Definition storesActivityDown : AchievementRoutes.Stores :=
  {| AchievementRoutes.activities := Rejected; AchievementRoutes.goals := Ok [] |}.

(** An achievement of user 1 for 2 tons of carbon reduction, with the
    given rarity, points and flags. *)
Definition achievementWith (rarity : Achievement.Rarity) (points : Z) (isHidden : bool)
    (expiresAt : option Z) (isActive : bool) (createdAt : Z) : Achievement.t :=
  {| Achievement.user := 1; Achievement.title := "Badge";
     Achievement.description := "A badge"; Achievement.category := "milestone";
     Achievement.type := "milestone";
     Achievement.criteria :=
       {| Achievement.metric := Achievement.carbon_reduction; Achievement.threshold := 2;
          Achievement.unit := Achievement.tons; Achievement.timeframe := Achievement.lifetime |};
     Achievement.icon := EmptyString; Achievement.badge := EmptyString;
     Achievement.points := points;
     Achievement.rarity := rarity; Achievement.isUnlocked := false;
     Achievement.unlockedAt := None;
     Achievement.progress :=
       {| Achievement.current := 0; Achievement.required := 2;
          Achievement.lastUpdated := createdAt |};
     Achievement.tags := []; Achievement.isHidden := isHidden;
     Achievement.expiresAt := expiresAt; Achievement.isActive := isActive;
     Achievement.createdAt := createdAt; Achievement.updatedAt := createdAt |}.

(** Six achievements of user 1: one locked, three unlocked at 50, 70 and
    60, one locked that expired at 5, one locked and inactive. *)
Definition collMixed : gmap Z Achievement.t :=
  list_to_map
    [ (1, achievementWith Achievement.common 10 false None true 1);
      (2, Achievement.unlock 50 (achievementWith Achievement.rare 30 false None true 2));
      (3, Achievement.unlock 70 (achievementWith Achievement.epic 50 false None true 3));
      (4, achievementWith Achievement.common 10 false (Some 5) true 4);
      (5, achievementWith Achievement.common 10 false None false 5);
      (6, Achievement.unlock 60 (achievementWith Achievement.rare 30 false None true 6)) ].

(** One locked achievement: 2 tons of carbon reduction, lifetime. *)
Definition collCarbon : gmap Z Achievement.t :=
  {[ 1 := achievement Achievement.carbon_reduction Achievement.lifetime 2 2
            Achievement.common 0 ]}.

(** An activity-count achievement created before a carbon-reduction one. *)
Definition collCountThenCarbon : gmap Z Achievement.t :=
  <[ 1 := achievement Achievement.activities_count Achievement.lifetime 5 5
            Achievement.common 0 ]>
  (<[ 2 := achievement Achievement.carbon_reduction Achievement.lifetime 2 2
             Achievement.common 1 ]> ∅).

(** A rare achievement created before an epic one. *)
Definition collRareThenEpic : gmap Z Achievement.t :=
  <[ 1 := achievement Achievement.carbon_reduction Achievement.lifetime 2 2
            Achievement.rare 1 ]>
  (<[ 2 := achievement Achievement.carbon_reduction Achievement.lifetime 2 2
             Achievement.epic 2 ]> ∅).

End Sample.

(** * Properties of [Goal.updateProgress] *)

Module GoalFacts.

Import Goal.

Lemma sweepMilestone_title now cur m :
  Milestone.title (sweepMilestone now cur m) = Milestone.title m.
Proof. unfold sweepMilestone. by destruct (_ && _). Qed.

Lemma sweepMilestone_targetValue now cur m :
  Milestone.targetValue (sweepMilestone now cur m) = Milestone.targetValue m.
Proof. unfold sweepMilestone. by destruct (_ && _). Qed.

Lemma sweepMilestone_achieved now cur m :
  Milestone.achieved m = true → sweepMilestone now cur m = m.
Proof. unfold sweepMilestone. by intros ->. Qed.

Lemma sweepMilestone_fires now cur m :
  Milestone.achieved m = false → Milestone.targetValue m ≤ cur →
  sweepMilestone now cur m =
    {| Milestone.title := Milestone.title m;
       Milestone.targetValue := Milestone.targetValue m;
       Milestone.achievedValue := Milestone.targetValue m;
       Milestone.achieved := true;
       Milestone.achievedDate := Some now |}.
Proof.
  intros Hna Hle. unfold sweepMilestone.
  by rewrite Hna, bool_decide_eq_true_2.
Qed.

Lemma sweepMilestone_waits now cur m :
  Milestone.achieved m = false → cur < Milestone.targetValue m →
  sweepMilestone now cur m = m.
Proof.
  intros Hna Hlt. unfold sweepMilestone.
  rewrite Hna, bool_decide_eq_false_2; [done | lia].
Qed.

Lemma updateProgress_milestone_lookup now newValue g i :
  milestones (updateProgress now newValue g) !! i =
    sweepMilestone now (Z.max 0 newValue) <$> milestones g !! i.
Proof. unfold updateProgress; simpl. apply list_lookup_fmap. Qed.

(** C7. [updateProgress(newValue)] sets [current.value] to
    [max(0, newValue)]; the status becomes [completed] exactly when that
    value reaches [target.value] and the status was [active], and is
    otherwise left as it was (so paused and cancelled goals stay so); a
    completed goal stays completed under any later [updateProgress]. *)
Theorem goal_updateProgress_completion (now newValue : Z) (g : t) :
  let g' := updateProgress now newValue g in
  Current.value (current g') = Z.max 0 newValue
  ∧ (status g ≠ completed ∧ status g' = completed
     ↔ Target.value (target g) ≤ Current.value (current g') ∧ status g = active)
  ∧ (¬ (Target.value (target g) ≤ Current.value (current g') ∧ status g = active)
     → status g' = status g)
  ∧ (status g = completed
     → ∀ now2 value2, status (updateProgress now2 value2 g) = completed).
Proof.
  simpl. split; [done |]. split; [| split].
  - case_bool_decide as Hle; case_bool_decide as Hact; simpl;
      split; intros [H1 H2]; try done; try (split; congruence).
  - intros Hn.
    case_bool_decide as Hle; case_bool_decide as Hact; simpl; try done.
    by destruct Hn.
  - intros Hc now2 value2. simpl. rewrite Hc.
    by destruct (bool_decide _).
Qed.

(** The goal of the specification's example: target 100, reported 100
    while active, then 50. *)
Lemma goal_updateProgress_completion_witness :
  let g := Sample.goal 100 active [] in
  let g1 := updateProgress 10 100 g in
  status g = active
  ∧ status g1 = completed
  ∧ status (updateProgress 20 50 g1) = completed
  ∧ Current.value (current (updateProgress 20 50 g1)) = 50
  ∧ status (updateProgress 10 100 (Sample.goal 100 paused [])) = paused.
Proof.
  pose proof (goal_updateProgress_completion 10 100 (Sample.goal 100 active [])) as H.
  cbv zeta in H. destruct H as (_ & Hiff & _ & _).
  destruct Hiff as [_ Hdone].
  destruct Hdone as [_ Hdone]; [split; [vm_compute; discriminate | reflexivity] |].
  pose proof (goal_updateProgress_completion 20 50
                (updateProgress 10 100 (Sample.goal 100 active []))) as H.
  cbv zeta in H. destruct H as (Hcur & _ & _ & Hstay).
  pose proof (goal_updateProgress_completion 10 100 (Sample.goal 100 paused [])) as H.
  cbv zeta in H. destruct H as (_ & _ & Hkeep & _).
  split; [reflexivity |]. split; [exact Hdone |].
  split; [exact (Hstay Hdone 20 50) |]. split; [exact Hcur |].
  apply Hkeep. intros [_ Habs]. discriminate Habs.
Defined.

(** C9. A milestone not yet achieved whose [targetValue] is at most the new
    [current.value] becomes achieved, with [achievedValue] its own
    [targetValue] and [achievedDate] the instant of the call; an achieved
    milestone is left exactly as it is; and a second call with the same
    value changes neither [achievedDate] nor [achievedValue] of a milestone
    that value satisfies. *)
Theorem goal_updateProgress_milestones (now newValue : Z) (g : t) (i : nat)
    (m : Milestone.t) :
  milestones g !! i = Some m →
  let g' := updateProgress now newValue g in
  ∃ m', milestones g' !! i = Some m'
    ∧ (Milestone.achieved m = false
       → Milestone.targetValue m ≤ Current.value (current g')
       → Milestone.achieved m' = true
         ∧ Milestone.achievedValue m' = Milestone.targetValue m
         ∧ Milestone.achievedDate m' = Some now)
    ∧ (Milestone.achieved m = true → m' = m)
    ∧ (Milestone.targetValue m ≤ Current.value (current g')
       → ∀ now2, milestones (updateProgress now2 newValue g') !! i = Some m').
Proof.
  intros Hm g'. exists (sweepMilestone now (Z.max 0 newValue) m).
  assert (Hm' : milestones g' !! i = Some (sweepMilestone now (Z.max 0 newValue) m)).
  { subst g'. by rewrite updateProgress_milestone_lookup, Hm. }
  split; [done |]. split; [| split].
  - intros Hna Hle. by rewrite (sweepMilestone_fires _ _ _ Hna Hle).
  - apply sweepMilestone_achieved.
  - intros Hle now2.
    rewrite updateProgress_milestone_lookup, Hm'. simpl. f_equal.
    apply sweepMilestone_achieved.
    destruct (Milestone.achieved m) eqn:Ha.
    + by rewrite (sweepMilestone_achieved _ _ _ Ha).
    + by rewrite (sweepMilestone_fires _ _ _ Ha Hle).
Qed.

Lemma goal_updateProgress_milestones_witness :
  let g := Sample.goal 100 active [Sample.milestone 25; Sample.milestone 75] in
  ∃ m', milestones (updateProgress 10 30 g) !! 0%nat = Some m'
    ∧ Milestone.achieved m' = true
    ∧ Milestone.achievedValue m' = 25
    ∧ Milestone.achievedDate m' = Some 10
    ∧ milestones (updateProgress 20 30 (updateProgress 10 30 g)) !! 0%nat = Some m'.
Proof.
  intros g.
  destruct (goal_updateProgress_milestones 10 30 g 0 (Sample.milestone 25) eq_refl)
    as (m' & Hm' & Hfire & _ & Hagain).
  exists m'. split; [exact Hm' |].
  destruct Hfire as (Ha & Hv & Hd); [reflexivity | vm_compute; discriminate |].
  repeat split; [exact Ha | exact Hv | exact Hd |].
  apply Hagain. vm_compute. discriminate.
Defined.

(** C10. [updateProgress] leaves the owner, title, description, category,
    target, start and end dates, priority, difficulty, tags, visibility,
    reminders, notes and creation stamp of the goal as they were, and keeps
    the milestones in place with their titles and target values. *)
Theorem goal_updateProgress_frame (now newValue : Z) (g : t) :
  let g' := updateProgress now newValue g in
  user g' = user g ∧ title g' = title g ∧ description g' = description g
  ∧ category g' = category g ∧ target g' = target g
  ∧ startDate g' = startDate g ∧ endDate g' = endDate g
  ∧ priority g' = priority g ∧ difficulty g' = difficulty g
  ∧ tags g' = tags g ∧ isPublic g' = isPublic g
  ∧ reminders g' = reminders g ∧ notes g' = notes g
  ∧ createdAt g' = createdAt g
  ∧ length (milestones g') = length (milestones g)
  ∧ Milestone.title <$> milestones g' = Milestone.title <$> milestones g
  ∧ Milestone.targetValue <$> milestones g' = Milestone.targetValue <$> milestones g.
Proof.
  simpl. repeat (split; [reflexivity |]).
  split; [apply length_fmap |].
  split; rewrite <- list_fmap_compose; apply list_fmap_ext; intros ? m _; simpl.
  - apply sweepMilestone_title.
  - apply sweepMilestone_targetValue.
Qed.

End GoalFacts.

(** * Properties of [Achievement.updateProgress] and [Achievement.unlock] *)

Module AchievementFacts.

Import Achievement.

Lemma updateProgress_progress now newProgress a :
  progress (updateProgress now newProgress a) =
    {| current := Z.max 0 newProgress;
       required := required (progress a);
       lastUpdated := now |}.
Proof. unfold updateProgress. by destruct (_ && _). Qed.

Lemma updateProgress_unlocked now newProgress a :
  isUnlocked a = true →
  isUnlocked (updateProgress now newProgress a) = true
  ∧ unlockedAt (updateProgress now newProgress a) = unlockedAt a.
Proof.
  intros Hu. unfold updateProgress. by rewrite Hu, andb_false_r.
Qed.

(** After [updateProgress] the flag is set only together with the stamp,
    unless the flag was set before. *)
Lemma updateProgress_locked_stamp now newProgress a :
  isUnlocked a = false →
  isUnlocked (updateProgress now newProgress a) = true →
  unlockedAt (updateProgress now newProgress a) = Some now
  ∧ required (progress a) ≤ Z.max 0 newProgress.
Proof.
  intros Hl. unfold updateProgress. rewrite Hl, andb_true_r.
  case_bool_decide; simpl; [done | congruence].
Qed.

(** C4, as the code has it. When [updateProgress] flips [isUnlocked] from
    false to true, [progress.current] is [max(0, newProgress)] and is at
    least [progress.required], not necessarily equal to it; [unlock()]
    flipping the flag sets [progress.current] to [progress.required]
    exactly; on an unlocked achievement [updateProgress] still overwrites
    [progress.current]. *)
Theorem achievement_unlock_progress (now newProgress : Z) (a : t) :
  (isUnlocked a = false → isUnlocked (updateProgress now newProgress a) = true →
   current (progress (updateProgress now newProgress a)) = Z.max 0 newProgress
   ∧ required (progress (updateProgress now newProgress a))
     ≤ current (progress (updateProgress now newProgress a)))
  ∧ (isUnlocked a = false →
     isUnlocked (unlock now a) = true
     ∧ current (progress (unlock now a)) = required (progress (unlock now a)))
  ∧ (isUnlocked a = true →
     isUnlocked (updateProgress now newProgress a) = true
     ∧ current (progress (updateProgress now newProgress a)) = Z.max 0 newProgress).
Proof.
  split; [| split].
  - intros Hl Hu. rewrite updateProgress_progress; simpl.
    split; [done |]. by apply (updateProgress_locked_stamp now newProgress a).
  - intros Hl. unfold unlock. by rewrite Hl.
  - intros Hu. rewrite updateProgress_progress. simpl.
    split; [| done]. by apply updateProgress_unlocked.
Qed.

Lemma achievement_unlock_progress_witness :
  let a := Sample.achievement carbon_reduction lifetime 2 2 common 0 in
  current (progress (updateProgress 10 5 a)) = 5
  ∧ required (progress (updateProgress 10 5 a)) ≤ current (progress (updateProgress 10 5 a))
  ∧ current (progress (unlock 10 a)) = required (progress (unlock 10 a))
  ∧ current (progress (updateProgress 20 0 (unlock 10 a))) = 0.
Proof.
  intros a.
  destruct (achievement_unlock_progress 10 5 a) as (Hflip & Hforce & _).
  destruct (achievement_unlock_progress 20 0 (unlock 10 a)) as (_ & _ & Hover).
  destruct Hflip as [Hc Hr]; [reflexivity | reflexivity |].
  destruct Hforce as [_ Heq]; [reflexivity |].
  destruct Hover as [_ Hz]; [reflexivity |].
  split; [exact Hc |]. split; [exact Hr |]. split; [exact Heq | exact Hz].
Defined.

(** C4, as stated, fails: an achievement requiring 2 that is reported a
    progress of 5 is unlocked with [progress.current] 5. *)
Lemma achievement_unlock_overshoot :
  let a := Sample.achievement carbon_reduction lifetime 2 2 common 0 in
  let a' := updateProgress 10 5 a in
  isUnlocked a = false ∧ isUnlocked a' = true
  ∧ current (progress a') = 5 ∧ required (progress a') = 2
  ∧ current (progress a') ≠ required (progress a').
Proof. vm_compute. repeat split; discriminate. Qed.

(** C8. Once [isUnlocked] is true, no sequence of [updateProgress] calls,
    whatever their arguments, resets it or changes [unlockedAt]. *)
Theorem achievement_unlock_monotone (a : t) (calls : list (Z * Z)) :
  isUnlocked a = true →
  let a' := foldl (λ acc call, updateProgress call.1 call.2 acc) a calls in
  isUnlocked a' = true ∧ unlockedAt a' = unlockedAt a.
Proof.
  revert a. induction calls as [| [now newProgress] calls IH]; intros a Hu; simpl.
  - done.
  - destruct (updateProgress_unlocked now newProgress a Hu) as [Hu' Hat].
    destruct (IH _ Hu') as [IH1 IH2]. simpl in *.
    split; [exact IH1 |]. by rewrite IH2.
Qed.

Lemma achievement_unlock_monotone_witness :
  let a := updateProgress 10 2 (Sample.achievement carbon_reduction lifetime 2 2 common 0) in
  let a' := updateProgress 30 (-4) (updateProgress 20 0 a) in
  isUnlocked a' = true ∧ unlockedAt a' = Some 10.
Proof.
  exact (achievement_unlock_monotone
           (updateProgress 10 2 (Sample.achievement carbon_reduction lifetime 2 2 common 0))
           [(20, 0); (30, -4)] eq_refl).
Defined.

End AchievementFacts.

(** * The streak computation *)

Module StreakFacts.

Import JsDate AchievementRoutes.

Lemma filter_nonempty_Exists {A} (P : A → Prop) `{!∀ x, Decision (P x)} (l : list A) :
  (0 < length (filter P l))%nat ↔ Exists P l.
Proof.
  rewrite Exists_exists. split.
  - intros Hlen. destruct (filter P l) as [| x l'] eqn:E; [simpl in Hlen; lia |].
    exists x. apply and_comm, (list_elem_of_filter P). rewrite E. left.
  - intros (x & Hx & HP).
    assert (Hin : x ∈ filter P l) by (by apply list_elem_of_filter).
    destruct (filter P l); [by apply elem_of_nil in Hin | simpl; lia].
Qed.

Lemma dayBack_S cal now k :
  Spec.dayBack cal now (S k) = setDate cal (Spec.dayBack cal now k) (-1).
Proof. reflexivity. Qed.

(** The loop started on day [k] with [n] iterations left adds to the
    streak the distance to the first gap day among days [k .. k+n-1]. *)
Lemma streakLoop_find cal now acts n : ∀ k s,
  streakLoop cal acts n (Spec.dayBack cal now k) s =
  s + match list_find (λ j, ¬ Spec.dayHasActivity cal acts (Spec.dayBack cal now j))
              (seq k n) with
      | Some (i, _) => Z.of_nat i
      | None => Z.of_nat n
      end.
Proof.
  induction n as [| n IH]; intros k s.
  - simpl. lia.
  - cbn [streakLoop seq list_find]. case_bool_decide as Hday.
    + apply (filter_nonempty_Exists (onDay cal _)) in Hday.
      rewrite decide_False by (intros Hn; by apply Hn).
      rewrite <- dayBack_S, IH.
      destruct (list_find _ (seq (S k) n)) as [[i j] |]; simpl; lia.
    + rewrite decide_True; [lia |].
      intros Hhas. apply Hday. by apply (filter_nonempty_Exists (onDay cal _)).
Qed.

Lemma streakDays_spec cal now acts :
  streakDays cal now acts = Spec.streak cal now acts.
Proof.
  unfold streakDays, Spec.streak.
  change (setHours0 cal now) with (Spec.dayBack cal now 0).
  rewrite streakLoop_find.
  destruct (list_find _ _) as [[i j] |]; simpl; lia.
Qed.

(** The streak is [n] exactly when the [n] days ending today all have an
    activity and day [n] back is the first without one, or the cap is hit. *)
Lemma streakDays_iff cal now acts (n : nat) :
  streakDays cal now acts = Z.of_nat n ↔
    (n ≤ 365)%nat
    ∧ (∀ k, (k < n)%nat → Spec.dayHasActivity cal acts (Spec.dayBack cal now k))
    ∧ ((n < 365)%nat → ¬ Spec.dayHasActivity cal acts (Spec.dayBack cal now n)).
Proof.
  rewrite streakDays_spec. unfold Spec.streak.
  destruct (list_find _ _) as [[i j] |] eqn:Hfind.
  - apply list_find_Some in Hfind as (Hij & Hgap & Hbefore).
    apply lookup_seq in Hij as [-> Hi]. change (0 + i)%nat with i in *.
    assert (Hfull : ∀ k, (k < i)%nat → Spec.dayHasActivity cal acts (Spec.dayBack cal now k)).
    { intros k Hk. destruct (decide (Spec.dayHasActivity cal acts (Spec.dayBack cal now k)))
        as [| Hn]; [done |].
      exfalso. apply (Hbefore k k); [apply lookup_seq; lia | lia | done]. }
    split.
    + intros Heq. assert (i = n) as -> by lia. split; [lia |]. by split.
    + intros (Hn & Hall & Hstop). f_equal.
      destruct (Nat.lt_trichotomy i n) as [Hlt | [-> | Hgt]]; [| done |].
      * exfalso. apply Hgap, Hall, Hlt.
      * exfalso. apply Hstop; [lia |]. by apply Hfull.
  - apply list_find_None in Hfind. rewrite Forall_forall in Hfind.
    assert (Hfull : ∀ k, (k < 365)%nat → Spec.dayHasActivity cal acts (Spec.dayBack cal now k)).
    { intros k Hk. destruct (decide (Spec.dayHasActivity cal acts (Spec.dayBack cal now k)))
        as [| Hn]; [done |].
      exfalso. apply (Hfind k); [| done].
      apply list_elem_of_lookup. exists k. apply lookup_seq. lia. }
    split.
    + intros Heq. assert (n = 365%nat) as -> by lia. split; [lia |]. split; [done | lia].
    + intros (Hn & Hall & Hstop).
      destruct (decide (n = 365%nat)) as [-> | Hne]; [done |].
      exfalso. apply Hstop; [lia |]. apply Hfull. lia.
Qed.

Lemma streakDays_range cal now acts : 0 ≤ streakDays cal now acts ≤ 365.
Proof.
  rewrite streakDays_spec. unfold Spec.streak.
  destruct (list_find _ _) as [[i j] |] eqn:Hfind; [| lia].
  apply list_find_Some in Hfind as (Hij & _).
  apply lookup_seq in Hij. lia.
Qed.

(** The streak depends on the activities only through the set of days that
    have one. *)
Lemma streakDays_same_days cal now acts acts' :
  (∀ day, Spec.dayHasActivity cal acts day ↔ Spec.dayHasActivity cal acts' day) →
  streakDays cal now acts' = streakDays cal now acts.
Proof.
  intros Hsame.
  pose proof (streakDays_range cal now acts) as Hr.
  rewrite <- (Z2Nat.id (streakDays cal now acts)) by lia.
  apply streakDays_iff.
  destruct (proj1 (streakDays_iff cal now acts (Z.to_nat (streakDays cal now acts))))
    as (Hn & Hall & Hstop); [lia |].
  split; [done |]. split.
  - intros k Hk. by apply Hsame, Hall.
  - intros Hlt Hhas. by apply Hstop, Hsame.
Qed.

(** In a zone at a fixed offset, days are numbered by [localDay]. *)
Lemma setHours0_fixedOffset off t :
  setHours0 (fixedOffset off) t = localDay off t * msPerDay - off.
Proof.
  simpl. unfold localTimeOfDay, localDay.
  pose proof (Z.div_mod (t + off) msPerDay) as H. unfold msPerDay in *. lia.
Qed.

Lemma dayBack_fixedOffset off now k :
  Spec.dayBack (fixedOffset off) now k = (localDay off now - Z.of_nat k) * msPerDay - off.
Proof.
  induction k as [| k IH].
  - change (Spec.dayBack (fixedOffset off) now 0) with (setHours0 (fixedOffset off) now).
    rewrite setHours0_fixedOffset. unfold msPerDay. lia.
  - rewrite dayBack_S, IH. cbn [setDate fixedOffset]. unfold msPerDay. lia.
Qed.

Lemma dayHasActivity_fixedOffset off now acts k :
  Spec.dayHasActivity (fixedOffset off) acts (Spec.dayBack (fixedOffset off) now k)
  ↔ ∃ a, a ∈ acts ∧ localDay off (Activity.date a) = localDay off now - Z.of_nat k.
Proof.
  unfold Spec.dayHasActivity. rewrite Exists_exists.
  split; intros (a & Ha & Hd); exists a; (split; [done |]);
    rewrite setHours0_fixedOffset, dayBack_fixedOffset in *; unfold msPerDay in *; lia.
Qed.

Lemma elem_of_Activity_find coll userId startDate a :
  a ∈ Activity.find coll userId startDate ↔ a ∈ coll ∧ Activity.matches userId startDate a.
Proof.
  unfold Activity.find. rewrite merge_sort_Permutation, list_elem_of_filter. tauto.
Qed.

End StreakFacts.

(** * The metric evaluation *)

Module MetricFacts.

Import JsDate AchievementRoutes StreakFacts.

Lemma activeInWindow_filter coll userId start :
  Spec.activeInWindow coll userId start = filter (Activity.matches userId start) coll.
Proof. apply list_filter_iff. intros a. unfold Activity.matches. tauto. Qed.

Lemma countDocuments_activeInWindow coll userId start :
  Activity.countDocuments coll userId start =
    Z.of_nat (length (Spec.activeInWindow coll userId start)).
Proof. unfold Activity.countDocuments. by rewrite activeInWindow_filter. Qed.

Lemma streakDays_find coll cal now userId start :
  streakDays cal now (Activity.find coll userId start) =
    Spec.streak cal now (Spec.activeInWindow coll userId start).
Proof.
  rewrite <- streakDays_spec. apply streakDays_same_days. intros day.
  unfold Spec.dayHasActivity, Activity.find.
  by rewrite merge_sort_Permutation, activeInWindow_filter.
Qed.

(** C5. [calculateAchievementProgress] returns the minimum of the metric
    value and [criteria.threshold], hence never more than the threshold,
    for every user, store content, metric and timeframe; it returns
    whenever the store answers. *)
Theorem calculateAchievementProgress_clamp (cal : Calendar) (now : Z) (db : Stores)
    (user : User.t) (achievement : Achievement.t) :
  let threshold := Achievement.threshold (Achievement.criteria achievement) in
  calculateAchievementProgress cal now db user achievement =
    (await raw ← Spec.metricValue cal now db user (Achievement.criteria achievement);
     Ok (Z.min raw threshold))
  ∧ (∀ progress, calculateAchievementProgress cal now db user achievement = Ok progress →
       progress ≤ threshold)
  ∧ (∀ acts gs, activities db = Ok acts → goals db = Ok gs →
       ∃ progress, calculateAchievementProgress cal now db user achievement = Ok progress).
Proof.
  intros threshold.
  assert (Heq : calculateAchievementProgress cal now db user achievement =
    (await raw ← Spec.metricValue cal now db user (Achievement.criteria achievement);
     Ok (Z.min raw threshold))).
  { unfold calculateAchievementProgress, Spec.metricValue. fold threshold.
    change (startDateOf cal now) with (Spec.windowStart cal now).
    destruct (Achievement.metric _); try reflexivity;
      destruct (activities db); try reflexivity; cbn [bindR].
    - by rewrite countDocuments_activeInWindow.
    - by rewrite streakDays_find. }
  split; [exact Heq |]. split.
  - intros progress. rewrite Heq.
    destruct (Spec.metricValue _ _ _ _ _) as [raw |]; cbn [bindR]; [| done].
    intros [= <-]. lia.
  - intros acts gs Hacts Hgs. rewrite Heq. unfold Spec.metricValue.
    rewrite Hacts, Hgs. destruct (Achievement.metric _); cbn [bindR]; eauto.
Qed.

(** A user 3 tons under their baseline, against a threshold of 2. *)
Lemma calculateAchievementProgress_clamp_witness :
  let a := Sample.achievement Achievement.carbon_reduction Achievement.lifetime 2 2
             Achievement.common 0 in
  calculateAchievementProgress utc 1000 (Sample.storesUp []) (Sample.user 10 7) a = Ok 2
  ∧ 2 ≤ Achievement.threshold (Achievement.criteria a).
Proof.
  intros a. split; [reflexivity |].
  apply (calculateAchievementProgress_clamp utc 1000 (Sample.storesUp []) (Sample.user 10 7) a).
  reflexivity.
Defined.

(** C6. The [streak_days] computation over the activities its query
    returns: it is the number of consecutive calendar days, counted back
    from today, that each have an activity, up to the first day without one
    and at most 365; it depends only on which days have activities, so
    further activities on a day that has one change nothing; it is 0 when
    today has none; and in a zone at a fixed offset, with active activities
    dated today and 1, 2 and 4 days back, the lifetime metric is 3 (under a
    threshold of at least 3). *)
Theorem streak_days_consecutive (cal : Calendar) (now : Z) (acts : list Activity.t) :
  streakDays cal now acts = Spec.streak cal now acts
  ∧ (∀ n : nat, streakDays cal now acts = Z.of_nat n ↔
       (n ≤ 365)%nat
       ∧ (∀ k, (k < n)%nat → Spec.dayHasActivity cal acts (Spec.dayBack cal now k))
       ∧ ((n < 365)%nat → ¬ Spec.dayHasActivity cal acts (Spec.dayBack cal now n)))
  ∧ 0 ≤ streakDays cal now acts ≤ 365
  ∧ (∀ acts', (∀ day, Spec.dayHasActivity cal acts day ↔ Spec.dayHasActivity cal acts' day) →
       streakDays cal now acts' = streakDays cal now acts)
  ∧ (∀ a, a ∈ acts → streakDays cal now (a :: acts) = streakDays cal now acts)
  ∧ (¬ Spec.dayHasActivity cal acts (setHours0 cal now) → streakDays cal now acts = 0)
  ∧ (∀ db user achievement coll,
       activities db = Ok coll →
       Achievement.metric (Achievement.criteria achievement) = Achievement.streak_days →
       let start := startDateOf cal now (Achievement.timeframe (Achievement.criteria achievement)) in
       let found := Activity.find coll (User._id user) start in
       calculateAchievementProgress cal now db user achievement =
         Ok (Z.min (streakDays cal now found)
               (Achievement.threshold (Achievement.criteria achievement)))
       ∧ ∀ a, a ∈ found ↔
           a ∈ coll ∧ Activity.user a = User._id user ∧ start ≤ Activity.date a
           ∧ Activity.status a = Activity.active)
  ∧ (∀ off user achievement d0 d1 d2 d4,
       Achievement.metric (Achievement.criteria achievement) = Achievement.streak_days →
       Achievement.timeframe (Achievement.criteria achievement) = Achievement.lifetime →
       3 ≤ Achievement.threshold (Achievement.criteria achievement) →
       0 ≤ d0 → 0 ≤ d1 → 0 ≤ d2 →
       localDay off d0 = localDay off now →
       localDay off d1 = localDay off now - 1 →
       localDay off d2 = localDay off now - 2 →
       localDay off d4 = localDay off now - 4 →
       calculateAchievementProgress (fixedOffset off) now
         (Sample.storesUp (Sample.activity (User._id user) <$> [d0; d1; d2; d4]))
         user achievement = Ok 3).
Proof.
  split; [apply streakDays_spec |].
  split; [apply streakDays_iff |].
  split; [apply streakDays_range |].
  split; [apply streakDays_same_days |].
  split.
  { intros a Ha. apply streakDays_same_days. intros day.
    unfold Spec.dayHasActivity. rewrite Exists_cons. split; [by right |].
    intros [Hd | Hd]; [| done]. apply Exists_exists. by exists a. }
  split.
  { intros Hnone. apply (streakDays_iff cal now acts 0).
    split; [lia |]. split; [lia | done]. }
  split.
  { intros db user achievement coll Hcoll Hm start found. split.
    - unfold calculateAchievementProgress. by rewrite Hm, Hcoll.
    - intros a. apply elem_of_Activity_find. }
  intros off user achievement d0 d1 d2 d4 Hm Htf Hth H0 H1 H2 Hd0 Hd1 Hd2 Hd4.
  unfold calculateAchievementProgress. rewrite Hm, Htf. cbn [bindR Sample.storesUp activities].
  cbn [startDateOf].
  set (found := Activity.find _ _ _).
  assert (Hin : ∀ d, 0 ≤ d → d ∈ [d0; d1; d2; d4] →
            Sample.activity (User._id user) d ∈ found).
  { intros d Hd Hmem. apply elem_of_Activity_find. split.
    - by apply list_elem_of_fmap_2.
    - done. }
  assert (Hout : ∀ a, a ∈ found → Activity.date a ∈ [d0; d1; d2; d4]).
  { intros a [Ha _]%elem_of_Activity_find.
    apply list_elem_of_fmap in Ha as (d & -> & Hd). exact Hd. }
  assert (Hstreak : streakDays (fixedOffset off) now found = Z.of_nat 3).
  { apply streakDays_iff. split; [lia |]. split.
    - intros k Hk. apply dayHasActivity_fixedOffset.
      destruct k as [| [| [| k]]]; [| | | lia].
      + exists (Sample.activity (User._id user) d0).
        split; [apply Hin; [done | set_solver] | simpl; lia].
      + exists (Sample.activity (User._id user) d1).
        split; [apply Hin; [done | set_solver] | simpl; lia].
      + exists (Sample.activity (User._id user) d2).
        split; [apply Hin; [done | set_solver] | simpl; lia].
    - intros _ (a & Ha & Hday)%dayHasActivity_fixedOffset.
      apply Hout in Ha. rewrite !elem_of_cons, elem_of_nil in Ha.
      destruct Ha as [Ha | [Ha | [Ha | [Ha | []]]]]; rewrite Ha in Hday; lia. }
  rewrite Hstreak. f_equal. lia.
Qed.

(** Activities today and 1, 2 and 4 days back, two of them today, seen
    from 2024-03-10T15:00Z: a streak of 3; with none today: 0. *)
Lemma streak_days_consecutive_witness :
  let day := 86400000 in
  let now := 19792 * day + 54000000 in
  let acts := Sample.activity 1 <$> [now - 4 * day; now - 2 * day; now - day; now; now - 3600000] in
  streakDays utc now acts = 3
  ∧ streakDays utc now (Sample.activity 1 <$> [now - 4 * day; now - 2 * day; now - day]) = 0.
Proof.
  intros day now acts.
  destruct (streak_days_consecutive utc now acts) as (_ & Hiff & _).
  destruct (streak_days_consecutive utc now
              (Sample.activity 1 <$> [now - 4 * day; now - 2 * day; now - day]))
    as (_ & _ & _ & _ & _ & Hzero & _).
  split.
  - apply (Hiff 3%nat). split; [lia |]. split.
    + intros k Hk. destruct k as [| [| [| k]]]; [| | | lia];
        apply (bool_decide_unpack _); vm_compute; exact I.
    + intros _. apply (bool_decide_unpack _). vm_compute. exact I.
  - apply Hzero. apply (bool_decide_unpack _). vm_compute. exact I.
Defined.

End MetricFacts.

(** * The check handler *)

Module CheckFacts.

Import JsDate AchievementRoutes.

(** The order of the stored rarity strings, spelled out on the enum. *)
Lemma rarityString_compare r1 r2 :
  String.compare (Achievement.rarityString r1) (Achievement.rarityString r2) =
    Z.compare (storedRarityRank r1) (storedRarityRank r2).
Proof. destruct r1, r2; vm_compute; reflexivity. Qed.

Lemma storedRarityRank_inj r1 r2 :
  storedRarityRank r1 = storedRarityRank r2 → r1 = r2.
Proof. destruct r1, r2; simpl; intros H; first [done | lia]. Qed.

Lemma sortLe_rank (x y : Achievement.Doc) :
  Achievement.sortLe x y ↔
    storedRarityRank (Achievement.rarity x.2) < storedRarityRank (Achievement.rarity y.2)
    ∨ (Achievement.rarity x.2 = Achievement.rarity y.2
       ∧ Achievement.createdAt x.2 ≤ Achievement.createdAt y.2).
Proof.
  unfold Achievement.sortLe, Achievement.sortLeb. rewrite rarityString_compare.
  destruct (Z.compare_spec (storedRarityRank (Achievement.rarity x.2))
              (storedRarityRank (Achievement.rarity y.2))) as [Heq | Hlt | Hgt].
  - rewrite bool_decide_eq_true. apply storedRarityRank_inj in Heq as Heq'.
    split; [by right | intros [H | [_ H]]; [lia | done]].
  - split; [by left | done].
  - split; [done | intros [H | [H _]]; [lia | rewrite H in Hgt; lia]].
Qed.

Global Instance sortLe_total : Total Achievement.sortLe.
Proof.
  intros x y. rewrite !sortLe_rank.
  destruct (decide (storedRarityRank (Achievement.rarity x.2)
                    = storedRarityRank (Achievement.rarity y.2))) as [Heq | Hne]; [| lia].
  apply storedRarityRank_inj in Heq. rewrite Heq.
  destruct (Z.le_gt_cases (Achievement.createdAt x.2) (Achievement.createdAt y.2));
    [left | right]; right; (split; [done | lia]).
Qed.

Global Instance sortLe_trans : Transitive Achievement.sortLe.
Proof.
  intros x y z. rewrite !sortLe_rank.
  intros [H1 | [E1 H1]] [H2 | [E2 H2]].
  - left. lia.
  - left. rewrite <- E2. lia.
  - left. rewrite E1. lia.
  - right. split; [congruence | lia].
Qed.

Lemma elem_of_available coll userId now d :
  d ∈ Achievement.getUserAvailableAchievements coll userId now ↔
    coll !! d.1 = Some d.2 ∧ Achievement.available userId now d.
Proof.
  unfold Achievement.getUserAvailableAchievements.
  rewrite merge_sort_Permutation, list_elem_of_filter, elem_of_map_to_list'. tauto.
Qed.

Lemma NoDup_available_ids coll userId now :
  NoDup (Achievement.getUserAvailableAchievements coll userId now).*1.
Proof.
  unfold Achievement.getUserAvailableAchievements.
  rewrite merge_sort_Permutation.
  apply (sublist_NoDup _ (map_to_list coll).*1); [apply NoDup_fst_map_to_list |].
  apply fmap_sublist, sublist_filter.
Qed.

Lemma available_locked coll userId now :
  Forall (λ d : Achievement.Doc, Achievement.isUnlocked d.2 = false)
    (Achievement.getUserAvailableAchievements coll userId now).
Proof.
  apply Forall_forall. intros d Hd. apply elem_of_available in Hd as [_ Hav].
  apply Hav.
Qed.

Lemma updateProgress_not_reported now progress a :
  Achievement.isUnlocked a = false →
  Achievement.isUnlocked (Achievement.updateProgress now progress a)
  && negb (bool_decide (is_Some (Achievement.unlockedAt
                                   (Achievement.updateProgress now progress a)))) = false.
Proof.
  intros Hl.
  destruct (Achievement.isUnlocked (Achievement.updateProgress now progress a)) eqn:Hu;
    [| done].
  by destruct (AchievementFacts.updateProgress_locked_stamp now progress a Hl Hu) as [-> _].
Qed.

Section loop.

Context (cal : Calendar) (now : Z) (db : Stores) (user : User.t).

Lemma loop_cons_rejected (d : Achievement.Doc) (todo : list Achievement.Doc) coll newly :
  calculateAchievementProgress cal now db user d.2 = Rejected → checkLoop cal now db user (d :: todo) coll newly = (Rejected, coll).
Proof. intros H. cbn [checkLoop]. by rewrite H. Qed.

Lemma loop_cons_ok (d : Achievement.Doc) (todo : list Achievement.Doc) coll newly progress :
  calculateAchievementProgress cal now db user d.2 = Ok progress →
  checkLoop cal now db user (d :: todo) coll newly =
    checkLoop cal now db user todo (turnColl now progress d coll) (turnNewly now progress d newly).
Proof.
  intros H. unfold turnColl, turnNewly. cbn [checkLoop]. rewrite H.
  case_bool_decide; [| done]. cbn [fst snd andb]. by destruct (_ && _).
Qed.

Lemma turnNewly_locked (d : Achievement.Doc) progress (newly : list Achievement.View.t) :
  Achievement.isUnlocked d.2 = false → turnNewly now progress d newly = newly.
Proof.
  intros Hl. unfold turnNewly.
  by rewrite (updateProgress_not_reported _ _ _ Hl), andb_false_r.
Qed.

Lemma turnColl_lookup_ne (d : Achievement.Doc) progress (coll : gmap Z Achievement.t) id :
  id ≠ d.1 → turnColl now progress d coll !! id = coll !! id.
Proof.
  intros Hne. unfold turnColl. case_bool_decide; [| done].
  unfold Achievement.save. cbn [fst snd]. by rewrite lookup_insert_ne.
Qed.

Lemma turnColl_lookup_eq (d : Achievement.Doc) progress (coll : gmap Z Achievement.t) :
  coll !! d.1 = Some d.2 →
  turnColl now progress d coll !! d.1 = Some (afterVisit now progress d.2).
Proof.
  intros Hd. unfold turnColl, afterVisit. case_bool_decide; [| done].
  unfold Achievement.save. cbn [fst snd]. by rewrite lookup_insert_eq.
Qed.

(** The loop writes only documents it visits. *)
Lemma loop_other (todo : list Achievement.Doc) : ∀ coll newly id,
  id ∉ todo.*1 → (checkLoop cal now db user todo coll newly).2 !! id = coll !! id.
Proof.
  induction todo as [| d todo IH]; intros coll newly id Hid; [done |].
  rewrite fmap_cons, not_elem_of_cons in Hid. destruct Hid as [Hne Hid].
  destruct (calculateAchievementProgress cal now db user d.2) as [progress |] eqn:Hc.
  - rewrite (loop_cons_ok d todo coll newly progress Hc), IH by done.
    by apply turnColl_lookup_ne.
  - by rewrite loop_cons_rejected.
Qed.

(** Visiting locked documents never extends [newlyUnlocked]. *)
Lemma loop_locked (todo : list Achievement.Doc) : ∀ coll newly,
  Forall (λ d : Achievement.Doc, Achievement.isUnlocked d.2 = false) todo →
  (checkLoop cal now db user todo coll newly).1 = Rejected
  ∨ (checkLoop cal now db user todo coll newly).1 = Ok newly.
Proof.
  induction todo as [| d todo IH]; intros coll newly Hl; [by right |].
  apply Forall_cons in Hl as [Hd Hl].
  destruct (calculateAchievementProgress cal now db user d.2) as [progress |] eqn:Hc.
  - rewrite (loop_cons_ok d todo coll newly progress Hc), (turnNewly_locked _ _ _ Hd).
    by apply IH.
  - rewrite loop_cons_rejected by done. by left.
Qed.

(** A prefix whose evaluations all resolve is run to its end. *)
Lemma loop_app (pre rest : list Achievement.Doc) : ∀ coll newly,
  Forall (λ d : Achievement.Doc, calculateAchievementProgress cal now db user d.2 ≠ Rejected) pre →
  ∃ newly', (checkLoop cal now db user pre coll newly).1 = Ok newly'
    ∧ checkLoop cal now db user (pre ++ rest) coll newly = checkLoop cal now db user rest (checkLoop cal now db user pre coll newly).2 newly'.
Proof.
  induction pre as [| d pre IH]; intros coll newly Hok; [by exists newly |].
  apply Forall_cons in Hok as [Hd Hok].
  destruct (calculateAchievementProgress cal now db user d.2) as [progress |] eqn:Hc; [| done].
  rewrite <- app_comm_cons, !(loop_cons_ok d _ coll newly progress Hc).
  by apply IH.
Qed.

(** Every document of a run that resolves throughout is left as its turn
    leaves it. *)
Lemma loop_visited (todo : list Achievement.Doc) : ∀ coll newly (x : Achievement.Doc) progress,
  Forall (λ d : Achievement.Doc, calculateAchievementProgress cal now db user d.2 ≠ Rejected) todo →
  NoDup todo.*1 → x ∈ todo → coll !! x.1 = Some x.2 → calculateAchievementProgress cal now db user x.2 = Ok progress →
  (checkLoop cal now db user todo coll newly).2 !! x.1 = Some (afterVisit now progress x.2).
Proof.
  induction todo as [| d todo IH]; intros coll newly x progress Hok Hnd Hx Hcoll Hc.
  { by apply elem_of_nil in Hx. }
  apply Forall_cons in Hok as [Hd Hok].
  rewrite fmap_cons in Hnd. apply NoDup_cons in Hnd as [Hfresh Hnd].
  destruct (calculateAchievementProgress cal now db user d.2) as [p |] eqn:Hcd; [| done].
  rewrite (loop_cons_ok d todo coll newly p Hcd).
  apply elem_of_cons in Hx as [-> | Hx].
  - rewrite loop_other by done. rewrite Hcd in Hc. injection Hc as ->.
    by apply turnColl_lookup_eq.
  - apply IH; try done. rewrite turnColl_lookup_ne; [done |].
    intros Heq. apply Hfresh. rewrite <- Heq. by apply list_elem_of_fmap_2.
Qed.

End loop.

(** Whatever the store holds, the handler answers with an empty
    [newlyUnlocked] or with the server error. *)
Lemma check_newlyUnlocked_empty cal now db user coll :
  (check cal now db user coll).1 = ServerError
  ∨ (check cal now db user coll).1 = Json [] 0.
Proof.
  unfold check.
  destruct (loop_locked cal now db user
              (Achievement.getUserAvailableAchievements coll (User._id user) now) coll []
              (available_locked coll (User._id user) now)) as [H | H];
    destruct (checkLoop _ _ _ _ _ _ _) as [[newly |] coll']; simpl in H; simplify_eq;
    [by left | by right].
Qed.

(** C1, on the end-to-end example of the specification: baseline 10,
    current total 7, one locked achievement for 2 tons of carbon reduction.
    The evaluation gives 2, the achievement is stored unlocked by this very
    call, and yet the response lists no newly unlocked achievement: the
    handler tests [!achievement.unlockedAt] after [updateProgress] has set
    it. *)
Theorem check_end_to_end_reports_nothing :
  let user := Sample.user 10 7 in
  let db := Sample.storesUp [] in
  let after := check utc 1000 db user Sample.collCarbon in
  Achievement.isUnlocked <$> Sample.collCarbon !! 1 = Some false
  ∧ (calculateAchievementProgress utc 1000 db user <$> Sample.collCarbon !! 1) = Some (Ok 2)
  ∧ Achievement.isUnlocked <$> after.2 !! 1 = Some true
  ∧ Achievement.unlockedAt <$> after.2 !! 1 = Some (Some 1000)
  ∧ after.1 = Json [] 0.
Proof. vm_compute. by repeat split. Qed.

(** C2, as stated, fails: with the Activity collection unreachable, the
    activity-count achievement is evaluated first and rejects; the
    carbon-reduction achievement after it, whose evaluation would resolve
    with a new progress of 2, is neither evaluated nor stored, and the call
    answers with the server error. *)
Lemma check_rejection_fails_batch :
  let user := Sample.user 10 7 in
  let db := Sample.storesActivityDown in
  let coll := Sample.collCountThenCarbon in
  (Achievement.getUserAvailableAchievements coll 1 100).*1 = [1; 2]
  ∧ (calculateAchievementProgress utc 100 db user <$> coll !! 1) = Some Rejected
  ∧ (calculateAchievementProgress utc 100 db user <$> coll !! 2) = Some (Ok 2)
  ∧ (Achievement.current ∘ Achievement.progress) <$> coll !! 2 = Some 0
  ∧ check utc 100 db user coll = (ServerError, coll).
Proof. vm_compute. by repeat split. Qed.

(** C2, as the code has it. A rejected evaluation ends the batch: the
    achievements ordered before it have been evaluated and stored, the
    rejecting one and those after it are left as they were, and the call
    answers with the server error instead of a result; when no evaluation
    rejects, the call answers with a result. *)
Theorem check_rejection_aborts (cal : Calendar) (now : Z) (db : Stores) (user : User.t)
    (coll : gmap Z Achievement.t) :
  let found := Achievement.getUserAvailableAchievements coll (User._id user) now in
  let after := check cal now db user coll in
  (∀ (pre post : list Achievement.Doc) (d : Achievement.Doc),
     found = pre ++ d :: post →
     Forall (λ x : Achievement.Doc,
               calculateAchievementProgress cal now db user x.2 ≠ Rejected) pre →
     calculateAchievementProgress cal now db user d.2 = Rejected →
     after.1 = ServerError
     ∧ (∀ (x : Achievement.Doc) progress, x ∈ pre →
          calculateAchievementProgress cal now db user x.2 = Ok progress →
          after.2 !! x.1 = Some (afterVisit now progress x.2))
     ∧ (∀ x : Achievement.Doc, x ∈ d :: post → after.2 !! x.1 = Some x.2)
     ∧ (∀ id, id ∉ pre.*1 → after.2 !! id = coll !! id))
  ∧ (Forall (λ x : Achievement.Doc,
               calculateAchievementProgress cal now db user x.2 ≠ Rejected) found →
     ∃ newlyUnlocked, after.1 = Json newlyUnlocked (Z.of_nat (length newlyUnlocked))).
Proof.
  intros found after. split.
  - intros pre post d Hfound Hpre Hd.
    pose proof (NoDup_available_ids coll (User._id user) now) as Hnd.
    fold found in Hnd. rewrite Hfound, fmap_app, fmap_cons in Hnd.
    apply NoDup_app in Hnd as (Hndpre & Hdisj & _).
    destruct (loop_app cal now db user pre (d :: post) coll [] Hpre)
      as (newly' & Hres & Happ).
    assert (Hafter : after = (ServerError, (checkLoop cal now db user pre coll []).2)).
    { subst after. unfold check. fold found. rewrite Hfound, Happ.
      by rewrite loop_cons_rejected. }
    assert (Hstored : ∀ x : Achievement.Doc, x ∈ found → coll !! x.1 = Some x.2).
    { intros x Hx. by apply elem_of_available in Hx as [? _]. }
    rewrite Hafter. cbn [fst snd]. split; [done |]. split; [| split].
    + intros x progress Hx Hc. apply loop_visited; try done.
      apply Hstored. rewrite Hfound. apply elem_of_app. by left.
    + intros x Hx. rewrite loop_other.
      * apply Hstored. rewrite Hfound. apply elem_of_app. by right.
      * intros Hin. apply (Hdisj _ Hin).
        change (d.1 :: post.*1) with ((d :: post).*1). by apply list_elem_of_fmap_2.
    + intros id Hid. by apply loop_other.
  - intros Hok. subst after. unfold check. fold found.
    destruct (loop_app cal now db user found [] coll [] Hok) as (newly' & Hres & _).
    destruct (checkLoop _ _ _ _ found _ _) as [[newly |] coll']; [| done].
    by eexists.
Qed.

Lemma check_rejection_aborts_witness :
  let user := Sample.user 10 7 in
  let coll := Sample.collCountThenCarbon in
  let after := check utc 100 Sample.storesActivityDown user coll in
  after.1 = ServerError
  ∧ after.2 !! 1 = coll !! 1
  ∧ after.2 !! 2 = coll !! 2.
Proof.
  intros user coll after.
  destruct (check_rejection_aborts utc 100 Sample.storesActivityDown user coll) as [Habort _].
  destruct (Habort []
              [(2, Sample.achievement Achievement.carbon_reduction Achievement.lifetime 2 2
                     Achievement.common 1)]
              (1, Sample.achievement Achievement.activities_count Achievement.lifetime 5 5
                    Achievement.common 0))
    as (Herr & _ & _ & Hsame).
  - vm_compute. reflexivity.
  - constructor.
  - reflexivity.
  - split; [exact Herr |]. split; apply Hsame; apply not_elem_of_nil.
Defined.

(** C3, as stated, fails: a rare achievement created before an epic one is
    returned after it, against the order common < uncommon < rare < epic <
    legendary. *)
Lemma available_rare_after_epic :
  let found := Achievement.getUserAvailableAchievements Sample.collRareThenEpic 1 100 in
  (λ d : Achievement.Doc, (d.1, Achievement.rarity d.2)) <$> found
    = [(2, Achievement.epic); (1, Achievement.rare)]
  ∧ Spec.rarityRank Achievement.rare < Spec.rarityRank Achievement.epic
  ∧ ¬ Sorted Spec.rarityThenCreation found.
Proof.
  split; [vm_compute; reflexivity |]. split; [vm_compute; reflexivity |].
  intros Hsorted.
  assert (Hhd : ∃ x y rest,
            Achievement.getUserAvailableAchievements Sample.collRareThenEpic 1 100
              = x :: y :: rest
            ∧ Achievement.rarity x.2 = Achievement.epic
            ∧ Achievement.rarity y.2 = Achievement.rare).
  { vm_compute. eauto 10. }
  destruct Hhd as (x & y & rest & Heq & Hx & Hy).
  rewrite Heq in Hsorted. apply Sorted_inv in Hsorted as [_ Hrel].
  apply HdRel_inv in Hrel. unfold Spec.rarityThenCreation in Hrel.
  rewrite Hx, Hy in Hrel. destruct Hrel as [Hlt | [Heq' _]]; [simpl in Hlt; lia | done].
Qed.

(** C3, as the code has it. The achievements fetched are exactly the
    stored achievements of the user that are locked, visible, active and
    not expired at the time of the call, each once, in ascending order of
    the stored rarity string (common < epic < legendary < rare < uncommon),
    ties by [createdAt]; the handler visits them in this order. *)
Theorem available_achievements_order (coll : gmap Z Achievement.t) (userId now : Z) :
  let found := Achievement.getUserAvailableAchievements coll userId now in
  StronglySorted Achievement.sortLe found
  ∧ (∀ x y : Achievement.Doc,
       Achievement.sortLe x y ↔
         storedRarityRank (Achievement.rarity x.2) < storedRarityRank (Achievement.rarity y.2)
         ∨ (Achievement.rarity x.2 = Achievement.rarity y.2
            ∧ Achievement.createdAt x.2 ≤ Achievement.createdAt y.2))
  ∧ (∀ d : Achievement.Doc,
       d ∈ found ↔
         coll !! d.1 = Some d.2 ∧ Achievement.user d.2 = userId
         ∧ Achievement.isUnlocked d.2 = false ∧ Achievement.isHidden d.2 = false
         ∧ Achievement.isActive d.2 = true
         ∧ Achievement.unexpired now (Achievement.expiresAt d.2))
  ∧ NoDup found.*1
  ∧ (∀ cal db user, User._id user = userId →
       (check cal now db user coll).2 = (checkLoop cal now db user found coll []).2).
Proof.
  intros found. split; [apply (StronglySorted_merge_sort _) |].
  split; [apply sortLe_rank |].
  split; [intros d; subst found; by rewrite elem_of_available |].
  split; [apply NoDup_available_ids |].
  intros cal db user <-. unfold check. fold found.
  by destruct (checkLoop _ _ _ _ found _ _) as [[newly |] coll'].
Qed.

Lemma available_achievements_order_witness :
  let found := Achievement.getUserAvailableAchievements Sample.collRareThenEpic 1 100 in
  StronglySorted Achievement.sortLe found ∧ found.*1 = [2; 1].
Proof.
  split.
  - apply (available_achievements_order Sample.collRareThenEpic 1 100).
  - vm_compute. reflexivity.
Defined.

End CheckFacts.

(** * Lists *)

Module ListFacts.

(** In a strongly sorted list an earlier element is related to a later one. *)
Lemma StronglySorted_lookup {A} (R : relation A) (l : list A) (i j : nat) (x y : A) :
  StronglySorted R l → l !! i = Some x → l !! j = Some y → (i < j)%nat → R x y.
Proof.
  intros Hsorted Hi Hj Hij.
  rewrite <- (take_drop_middle l j y Hj) in Hsorted.
  apply (StronglySorted_app_1_elem_of _ _ _ x y) in Hsorted; [done | | left].
  apply (list_elem_of_lookup_2 _ i). rewrite lookup_take_lt; done.
Qed.

(** Membership in a filtered and sorted reading of a collection. *)
Lemma elem_of_sorted_filter {A} (R : relation (Z * A)) `{!RelDecision R}
    (P : Z * A → Prop) `{!∀ x, Decision (P x)} (m : gmap Z A) (d : Z * A) :
  d ∈ merge_sort R (filter P (map_to_list m)) ↔ m !! d.1 = Some d.2 ∧ P d.
Proof.
  rewrite merge_sort_Permutation, list_elem_of_filter, elem_of_map_to_list'. tauto.
Qed.

Lemma NoDup_sorted_filter_ids {A} (R : relation (Z * A)) `{!RelDecision R}
    (P : Z * A → Prop) `{!∀ x, Decision (P x)} (m : gmap Z A) :
  NoDup (merge_sort R (filter P (map_to_list m))).*1.
Proof.
  rewrite merge_sort_Permutation.
  apply (sublist_NoDup _ (map_to_list m).*1); [apply NoDup_fst_map_to_list |].
  apply fmap_sublist, sublist_filter.
Qed.

Lemma filter_ext_elem_of {A} (P Q : A → Prop) `{!∀ x, Decision (P x)}
    `{!∀ x, Decision (Q x)} (l : list A) :
  (∀ x, x ∈ l → P x ↔ Q x) → filter P l = filter Q l.
Proof.
  induction l as [| x l IH]; intros Hext; [done |].
  rewrite !filter_cons, IH by (intros y Hy; apply Hext; by right).
  destruct (decide (P x)) as [Hp | Hp], (decide (Q x)) as [Hq | Hq]; try done.
  - destruct Hq. by apply (Hext x); [left |].
  - destruct Hp. by apply (Hext x); [left |].
Qed.

(** Replacing, adding or removing one document moves a filtered count by
    that document alone. *)
Lemma filter_map_to_list_insert {A} (P : Z * A → Prop) `{!∀ x, Decision (P x)}
    (m : gmap Z A) (id : Z) (a' : A) :
  filter P (map_to_list (<[id := a']> m))
  ≡ₚ filter P ((id, a') :: map_to_list (delete id m)).
Proof.
  rewrite <- (insert_delete_eq m). rewrite map_to_list_insert; [done |].
  apply lookup_delete_eq.
Qed.

Lemma filter_map_to_list_lookup {A} (P : Z * A → Prop) `{!∀ x, Decision (P x)}
    (m : gmap Z A) (id : Z) (a : A) :
  m !! id = Some a →
  filter P (map_to_list m) ≡ₚ filter P ((id, a) :: map_to_list (delete id m)).
Proof. intros Ha. by rewrite (map_to_list_delete m id a Ha). Qed.

(** A weaker filter keeps at least as many elements. *)
Lemma length_filter_impl {A} (P Q : A → Prop) `{!∀ x, Decision (P x)}
    `{!∀ x, Decision (Q x)} (l : list A) :
  (∀ x, P x → Q x) → (length (filter P l) ≤ length (filter Q l))%nat.
Proof.
  intros Himpl. induction l as [| x l IH]; [done |].
  rewrite !filter_cons.
  destruct (decide (P x)) as [Hp | Hp], (decide (Q x)) as [Hq | Hq]; simpl; try lia.
  destruct Hq. by apply Himpl.
Qed.

End ListFacts.

(** * Percentages *)

Module PercentFacts.

(** [c / r * 100] against 100 and 0, for a positive [r]. *)
Lemma ratio_ge_100 (c r : Z) :
  0 < r → (100 <= inject_Z c / inject_Z r * 100)%Q ↔ r ≤ c.
Proof.
  intros Hr. destruct r as [| r | r]; try lia.
  unfold Qle, Qdiv, Qmult, Qinv, inject_Z. simpl. lia.
Qed.

Lemma ratio_nonneg (c r : Z) :
  0 < r → (0 <= inject_Z c / inject_Z r * 100)%Q ↔ 0 ≤ c.
Proof.
  intros Hr. destruct r as [| r | r]; try lia.
  unfold Qle, Qdiv, Qmult, Qinv, inject_Z. simpl. lia.
Qed.

Lemma percent_spec (c r : Z) :
  0 < r →
  ((Qmin (inject_Z c / inject_Z r * 100) 100 <= 100)%Q)
  ∧ (r ≤ c → (Qmin (inject_Z c / inject_Z r * 100) 100 == 100)%Q)
  ∧ (c < r → (Qmin (inject_Z c / inject_Z r * 100) 100 < 100)%Q)
  ∧ (0 ≤ c → (0 <= Qmin (inject_Z c / inject_Z r * 100) 100)%Q).
Proof.
  intros Hr. split; [apply Q.le_min_r |]. split; [| split].
  - intros Hc. apply Q.min_r. by apply ratio_ge_100.
  - intros Hc. apply Q.min_lt_iff. left. apply Qnot_le_lt. rewrite ratio_ge_100 by done. lia.
  - intros Hc. apply Q.min_glb; [by apply ratio_nonneg | done].
Qed.

End PercentFacts.

(** * The Achievement model: percentage, forced unlock, listings, points *)

Module AchievementModelFacts.

Import Achievement.

(** X1. The progress percentage of an achievement never exceeds 100; it
    is 0 when nothing is required, exactly 100 once the progress reaches a
    positive requirement, and in [0, 100) below it. An achievement that
    [updateProgress] or [unlock] has just unlocked therefore shows 100,
    unless it requires 0, when it shows 0. *)
Theorem achievement_progressPercentage_range (now newProgress : Z) (a : t) :
  (progressPercentage a <= 100)%Q
  ∧ (required (progress a) = 0 → progressPercentage a = 0%Q)
  ∧ (0 < required (progress a) → required (progress a) ≤ current (progress a) →
     (progressPercentage a == 100)%Q)
  ∧ (0 ≤ current (progress a) → current (progress a) < required (progress a) →
     (0 <= progressPercentage a)%Q ∧ (progressPercentage a < 100)%Q)
  ∧ (0 < required (progress a) → isUnlocked a = false →
     isUnlocked (updateProgress now newProgress a) = true →
     (progressPercentage (updateProgress now newProgress a) == 100)%Q)
  ∧ (0 < required (progress a) → isUnlocked a = false →
     (progressPercentage (unlock now a) == 100)%Q).
Proof.
  assert (Hpos : ∀ b : t, 0 < required (progress b) →
            progressPercentage b =
              Qmin (inject_Z (current (progress b)) / inject_Z (required (progress b)) * 100)
                   100).
  { intros b Hb. unfold progressPercentage. rewrite bool_decide_eq_false_2; [done | lia]. }
  split.
  { unfold progressPercentage. case_bool_decide; [done | apply Q.le_min_r]. }
  split.
  { intros Hz. unfold progressPercentage. by rewrite bool_decide_eq_true_2. }
  split.
  { intros Hr Hc. rewrite Hpos by done. by apply PercentFacts.percent_spec. }
  split.
  { intros Hc Hlt. rewrite Hpos by lia.
    split; apply PercentFacts.percent_spec; lia. }
  split.
  { intros Hr Hl Hu.
    destruct (AchievementFacts.updateProgress_locked_stamp now newProgress a Hl Hu) as [_ Hge].
    rewrite Hpos; rewrite AchievementFacts.updateProgress_progress; simpl; [| done].
    by apply PercentFacts.percent_spec. }
  intros Hr Hl. unfold unlock. rewrite Hl. simpl.
  rewrite Hpos; simpl; [| done]. apply PercentFacts.percent_spec; [done | lia].
Qed.

Lemma achievement_progressPercentage_range_witness :
  let a := Sample.achievement carbon_reduction lifetime 4 4 common 0 in
  (progressPercentage (updateProgress 10 1 a) < 100)%Q
  ∧ (progressPercentage (updateProgress 10 9 a) == 100)%Q
  ∧ (progressPercentage (unlock 10 a) == 100)%Q.
Proof.
  intros a.
  destruct (achievement_progressPercentage_range 10 9 (updateProgress 10 1 a))
    as (_ & _ & _ & Hbelow & _).
  destruct (achievement_progressPercentage_range 10 9 a) as (_ & _ & _ & _ & Hup & Hforce).
  split; [apply Hbelow; vm_compute; congruence |].
  split; [apply Hup; reflexivity | apply Hforce; reflexivity].
Defined.

(** X2. [unlock] is idempotent and keeps the first unlock: on an unlocked
    achievement it changes nothing, whatever the clock, so neither
    [unlockedAt] nor the progress recorded at unlock time is overwritten;
    on a locked one it sets the flag, the stamp and the full progress. *)
Theorem achievement_unlock_idempotent (now now2 : Z) (a : t) :
  isUnlocked (unlock now a) = true
  ∧ unlock now2 (unlock now a) = unlock now a
  ∧ (isUnlocked a = true → unlock now a = a)
  ∧ (isUnlocked a = false →
     unlockedAt (unlock now a) = Some now
     ∧ progress (unlock now a) =
         {| current := required (progress a); required := required (progress a);
            lastUpdated := now |})
  ∧ (∀ newProgress,
       unlockedAt (unlock now2 (updateProgress now newProgress (unlock now a)))
       = unlockedAt (unlock now a)).
Proof.
  assert (Hu : isUnlocked (unlock now a) = true).
  { unfold unlock. by destruct (isUnlocked a) eqn:E. }
  split; [done |]. split.
  { unfold unlock at 1. by rewrite Hu. }
  split.
  { intros H. unfold unlock. by rewrite H. }
  split.
  { intros H. unfold unlock. by rewrite H. }
  intros newProgress.
  destruct (AchievementFacts.updateProgress_unlocked now newProgress _ Hu) as [Hu' Hat].
  unfold unlock at 1. by rewrite Hu'.
Qed.

Lemma achievement_unlock_idempotent_witness :
  let a := Sample.achievement carbon_reduction lifetime 4 4 common 0 in
  unlockedAt (unlock 10 a) = Some 10
  ∧ unlock 20 (unlock 10 a) = unlock 10 a.
Proof.
  intros a.
  destruct (achievement_unlock_idempotent 10 20 a) as (_ & Hidem & _ & Hfresh & _).
  split; [by destruct Hfresh | exact Hidem].
Defined.

(** Sorting by [unlockedAt], most recent first. *)
Global Instance unlockedAtDesc_total : Total unlockedAtDesc.
Proof.
  intros x y. unfold unlockedAtDesc, dateLe.
  destruct (unlockedAt x.2), (unlockedAt y.2); try tauto. lia.
Qed.

Global Instance unlockedAtDesc_trans : Transitive unlockedAtDesc.
Proof.
  intros x y z. unfold unlockedAtDesc, dateLe.
  destruct (unlockedAt x.2), (unlockedAt y.2), (unlockedAt z.2); try tauto. lia.
Qed.

Lemma elem_of_unlocked coll userId d :
  d ∈ getUserUnlockedAchievements coll userId ↔
    coll !! d.1 = Some d.2 ∧ unlockedActive userId d.
Proof.
  unfold getUserUnlockedAchievements.
  rewrite merge_sort_Permutation, list_elem_of_filter, elem_of_map_to_list'. tauto.
Qed.

Lemma NoDup_unlocked_ids coll userId :
  NoDup (getUserUnlockedAchievements coll userId).*1.
Proof.
  unfold getUserUnlockedAchievements. rewrite merge_sort_Permutation.
  apply (sublist_NoDup _ (map_to_list coll).*1); [apply NoDup_fst_map_to_list |].
  apply fmap_sublist, sublist_filter.
Qed.

(** X3. The unlocked listing holds exactly the stored achievements of the
    user that are unlocked and active, each once, the most recently
    unlocked first and those without [unlockedAt] last; it never shares an
    achievement with the available listing, and every stored achievement of
    the user that is active, visible and unexpired is in one of the two. *)
Theorem unlocked_listing (coll : gmap Z t) (userId now : Z) :
  let unlocked := getUserUnlockedAchievements coll userId in
  let available := getUserAvailableAchievements coll userId now in
  (∀ d : Doc, d ∈ unlocked ↔
     coll !! d.1 = Some d.2 ∧ user d.2 = userId
     ∧ isUnlocked d.2 = true ∧ isActive d.2 = true)
  ∧ NoDup unlocked.*1
  ∧ StronglySorted unlockedAtDesc unlocked
  ∧ (∀ (i j : nat) (x y : Doc) (at_ : Z),
       unlocked !! i = Some x → unlocked !! j = Some y → (i < j)%nat →
       unlockedAt y.2 = Some at_ → ∃ at', unlockedAt x.2 = Some at' ∧ at_ ≤ at')
  ∧ (∀ id, id ∈ unlocked.*1 → id ∉ available.*1)
  ∧ (∀ id a, coll !! id = Some a → user a = userId → isActive a = true →
       isHidden a = false → unexpired now (expiresAt a) →
       id ∈ unlocked.*1 ∨ id ∈ available.*1).
Proof.
  intros unlocked available.
  assert (Hsorted : StronglySorted unlockedAtDesc unlocked)
    by apply (StronglySorted_merge_sort _).
  split; [intros d; subst unlocked; by rewrite elem_of_unlocked |].
  split; [apply NoDup_unlocked_ids |]. split; [done |]. split.
  { intros i j x y at_ Hi Hj Hij Hat.
    pose proof (ListFacts.StronglySorted_lookup _ _ _ _ _ _ Hsorted Hi Hj Hij) as Hxy.
    unfold unlockedAtDesc, dateLe in Hxy. rewrite Hat in Hxy.
    destruct (unlockedAt x.2) as [at' |]; [eauto | done]. }
  split.
  { intros id (x & -> & Hx)%list_elem_of_fmap (y & Hid & Hy)%list_elem_of_fmap.
    apply elem_of_unlocked in Hx as (Hx & _ & Hux & _).
    apply CheckFacts.elem_of_available in Hy as (Hy & _ & Hly & _).
    rewrite Hid, Hy in Hx. injection Hx as Hx. congruence. }
  intros id a Ha Huser Hact Hvis Hexp.
  destruct (isUnlocked a) eqn:Hu.
  - left. apply (list_elem_of_fmap_2' fst _ (id, a)); [| done].
    by apply elem_of_unlocked.
  - right. apply (list_elem_of_fmap_2' fst _ (id, a)); [| done].
    by apply CheckFacts.elem_of_available.
Qed.

Lemma unlocked_listing_witness :
  (getUserUnlockedAchievements Sample.collMixed 1).*1 = [3; 6; 2]
  ∧ (getUserAvailableAchievements Sample.collMixed 1 100).*1 = [1]
  ∧ ∀ id, id ∈ (getUserUnlockedAchievements Sample.collMixed 1).*1 →
          id ∉ (getUserAvailableAchievements Sample.collMixed 1 100).*1.
Proof.
  split; [vm_compute; reflexivity |]. split; [vm_compute; reflexivity |].
  pose proof (unlocked_listing Sample.collMixed 1 100) as H.
  cbv zeta in H. destruct H as (_ & _ & _ & _ & Hdisjoint & _). exact Hdisjoint.
Defined.

End AchievementModelFacts.

(** * The achievement list and statistics handlers *)

Module AchievementRouteFacts.

Import Achievement AchievementRoutes.

Lemma ratio_le_100 (c r : Z) :
  0 < r → (inject_Z c / inject_Z r * 100 <= 100)%Q ↔ c ≤ r.
Proof.
  intros Hr. destruct r as [| r | r]; try lia.
  unfold Qle, Qdiv, Qmult, Qinv, inject_Z. simpl. lia.
Qed.

Lemma sumPoints_Permutation (l1 l2 : list Doc) :
  l1 ≡ₚ l2 →
  foldr (λ d sum, points d.2 + sum) 0 l1 = foldr (λ d sum, points d.2 + sum) 0 l2.
Proof. induction 1; simpl; lia. Qed.

(** Two exclusive filters inside a third count for at most as much. *)
Lemma length_filter_disjoint {A} (P Q U : A → Prop)
    `{!∀ x, Decision (P x)} `{!∀ x, Decision (Q x)} `{!∀ x, Decision (U x)} (l : list A) :
  (∀ x, P x → U x) → (∀ x, Q x → U x) → (∀ x, P x → Q x → False) →
  (length (filter P l) + length (filter Q l) ≤ length (filter U l))%nat.
Proof.
  intros HP HQ HPQ. induction l as [| x l IH]; [done |].
  rewrite !filter_cons.
  destruct (decide (P x)) as [Hp | Hp], (decide (Q x)) as [Hq | Hq],
    (decide (U x)) as [Hu | Hu]; simpl; try lia.
  - destruct (HPQ x Hp Hq).
  - destruct (HPQ x Hp Hq).
  - destruct (Hu (HP x Hp)).
  - destruct (Hu (HQ x Hq)).
Qed.

Lemma getUserTotalPoints_sum (coll : gmap Z t) (userId : Z) :
  totalPoints (getUserTotalPoints coll userId)
  = foldr (λ d sum, points d.2 + sum) 0 (getUserUnlockedAchievements coll userId).
Proof.
  unfold getUserUnlockedAchievements.
  rewrite (sumPoints_Permutation _ _ (merge_sort_Permutation _ _)).
  unfold getUserTotalPoints, aggregateTotalPoints. by destruct (filter _ _).
Qed.

Lemma getUserTotalPoints_count (coll : gmap Z t) (userId : Z) :
  achievementCount (getUserTotalPoints coll userId)
  = Z.of_nat (length (getUserUnlockedAchievements coll userId)).
Proof.
  unfold getUserUnlockedAchievements.
  rewrite (Permutation_length (merge_sort_Permutation _ _)).
  unfold getUserTotalPoints, aggregateTotalPoints. by destruct (filter _ _).
Qed.

(** X4. [getUserTotalPoints] adds up the points of exactly the
    achievements of the unlocked listing and counts them; with none
    unlocked it answers with both zero; with non-negative points the total
    is non-negative and at least the points of any unlocked achievement. *)
Theorem total_points_of_unlocked (coll : gmap Z t) (userId : Z) :
  let unlocked := getUserUnlockedAchievements coll userId in
  let result := getUserTotalPoints coll userId in
  totalPoints result = foldr (λ d sum, points d.2 + sum) 0 unlocked
  ∧ achievementCount result = Z.of_nat (length unlocked)
  ∧ (unlocked = [] → result = {| totalPoints := 0; achievementCount := 0 |})
  ∧ ((∀ d : Doc, d ∈ unlocked → 0 ≤ points d.2) →
     ∀ d : Doc, d ∈ unlocked → 0 ≤ points d.2 ≤ totalPoints result).
Proof.
  intros unlocked result.
  assert (Hperm : unlocked ≡ₚ filter (unlockedActive userId) (map_to_list coll))
    by apply merge_sort_Permutation.
  assert (Hsum : totalPoints result = foldr (λ d sum, points d.2 + sum) 0 unlocked)
    by apply getUserTotalPoints_sum.
  assert (Hcount : achievementCount result = Z.of_nat (length unlocked))
    by apply getUserTotalPoints_count.
  split; [done |]. split; [done |]. split.
  - intros Hnil. rewrite Hnil in Hperm. apply Permutation_nil_l in Hperm.
    subst result. unfold getUserTotalPoints, aggregateTotalPoints. by rewrite <- Hperm.
  - intros Hnn d Hd. rewrite Hsum. clear Hsum Hcount Hperm.
    induction unlocked as [| x l IH]; [by apply elem_of_nil in Hd |].
    assert (Hl : 0 ≤ foldr (λ d sum, points d.2 + sum) 0 l).
    { clear IH Hd. induction l as [| y l IHl]; simpl; [lia |].
      assert (0 ≤ points y.2) by (apply Hnn; right; left).
      assert (0 ≤ foldr (λ d sum, points d.2 + sum) 0 l); [| lia].
      apply IHl. intros z Hz. apply Hnn. apply elem_of_cons in Hz as [-> | Hz];
        [left | right; by right]. }
    assert (Hx : 0 ≤ points x.2) by (apply Hnn; left).
    simpl. apply elem_of_cons in Hd as [-> | Hd]; [lia |].
    assert (0 ≤ points d.2 ≤ foldr (λ d sum, points d.2 + sum) 0 l); [| lia].
    apply IH; [| done]. intros z Hz. apply Hnn. by right.
Qed.

Lemma total_points_of_unlocked_witness :
  getUserTotalPoints Sample.collMixed 1 = {| totalPoints := 110; achievementCount := 3 |}
  ∧ getUserTotalPoints Sample.collMixed 2 = {| totalPoints := 0; achievementCount := 0 |}.
Proof.
  split; [vm_compute; reflexivity |].
  pose proof (total_points_of_unlocked Sample.collMixed 2) as H.
  cbv zeta in H. destruct H as (_ & _ & Hnone & _). apply Hnone. vm_compute. reflexivity.
Defined.

(** X5. In the statistics overview the unlocked and the available counts
    never add up to more than the total; the count reported by the points
    aggregation equals the unlocked count; the completion rate lies in
    [0, 100], is 0 for a user without achievements, and 100 exactly when
    every achievement of the user is unlocked and active; the recent list
    is the first five of the unlocked listing. *)
Theorem achievement_stats_overview (now userId : Z) (coll : gmap Z t) :
  let o := statsOverview now userId coll in
  statsUnlocked (stats o) + statsAvailable (stats o) ≤ statsTotal (stats o)
  ∧ 0 ≤ statsUnlocked (stats o)
  ∧ statsAchievementCount (stats o) = statsUnlocked (stats o)
  ∧ (0 <= completionRate (stats o))%Q ∧ (completionRate (stats o) <= 100)%Q
  ∧ (statsTotal (stats o) = 0 → completionRate (stats o) = 0%Q)
  ∧ (0 < statsTotal (stats o) →
     ((completionRate (stats o) == 100)%Q ↔ statsUnlocked (stats o) = statsTotal (stats o)))
  ∧ recentUnlocked o = take 5 (getUnlocked now userId coll)
  ∧ length (recentUnlocked o) = Z.to_nat (Z.min 5 (statsUnlocked (stats o))).
Proof.
  intros o.
  set (all := map_to_list coll).
  assert (Hu : length (getUserUnlockedAchievements coll userId)
               = length (filter (unlockedActive userId) all)).
  { apply Permutation_length, merge_sort_Permutation. }
  assert (Ha : length (getUserAvailableAchievements coll userId now)
               = length (filter (available userId now) all)).
  { apply Permutation_length, merge_sort_Permutation. }
  assert (Hle : (length (filter (unlockedActive userId) all)
                 + length (filter (available userId now) all)
                 ≤ length (filter (λ d : Doc, user d.2 = userId) all))%nat).
  { apply length_filter_disjoint.
    - by intros x (? & _).
    - by intros x (? & _).
    - intros x (_ & H1 & _) (_ & H2 & _). congruence. }
  assert (Hsum : statsUnlocked (stats o) + statsAvailable (stats o) ≤ statsTotal (stats o)).
  { subst o. unfold statsOverview, countOfUser. cbn [stats statsUnlocked statsAvailable statsTotal].
    fold all. rewrite Hu, Ha. lia. }
  assert (Hnn : 0 ≤ statsUnlocked (stats o)) by (subst o; simpl; lia).
  assert (Hav : 0 ≤ statsAvailable (stats o)) by (subst o; simpl; lia).
  split; [done |]. split; [done |]. split.
  { subst o. cbn [statsOverview stats statsAchievementCount statsUnlocked].
    apply getUserTotalPoints_count. }
  assert (Hrate : completionRate (stats o) =
            if bool_decide (0 < statsTotal (stats o))
            then (inject_Z (statsUnlocked (stats o)) / inject_Z (statsTotal (stats o)) * 100)%Q
            else 0%Q) by done.
  split.
  { rewrite Hrate. case_bool_decide; [| done]. by apply PercentFacts.ratio_nonneg. }
  split.
  { rewrite Hrate. case_bool_decide; [| done]. apply ratio_le_100; lia. }
  split.
  { intros Hz. rewrite Hrate. rewrite bool_decide_eq_false_2; [done | lia]. }
  split.
  { intros Hpos. rewrite Hrate, bool_decide_eq_true_2 by done. split.
    - intros Heq. assert (statsTotal (stats o) ≤ statsUnlocked (stats o)); [| lia].
      apply PercentFacts.ratio_ge_100; [done |]. rewrite Heq. apply Qle_refl.
    - intros Heq. apply Qle_antisym.
      + apply ratio_le_100; lia.
      + apply PercentFacts.ratio_ge_100; lia. }
  split.
  { subst o. unfold statsOverview, getUnlocked. cbn [recentUnlocked]. by rewrite fmap_take. }
  subst o. unfold statsOverview. cbn [recentUnlocked stats statsUnlocked].
  rewrite length_fmap, length_take. lia.
Qed.

Lemma achievement_stats_overview_witness :
  let o := statsOverview 100 1 Sample.collMixed in
  statsTotal (stats o) = 6 ∧ statsUnlocked (stats o) = 3 ∧ statsAvailable (stats o) = 1
  ∧ (completionRate (stats o) == 50)%Q
  ∧ statsAchievementCount (stats o) = statsUnlocked (stats o).
Proof.
  intros o.
  split; [vm_compute; reflexivity |]. split; [vm_compute; reflexivity |].
  split; [vm_compute; reflexivity |]. split; [vm_compute; reflexivity |].
  pose proof (achievement_stats_overview 100 1 Sample.collMixed) as H.
  cbv zeta in H. destruct H as (_ & _ & Hcount & _). exact Hcount.
Defined.

(** The stored rarity strings are pairwise different. *)
Lemma rarityString_inj r1 r2 : rarityString r1 = rarityString r2 → r1 = r2.
Proof. destruct r1, r2; simpl; intros H; first [done | discriminate H]. Qed.

(** The histogram loop adds, under each key, the number of documents of
    that rarity string to what the object held. *)
Lemma countRarity_foldl (l : list Doc) : ∀ (m : gmap string Z) (key : string),
  foldl countRarity m l !! key =
    match length (filter (λ d : Doc, rarityString (rarity d.2) = key) l) with
    | O => m !! key
    | S n => Some (default 0 (m !! key) + Z.of_nat (S n))
    end.
Proof.
  induction l as [| d l IH]; intros m key; [done |].
  cbn [foldl]. rewrite IH, filter_cons. unfold countRarity.
  destruct (decide (rarityString (rarity d.2) = key)) as [-> | Hne].
  - rewrite lookup_insert_eq. cbn [length].
    destruct (length _); unfold default; cbn [from_option id]; f_equal; lia.
  - by rewrite lookup_insert_ne.
Qed.

(** X6. The rarity histogram of the overview has, for each rarity, the
    number of unlocked achievements of that rarity, and no entry at all
    (rather than a zero) for a rarity without any; it has no other keys,
    and its entries add up to the unlocked count. *)
Theorem achievement_rarity_histogram (now userId : Z) (coll : gmap Z t) :
  let o := statsOverview now userId coll in
  let unlocked := getUserUnlockedAchievements coll userId in
  let count r := length (filter (λ d : Doc, rarity d.2 = r) unlocked) in
  (∀ r, rarityStats o !! rarityString r =
          if bool_decide (count r = 0%nat) then None else Some (Z.of_nat (count r)))
  ∧ (∀ key n, rarityStats o !! key = Some n → 0 < n ∧ ∃ r, key = rarityString r)
  ∧ Z.of_nat (count common + count uncommon + count rare + count epic + count legendary)
    = statsUnlocked (stats o).
Proof.
  intros o unlocked count.
  assert (Hfilter : ∀ r, filter (λ d : Doc, rarityString (rarity d.2) = rarityString r) unlocked
                         = filter (λ d : Doc, rarity d.2 = r) unlocked).
  { intros r. apply list_filter_iff. intros d. split; [apply rarityString_inj | by intros ->]. }
  assert (Hlookup : ∀ key, rarityStats o !! key =
            match length (filter (λ d : Doc, rarityString (rarity d.2) = key) unlocked) with
            | O => None
            | S n => Some (Z.of_nat (S n))
            end).
  { intros key. subst o. unfold statsOverview. cbn [rarityStats]. fold unlocked.
    rewrite countRarity_foldl, lookup_empty. by destruct (length _). }
  split.
  { intros r. rewrite Hlookup, Hfilter. fold (count r).
    destruct (count r); [done |]. by rewrite bool_decide_eq_false_2. }
  split.
  { intros key n. rewrite Hlookup.
    destruct (filter _ unlocked) as [| d l] eqn:Hf; [done |].
    intros [= <-]. split; [simpl; lia |].
    exists (rarity d.2).
    assert (Hd : d ∈ filter (λ d : Doc, rarityString (rarity d.2) = key) unlocked)
      by (rewrite Hf; left).
    apply list_elem_of_filter in Hd as [Hd _]. by rewrite Hd. }
  subst o. unfold statsOverview. cbn [stats statsUnlocked]. fold unlocked. f_equal.
  subst count. cbv beta. clear. induction unlocked as [| d l IH]; [done |].
  rewrite !filter_cons. cbn [length]. rewrite <- IH.
  destruct (rarity d.2); repeat case_decide; simpl; try congruence; lia.
Qed.

Lemma achievement_rarity_histogram_witness :
  let o := statsOverview 100 1 Sample.collMixed in
  rarityStats o !! "rare"%string = Some 2
  ∧ rarityStats o !! "epic"%string = Some 1
  ∧ rarityStats o !! "common"%string = None.
Proof.
  intros o.
  pose proof (achievement_rarity_histogram 100 1 Sample.collMixed) as H.
  cbv zeta in H. destruct H as (Hentry & _).
  split; [exact (Hentry rare) |]. split; [exact (Hentry epic) | exact (Hentry common)].
Defined.

End AchievementRouteFacts.

(** * Pagination *)

Module PageFacts.

Import AchievementRoutes.





End PageFacts.

(** * The list handlers *)

Module ListingFacts.

Import AchievementRoutes.

Global Instance endDateAsc_total : Total Goal.endDateAsc.
Proof. intros x y. unfold Goal.endDateAsc. lia. Qed.

Global Instance endDateAsc_trans : Transitive Goal.endDateAsc.
Proof. intros x y z. unfold Goal.endDateAsc. lia. Qed.

Global Instance activity_dateDesc_total : Total ActivityRoutes.dateDesc.
Proof. intros x y. unfold ActivityRoutes.dateDesc, Activity.dateDesc. lia. Qed.

Global Instance activity_dateDesc_trans : Transitive ActivityRoutes.dateDesc.
Proof. intros x y z. unfold ActivityRoutes.dateDesc, Activity.dateDesc. lia. Qed.


Lemma elem_of_getAchievements_all now userId status category limit
    (coll : gmap Z Achievement.t) (v : Achievement.View.t) :
  total (getAchievements now userId status category 1 limit coll).2 ≤ Z.pos limit →
  v ∈ (getAchievements now userId status category 1 limit coll).1 ↔
    ∃ d : Achievement.Doc, v = Achievement.toResponseFormat now d
      ∧ coll !! d.1 = Some d.2 ∧ listFilter userId status category d.
Proof.
  unfold getAchievements. cbn [fst snd pagination total]. intros Hfit.
  unfold skipLimit. replace (Pos.to_nat 1 - 1)%nat with 0%nat by lia.
  rewrite Nat.mul_0_l, drop_0.
  rewrite take_ge.
  2:{ rewrite (Permutation_length (merge_sort_Permutation _ _)).
      apply Nat2Z.inj_le. by rewrite positive_nat_Z. }
  rewrite list_elem_of_fmap. split; intros (d & Hv & Hd); exists d; (split; [done |]).
  - by apply ListFacts.elem_of_sorted_filter in Hd.
  - by apply ListFacts.elem_of_sorted_filter.
Qed.

(** X8. The [status=available] listing of [GET /api/achievements] is wider
    than [GET /api/achievements/available]: on a page that holds the whole
    result it shows every locked, visible achievement of the user, so it
    contains every view of the latter and, besides, the inactive and the
    expired ones, which the latter (and the check) leave out. *)
Theorem available_listing_is_wider (now userId : Z) (limit : positive)
    (coll : gmap Z Achievement.t) :
  let listed :=
    (getAchievements now userId (Some "available"%string) None 1 limit coll).1 in
  total (getAchievements now userId (Some "available"%string) None 1 limit coll).2
    ≤ Z.pos limit →
  (∀ v, v ∈ listed ↔
     ∃ id a, v = Achievement.toResponseFormat now (id, a) ∧ coll !! id = Some a
       ∧ Achievement.user a = userId ∧ Achievement.isUnlocked a = false
       ∧ Achievement.isHidden a = false)
  ∧ (∀ v, v ∈ getAvailable now userId coll → v ∈ listed)
  ∧ (∀ id a, coll !! id = Some a → Achievement.user a = userId →
       Achievement.isUnlocked a = false → Achievement.isHidden a = false →
       Achievement.isActive a = false ∨ ¬ Achievement.unexpired now (Achievement.expiresAt a) →
       Achievement.toResponseFormat now (id, a) ∈ listed
       ∧ (id, a) ∉ Achievement.getUserAvailableAchievements coll userId now).
Proof.
  intros listed Hfit.
  assert (Hlisted : ∀ v, v ∈ listed ↔
     ∃ id a, v = Achievement.toResponseFormat now (id, a) ∧ coll !! id = Some a
       ∧ Achievement.user a = userId ∧ Achievement.isUnlocked a = false
       ∧ Achievement.isHidden a = false).
  { intros v. subst listed. rewrite elem_of_getAchievements_all by done.
    unfold listFilter. cbn. split.
    - intros ([id a] & Hv & Hd & Hu & Hs & _). exists id, a. simpl in *. tauto.
    - intros (id & a & Hv & Hd & Hu & Hl & Hh). exists (id, a). simpl. tauto. }
  split; [done |]. split.
  - intros v Hv. apply Hlisted. unfold getAvailable in Hv.
    apply list_elem_of_fmap in Hv as ([id a] & -> & Hd).
    apply CheckFacts.elem_of_available in Hd as (Hd & Hu & Hl & Hh & _).
    exists id, a. simpl in *. tauto.
  - intros id a Ha Hu Hl Hh Hout. split.
    + apply Hlisted. exists id, a. tauto.
    + intros (_ & _ & _ & _ & Hact & Hexp)%CheckFacts.elem_of_available. simpl in *.
      destruct Hout as [Hina | Hexpd]; [congruence | done].
Qed.

Lemma available_listing_is_wider_witness :
  let listed := (getAchievements 100 1 (Some "available"%string) None 1 10 Sample.collMixed).1 in
  Achievement.View.id <$> listed = [1; 4; 5]
  ∧ Achievement.View.id <$> getAvailable 100 1 Sample.collMixed = [1]
  ∧ ∀ v, v ∈ getAvailable 100 1 Sample.collMixed → v ∈ listed.
Proof.
  intros listed. split; [vm_compute; reflexivity |]. split; [vm_compute; reflexivity |].
  apply (available_listing_is_wider 100 1 10 Sample.collMixed).
  vm_compute. discriminate.
Defined.

(** X9. No achievement read handler shows another user's data: every view
    returned by the list, unlocked, available, single and overview handlers
    carries the [_id] of a stored achievement owned by the requesting
    user; asking for another user's achievement by [_id] gives the 404
    answer. *)
Theorem achievement_reads_are_own (now userId : Z) (coll : gmap Z Achievement.t) :
  let own (v : Achievement.View.t) :=
    ∃ a, coll !! Achievement.View.id v = Some a ∧ Achievement.user a = userId
         ∧ v = Achievement.toResponseFormat now (Achievement.View.id v, a) in
  (∀ status category page limit v,
     v ∈ (getAchievements now userId status category page limit coll).1 → own v)
  ∧ (∀ v, v ∈ getUnlocked now userId coll → own v)
  ∧ (∀ v, v ∈ getAvailable now userId coll → own v)
  ∧ (∀ v, v ∈ recentUnlocked (statsOverview now userId coll) → own v)
  ∧ (∀ id v, getAchievement now userId id coll = Some v → own v ∧ Achievement.View.id v = id)
  ∧ (∀ id a, coll !! id = Some a → Achievement.user a ≠ userId →
       getAchievement now userId id coll = None).
Proof.
  intros own.
  assert (Hdoc : ∀ d : Achievement.Doc, coll !! d.1 = Some d.2 →
            Achievement.user d.2 = userId → own (Achievement.toResponseFormat now d)).
  { intros [id a] Hd Hu. exists a. simpl in *. done. }
  split.
  { intros status category page limit v Hv. unfold getAchievements in Hv. cbn [fst] in Hv.
    apply list_elem_of_fmap in Hv as (d & -> & Hd).
    unfold skipLimit in Hd. apply subseteq_take, subseteq_drop in Hd.
    apply ListFacts.elem_of_sorted_filter in Hd as [Hd (Hu & _)]. by apply Hdoc. }
  split.
  { intros v (d & -> & Hd)%list_elem_of_fmap.
    apply AchievementModelFacts.elem_of_unlocked in Hd as (Hd & Hu & _). by apply Hdoc. }
  split.
  { intros v (d & -> & Hd)%list_elem_of_fmap.
    apply CheckFacts.elem_of_available in Hd as (Hd & Hu & _). by apply Hdoc. }
  split.
  { intros v Hv. unfold statsOverview in Hv. cbn [recentUnlocked] in Hv.
    apply list_elem_of_fmap in Hv as (d & -> & Hd). apply subseteq_take in Hd.
    apply AchievementModelFacts.elem_of_unlocked in Hd as (Hd & Hu & _). by apply Hdoc. }
  split.
  { intros id v. unfold getAchievement. destruct (coll !! id) as [a |] eqn:Ha; [| done].
    case_bool_decide as Hu; [| done]. intros [= <-]. split; [| done].
    by apply (Hdoc (id, a)). }
  intros id a Ha Hu. unfold getAchievement. rewrite Ha. by rewrite bool_decide_eq_false_2.
Qed.

Lemma achievement_reads_are_own_witness :
  getAchievement 100 2 1 Sample.collMixed = None
  ∧ ∃ v, getAchievement 100 1 1 Sample.collMixed = Some v ∧ Achievement.View.id v = 1.
Proof.
  destruct (achievement_reads_are_own 100 2 Sample.collMixed) as (_ & _ & _ & _ & _ & Hother).
  destruct (achievement_reads_are_own 100 1 Sample.collMixed) as (_ & _ & _ & _ & Hown & _).
  split.
  - apply (Hother 1 (Sample.achievementWith Achievement.common 10 false None true 1));
      [reflexivity | vm_compute; discriminate].
  - eexists. split; [reflexivity |]. eapply Hown. reflexivity.
Defined.

End ListingFacts.

(** * More on the check handler *)

Module CheckMoreFacts.

Import JsDate AchievementRoutes.

Lemma check_snd cal now db user coll :
  (check cal now db user coll).2 =
    (checkLoop cal now db user
       (Achievement.getUserAvailableAchievements coll (User._id user) now) coll []).2.
Proof. unfold check. by destruct (checkLoop _ _ _ _ _ _ _) as [[newly |] coll']. Qed.

(** What [updateProgress] leaves alone. *)
Lemma updateProgress_frame now p a :
  let a' := Achievement.updateProgress now p a in
  Achievement.user a' = Achievement.user a
  ∧ Achievement.criteria a' = Achievement.criteria a
  ∧ Achievement.required (Achievement.progress a') = Achievement.required (Achievement.progress a)
  ∧ Achievement.isHidden a' = Achievement.isHidden a
  ∧ Achievement.isActive a' = Achievement.isActive a
  ∧ Achievement.expiresAt a' = Achievement.expiresAt a
  ∧ Achievement.points a' = Achievement.points a
  ∧ Achievement.rarity a' = Achievement.rarity a
  ∧ Achievement.createdAt a' = Achievement.createdAt a
  ∧ Achievement.title a' = Achievement.title a
  ∧ Achievement.category a' = Achievement.category a.
Proof. unfold Achievement.updateProgress. by destruct (_ && _). Qed.

Lemma afterVisit_cases now p a :
  afterVisit now p a = a ∨ afterVisit now p a = Achievement.updateProgress now p a.
Proof. unfold afterVisit. case_bool_decide; [by right | by left]. Qed.

Lemma afterVisit_unlocked now p a :
  Achievement.isUnlocked a = false →
  Achievement.isUnlocked (afterVisit now p a) = true ↔
    p ≠ Achievement.current (Achievement.progress a)
    ∧ Achievement.required (Achievement.progress a) ≤ Z.max 0 p.
Proof.
  intros Hl. unfold afterVisit. case_bool_decide as Hp.
  - unfold Achievement.updateProgress. rewrite Hl, andb_true_r.
    case_bool_decide; simpl; [tauto |]. split; [done | by intros [_ ?]].
  - rewrite Hl. split; [done | by intros [? _]].
Qed.

(** After the loop every document is as the store had it or as its turn
    left it. *)
Lemma loop_lookup cal now db user (todo : list Achievement.Doc) :
  ∀ (coll : gmap Z Achievement.t) newly id,
  NoDup todo.*1 →
  (∀ d : Achievement.Doc, d ∈ todo → coll !! d.1 = Some d.2) →
  (checkLoop cal now db user todo coll newly).2 !! id = coll !! id
  ∨ ∃ (d : Achievement.Doc) p, d ∈ todo ∧ d.1 = id
      ∧ calculateAchievementProgress cal now db user d.2 = Ok p
      ∧ (checkLoop cal now db user todo coll newly).2 !! id = Some (afterVisit now p d.2).
Proof.
  induction todo as [| d todo IH]; intros coll newly id Hnd Hstored; [by left |].
  rewrite fmap_cons in Hnd. apply NoDup_cons in Hnd as [Hfresh Hnd].
  destruct (calculateAchievementProgress cal now db user d.2) as [p |] eqn:Hc.
  2:{ left. by rewrite CheckFacts.loop_cons_rejected. }
  rewrite (CheckFacts.loop_cons_ok cal now db user d todo coll newly p Hc).
  destruct (IH (turnColl now p d coll) (turnNewly now p d newly) id Hnd) as [Hsame | Hvis].
  - intros d' Hd'. rewrite CheckFacts.turnColl_lookup_ne; [apply Hstored; by right |].
    intros Heq. apply Hfresh. rewrite <- Heq. by apply list_elem_of_fmap_2.
  - rewrite Hsame. destruct (decide (id = d.1)) as [-> | Hne].
    + right. exists d, p. split; [left |]. split; [done |]. split; [done |].
      apply CheckFacts.turnColl_lookup_eq. apply Hstored. left.
    + left. by apply CheckFacts.turnColl_lookup_ne.
  - right. destruct Hvis as (d' & p' & Hd' & Hid & Hc' & Hlook).
    exists d', p'. split; [by right | done].
Qed.

Lemma check_lookup cal now db user (coll : gmap Z Achievement.t) id :
  (check cal now db user coll).2 !! id = coll !! id
  ∨ ∃ a p, coll !! id = Some a
      ∧ Achievement.available (User._id user) now (id, a)
      ∧ calculateAchievementProgress cal now db user a = Ok p
      ∧ (check cal now db user coll).2 !! id = Some (afterVisit now p a).
Proof.
  rewrite check_snd.
  destruct (loop_lookup cal now db user
              (Achievement.getUserAvailableAchievements coll (User._id user) now)
              coll [] id) as [Hsame | (d & p & Hd & Hid & Hc & Hlook)].
  - apply CheckFacts.NoDup_available_ids.
  - intros d Hd. by apply CheckFacts.elem_of_available in Hd as [? _].
  - by left.
  - right. apply CheckFacts.elem_of_available in Hd as [Hstored Hav].
    destruct d as [id' a]. simpl in *. subst id'. by exists a, p.
Qed.

(** X10. When no evaluation rejects, the check stores, for every available
    achievement, the state its turn leaves: it is unlocked by this call
    exactly when the evaluated progress differs from the stored one and
    reaches the requirement (so an achievement whose stored progress already
    equals the evaluation stays locked even at or above its requirement);
    an achievement unlocked by the call is stamped with the time of the
    call, appears in the unlocked listing of the resulting collection and
    is gone from its available listing. *)
Theorem check_unlocks_visible (cal : Calendar) (now : Z) (db : Stores) (user : User.t)
    (coll : gmap Z Achievement.t) :
  let found := Achievement.getUserAvailableAchievements coll (User._id user) now in
  let after := (check cal now db user coll).2 in
  Forall (λ x : Achievement.Doc,
            calculateAchievementProgress cal now db user x.2 ≠ Rejected) found →
  ∀ (d : Achievement.Doc) p, d ∈ found →
    calculateAchievementProgress cal now db user d.2 = Ok p →
    after !! d.1 = Some (afterVisit now p d.2)
    ∧ (Achievement.isUnlocked (afterVisit now p d.2) = true ↔
         p ≠ Achievement.current (Achievement.progress d.2)
         ∧ Achievement.required (Achievement.progress d.2) ≤ Z.max 0 p)
    ∧ (p = Achievement.current (Achievement.progress d.2) → after !! d.1 = Some d.2)
    ∧ (Achievement.isUnlocked (afterVisit now p d.2) = true →
         Achievement.unlockedAt (afterVisit now p d.2) = Some now
         ∧ (d.1, afterVisit now p d.2)
             ∈ Achievement.getUserUnlockedAchievements after (User._id user)
         ∧ ∀ now', d.1 ∉ (Achievement.getUserAvailableAchievements after
                             (User._id user) now').*1).
Proof.
  intros found after Hok d p Hd Hc.
  apply CheckFacts.elem_of_available in Hd as Hav. destruct Hav as (Hstored & Hu & Hl & Hh & Hact & Hexp).
  assert (Hafter : after !! d.1 = Some (afterVisit now p d.2)).
  { subst after. rewrite check_snd. apply CheckFacts.loop_visited; try done.
    apply CheckFacts.NoDup_available_ids. }
  split; [done |]. split; [by apply afterVisit_unlocked |]. split.
  { intros Heq. rewrite Hafter. unfold afterVisit. by rewrite bool_decide_eq_false_2 by tauto. }
  intros Hunl.
  assert (Hup : afterVisit now p d.2 = Achievement.updateProgress now p d.2).
  { destruct (afterVisit_cases now p d.2) as [Hsame | Hup]; [| done]. congruence. }
  rewrite Hup in Hunl |- *.
  destruct (AchievementFacts.updateProgress_locked_stamp now p d.2 Hl Hunl) as [Hstamp _].
  destruct (updateProgress_frame now p d.2) as (Hu' & _ & _ & _ & Hact' & _).
  split; [done |]. split.
  - apply AchievementModelFacts.elem_of_unlocked. cbn [fst snd].
    rewrite Hup in Hafter. split; [done |]. unfold Achievement.unlockedActive. cbn [snd].
    rewrite Hu', Hact'. done.
  - intros now' (x & Hid & Hx)%list_elem_of_fmap.
    apply CheckFacts.elem_of_available in Hx as (Hx & _ & Hlx & _).
    rewrite <- Hid, Hafter in Hx. injection Hx as Hx. rewrite <- Hx in Hlx. congruence.
Qed.

Lemma check_unlocks_visible_witness :
  let user := Sample.user 10 7 in
  let after := (check utc 1000 (Sample.storesUp []) user Sample.collCarbon).2 in
  (Achievement.getUserUnlockedAchievements after 1).*1 = [1]
  ∧ ∀ now', 1 ∉ (Achievement.getUserAvailableAchievements after 1 now').*1.
Proof.
  intros user after. split; [vm_compute; reflexivity |].
  destruct (check_unlocks_visible utc 1000 (Sample.storesUp []) user Sample.collCarbon
              ltac:(vm_compute; repeat constructor; discriminate)
              (1, Sample.achievement Achievement.carbon_reduction Achievement.lifetime 2 2
                    Achievement.common 0) 2)
    as (_ & _ & _ & Hvis).
  - vm_compute. left.
  - reflexivity.
  - destruct Hvis as (_ & _ & Hgone); [reflexivity | exact Hgone].
Defined.

(** X11. The check writes nothing it does not own: it neither adds nor
    removes a document; an achievement that is not available to the user at
    the time of the call (another user's, unlocked, hidden, inactive or
    expired) is left exactly as stored; a visited achievement keeps its
    owner, criteria, required progress, visibility, activity, expiry,
    points, rarity, title, category and creation time, keeps its
    [unlockedAt] while it stays locked, and is never locked again. This
    holds also when the call ends in the server error. *)
Theorem check_frame (cal : Calendar) (now : Z) (db : Stores) (user : User.t)
    (coll : gmap Z Achievement.t) :
  let after := (check cal now db user coll).2 in
  dom after = dom coll
  ∧ (∀ id a, coll !! id = Some a →
       ¬ Achievement.available (User._id user) now (id, a) → after !! id = Some a)
  ∧ (∀ id a a', coll !! id = Some a → after !! id = Some a' →
       Achievement.user a' = Achievement.user a
       ∧ Achievement.criteria a' = Achievement.criteria a
       ∧ Achievement.required (Achievement.progress a')
         = Achievement.required (Achievement.progress a)
       ∧ Achievement.isHidden a' = Achievement.isHidden a
       ∧ Achievement.isActive a' = Achievement.isActive a
       ∧ Achievement.expiresAt a' = Achievement.expiresAt a
       ∧ Achievement.points a' = Achievement.points a
       ∧ Achievement.rarity a' = Achievement.rarity a
       ∧ Achievement.createdAt a' = Achievement.createdAt a
       ∧ Achievement.title a' = Achievement.title a
       ∧ Achievement.category a' = Achievement.category a
       ∧ (Achievement.isUnlocked a = true → a' = a)
       ∧ (Achievement.isUnlocked a' = false →
          Achievement.unlockedAt a' = Achievement.unlockedAt a)).
Proof.
  intros after. split; [| split].
  - apply set_eq. intros id. rewrite !elem_of_dom.
    destruct (check_lookup cal now db user coll id) as [Hsame | (a & p & Ha & _ & _ & Hl)].
    + subst after. by rewrite Hsame.
    + subst after. rewrite Hl, Ha. split; eauto.
  - intros id a Ha Hnot.
    destruct (check_lookup cal now db user coll id) as [Hsame | (a0 & p & Ha0 & Hav & _)].
    + subst after. by rewrite Hsame.
    + rewrite Ha in Ha0. injection Ha0 as <-. done.
  - intros id a a' Ha Ha'.
    destruct (check_lookup cal now db user coll id) as [Hsame | (a0 & p & Ha0 & Hav & _ & Hl)].
    + subst after. rewrite Hsame, Ha in Ha'. injection Ha' as <-. by repeat split.
    + rewrite Ha in Ha0. injection Ha0 as <-.
      subst after. rewrite Hl in Ha'. injection Ha' as <-.
      destruct Hav as (_ & Hlocked & _). cbn [snd] in Hlocked.
      destruct (afterVisit_cases now p a) as [-> | ->]; [by repeat split |].
      destruct (updateProgress_frame now p a)
        as (H1 & H2 & H3 & H4 & H5 & H6 & H7 & H8 & H9 & H10 & H11).
      repeat (split; [done |]). split; [congruence |].
      intros Hstill. unfold Achievement.updateProgress in *.
      destruct (_ && _); [done | done].
Qed.

Lemma check_frame_witness :
  let user := Sample.user 10 7 in
  let after := (check utc 100 (Sample.storesUp []) user Sample.collMixed).2 in
  after !! 2 = Sample.collMixed !! 2
  ∧ after !! 4 = Sample.collMixed !! 4
  ∧ Achievement.isUnlocked <$> after !! 1 = Some true.
Proof.
  intros user after.
  destruct (check_frame utc 100 (Sample.storesUp []) user Sample.collMixed) as (_ & Hkeep & _).
  split; [| split].
  - apply Hkeep; [reflexivity |]. intros (_ & Hl & _). vm_compute in Hl. discriminate Hl.
  - apply Hkeep; [reflexivity |]. intros (_ & _ & _ & _ & He). vm_compute in He. discriminate He.
  - vm_compute. reflexivity.
Defined.

Lemma calculate_criteria cal now db user a a' :
  Achievement.criteria a' = Achievement.criteria a →
  calculateAchievementProgress cal now db user a'
  = calculateAchievementProgress cal now db user a.
Proof. intros H. unfold calculateAchievementProgress. by rewrite H. Qed.

Lemma calculate_nonneg cal now db user a p :
  0 ≤ Achievement.threshold (Achievement.criteria a) →
  calculateAchievementProgress cal now db user a = Ok p → 0 ≤ p.
Proof.
  intros Ht. unfold calculateAchievementProgress.
  destruct (Achievement.metric _); cbn [bindR];
    try (destruct (activities db) as [acts |]; cbn [bindR]; [| done]);
    try (destruct (goals db) as [gs |]; cbn [bindR]; [| done]);
    intros [= <-].
  - lia.
  - unfold Activity.countDocuments. lia.
  - pose proof (StreakFacts.streakDays_range cal now
                  (Activity.find acts (User._id user)
                     (startDateOf cal now (Achievement.timeframe (Achievement.criteria a))))).
    lia.
  - unfold Goal.countDocuments. lia.
  - lia.
  - lia.
Qed.

(** A loop over documents whose evaluation equals their stored progress
    writes nothing and reports nothing. *)
Lemma loop_noop cal now db user (todo : list Achievement.Doc) :
  ∀ (coll : gmap Z Achievement.t) newly,
  (∀ d : Achievement.Doc, d ∈ todo →
     calculateAchievementProgress cal now db user d.2
     = Ok (Achievement.current (Achievement.progress d.2))) →
  checkLoop cal now db user todo coll newly = (Ok newly, coll).
Proof.
  induction todo as [| d todo IH]; intros coll newly Hall; [done |].
  rewrite (CheckFacts.loop_cons_ok cal now db user d todo coll newly _ (Hall d ltac:(left))).
  unfold turnColl, turnNewly. rewrite bool_decide_eq_false_2 by tauto.
  apply IH. intros d' Hd'. apply Hall. by right.
Qed.

(** X12. The check is idempotent: once a check has run to its end, a
    repeat at a later time, with the user and the stores unchanged and the
    evaluations unchanged, writes nothing and reports nothing (thresholds
    being non-negative, as the schema has them). *)
Theorem check_repeat_writes_nothing (cal : Calendar) (now now2 : Z) (db : Stores)
    (user : User.t) (coll : gmap Z Achievement.t) :
  let found := Achievement.getUserAvailableAchievements coll (User._id user) now in
  let first := check cal now db user coll in
  now ≤ now2 →
  Forall (λ x : Achievement.Doc,
            calculateAchievementProgress cal now db user x.2 ≠ Rejected) found →
  (∀ id a, coll !! id = Some a →
     0 ≤ Achievement.threshold (Achievement.criteria a)
     ∧ calculateAchievementProgress cal now2 db user a
       = calculateAchievementProgress cal now db user a) →
  check cal now2 db user first.2 = (Json [] 0, first.2).
Proof.
  intros found first Hle Hok Hcoll.
  assert (Hnoop : ∀ d : Achievement.Doc,
            d ∈ Achievement.getUserAvailableAchievements first.2 (User._id user) now2 →
            calculateAchievementProgress cal now2 db user d.2
            = Ok (Achievement.current (Achievement.progress d.2))).
  { intros [id a2] Hd. cbn [snd].
    apply CheckFacts.elem_of_available in Hd as (Hd & Hu2 & Hl2 & Hh2 & Hact2 & Hexp2).
    cbn [fst snd] in *.
    assert (Horig : ∃ a, coll !! id = Some a
              ∧ Achievement.available (User._id user) now (id, a)
              ∧ (a2 = a ∨ ∃ p, a2 = Achievement.updateProgress now p a)).
    { destruct (check_lookup cal now db user coll id)
        as [Hsame | (a & p & Ha & Hav & _ & Hlook)].
      - fold first in Hsame. rewrite Hd in Hsame. exists a2. split; [done |].
        split; [| by left]. repeat split; try done. cbn [snd].
        destruct (Achievement.expiresAt a2); simpl in *; [lia | done].
      - exists a. split; [done |]. split; [done |].
        fold first in Hlook. rewrite Hd in Hlook. injection Hlook as ->.
        destruct (afterVisit_cases now p a) as [-> | ->]; [by left | right; by exists p]. }
    destruct Horig as (a & Ha & Hav & _).
    assert (Hin : (id, a) ∈ found) by (by apply CheckFacts.elem_of_available).
    destruct (calculateAchievementProgress cal now db user a) as [p |] eqn:Hc.
    2:{ rewrite Forall_forall in Hok. by destruct (Hok _ Hin). }
    assert (Hstored : first.2 !! id = Some (afterVisit now p a)).
    { subst first. rewrite check_snd.
      apply (CheckFacts.loop_visited cal now db user found coll [] (id, a) p); try done.
      apply CheckFacts.NoDup_available_ids. }
    rewrite Hd in Hstored. injection Hstored as ->.
    destruct (Hcoll id a Ha) as [Hth Hsame].
    pose proof (calculate_nonneg cal now db user a p Hth Hc) as Hp.
    assert (Hcrit : Achievement.criteria (afterVisit now p a) = Achievement.criteria a).
    { destruct (afterVisit_cases now p a) as [-> | ->]; [done |].
      apply (updateProgress_frame now p a). }
    rewrite (calculate_criteria _ _ _ _ _ _ Hcrit), Hsame, Hc. f_equal.
    unfold afterVisit. case_bool_decide as Hne.
    - rewrite AchievementFacts.updateProgress_progress. simpl. lia.
    - exact Hne. }
  unfold check. by rewrite (loop_noop cal now2 db user _ first.2 [] Hnoop).
Qed.

Lemma check_repeat_writes_nothing_witness :
  let user := Sample.user 10 7 in
  let db := Sample.storesUp [] in
  check utc 2000 db user (check utc 1000 db user Sample.collMixed).2
  = (Json [] 0, (check utc 1000 db user Sample.collMixed).2).
Proof.
  intros user db.
  apply (check_repeat_writes_nothing utc 1000 2000 db user Sample.collMixed).
  - lia.
  - vm_compute. repeat constructor; discriminate.
  - intros id a Ha. split.
    + assert (Hall : map_Forall (λ _ a, 0 ≤ Achievement.threshold (Achievement.criteria a))
                       Sample.collMixed).
      { apply map_Forall_to_list. vm_compute. repeat constructor; discriminate. }
      exact (Hall id a Ha).
    + assert (Hall : map_Forall (λ _ a,
                 calculateAchievementProgress utc 2000 db user a
                 = calculateAchievementProgress utc 1000 db user a) Sample.collMixed).
      { apply map_Forall_to_list. vm_compute. repeat constructor. }
      exact (Hall id a Ha).
Defined.

End CheckMoreFacts.

(** * The Goal model: derived fields and the milestone sweep *)

Module GoalModelFacts.

Import Goal.

(** X13. The progress percentage of a goal never exceeds 100; it is 0
    when the target is 0, exactly 100 once the current value reaches a
    positive target, and in [0, 100) below it. A goal that
    [updateProgress] has just completed therefore shows 100, unless its
    target is 0: such a goal is completed by any update and shows 0. *)
Theorem goal_progressPercentage_range (now newValue : Z) (g : t) :
  (progressPercentage g <= 100)%Q
  ∧ (Target.value (target g) = 0 → progressPercentage g = 0%Q)
  ∧ (0 < Target.value (target g) → Target.value (target g) ≤ Current.value (current g) →
     (progressPercentage g == 100)%Q)
  ∧ (0 ≤ Current.value (current g) → Current.value (current g) < Target.value (target g) →
     (0 <= progressPercentage g)%Q ∧ (progressPercentage g < 100)%Q)
  ∧ (0 < Target.value (target g) → status g = active →
     status (updateProgress now newValue g) = completed →
     (progressPercentage (updateProgress now newValue g) == 100)%Q)
  ∧ (Target.value (target g) = 0 → status g = active →
     status (updateProgress now newValue g) = completed
     ∧ progressPercentage (updateProgress now newValue g) = 0%Q).
Proof.
  assert (Hpos : ∀ h : t, 0 < Target.value (target h) →
            progressPercentage h =
              Qmin (inject_Z (Current.value (current h))
                    / inject_Z (Target.value (target h)) * 100) 100).
  { intros h Hh. unfold progressPercentage. rewrite bool_decide_eq_false_2; [done | lia]. }
  split.
  { unfold progressPercentage. case_bool_decide; [done | apply Q.le_min_r]. }
  split.
  { intros Hz. unfold progressPercentage. by rewrite bool_decide_eq_true_2. }
  split.
  { intros Hr Hc. rewrite Hpos by done. by apply PercentFacts.percent_spec. }
  split.
  { intros Hc Hlt. rewrite Hpos by lia. split; apply PercentFacts.percent_spec; lia. }
  split.
  { intros Hr Hact Hdone. rewrite Hpos by done.
    apply PercentFacts.percent_spec; [done |].
    revert Hdone. unfold updateProgress. cbn [status current target Current.value].
    rewrite Hact. case_bool_decide; [done | simpl; done]. }
  intros Hz Hact. split.
  - unfold updateProgress. cbn [status]. rewrite Hact, Hz.
    rewrite bool_decide_eq_true_2 by lia. by rewrite bool_decide_eq_true_2.
  - unfold progressPercentage. by rewrite bool_decide_eq_true_2.
Qed.

Lemma goal_progressPercentage_range_witness :
  (progressPercentage (updateProgress 10 30 (Sample.goal 100 active [])) < 100)%Q
  ∧ (progressPercentage (updateProgress 10 130 (Sample.goal 100 active [])) == 100)%Q
  ∧ progressPercentage (updateProgress 10 7 (Sample.goal 0 active [])) = 0%Q.
Proof.
  destruct (goal_progressPercentage_range 10 130 (updateProgress 10 30 (Sample.goal 100 active [])))
    as (_ & _ & _ & Hbelow & _).
  destruct (goal_progressPercentage_range 10 130 (Sample.goal 100 active []))
    as (_ & _ & _ & _ & Hdone & _).
  destruct (goal_progressPercentage_range 10 7 (Sample.goal 0 active []))
    as (_ & _ & _ & _ & _ & Hzero).
  split; [apply Hbelow; vm_compute; congruence |].
  split; [apply Hdone; reflexivity |].
  by destruct Hzero.
Defined.

Lemma daysRemaining_spec (now : Z) (g : t) :
  ∃ n, daysRemaining now g = Z.max 0 n
     ∧ (n - 1) * 86400000 < endDate g - now ≤ n * 86400000.
Proof.
  unfold daysRemaining. cbv zeta.
  change (1000 * 60 * 60 * 24 - 1) with 86399999.
  change (1000 * 60 * 60 * 24) with 86400000.
  exists ((endDate g - now + 86399999) `div` 86400000). split; [done |].
  pose proof (Z.div_mod (endDate g - now + 86399999) 86400000 ltac:(lia)) as Hdm.
  pose proof (Z.mod_pos_bound (endDate g - now + 86399999) 86400000 ltac:(lia)) as Hmod.
  lia.
Qed.

(** X14. The days remaining of a goal are never negative; they are 0
    exactly from the end date on, and otherwise the number of started days
    left: [n] when the end is more than [n - 1] and at most [n] whole days
    away; they never grow as time passes. A goal is overdue exactly when it
    is active and past its end date: then no day remains; a completed goal
    is never overdue, and [updateProgress] changes neither the end date nor
    the days remaining. *)
Theorem goal_daysRemaining_isOverdue (now : Z) (g : t) :
  0 ≤ daysRemaining now g
  ∧ (daysRemaining now g = 0 ↔ endDate g ≤ now)
  ∧ (0 < daysRemaining now g →
     (daysRemaining now g - 1) * 86400000 < endDate g - now
     ∧ endDate g - now ≤ daysRemaining now g * 86400000)
  ∧ (∀ now', now ≤ now' → daysRemaining now' g ≤ daysRemaining now g)
  ∧ (isOverdue now g = true ↔ endDate g < now ∧ status g = active)
  ∧ (isOverdue now g = true → daysRemaining now g = 0)
  ∧ (status g = completed → isOverdue now g = false)
  ∧ (∀ at_ newValue,
       daysRemaining now (updateProgress at_ newValue g) = daysRemaining now g
       ∧ (isOverdue now (updateProgress at_ newValue g) = true → isOverdue now g = true)).
Proof.
  destruct (daysRemaining_spec now g) as (n & Hn & Hlo & Hhi).
  assert (Hover : isOverdue now g = true ↔ endDate g < now ∧ status g = active).
  { unfold isOverdue. rewrite andb_true_iff, !bool_decide_eq_true. done. }
  split; [lia |]. split; [lia |]. split; [lia |]. split.
  { intros now' Hle. destruct (daysRemaining_spec now' g) as (n' & Hn' & Hlo' & Hhi'). lia. }
  split; [done |]. split.
  { intros [Hpast _]%Hover. lia. }
  split.
  { intros Hc. unfold isOverdue. rewrite Hc. by rewrite andb_false_r. }
  intros at_ newValue. split; [done |].
  rewrite Hover. unfold isOverdue. cbn [updateProgress endDate status].
  rewrite andb_true_iff, !bool_decide_eq_true.
  intros [Hpast Hact]. split; [done |].
  destruct (bool_decide _ && bool_decide (status g = active)); [done | done].
Qed.

Lemma goal_daysRemaining_isOverdue_witness :
  daysRemaining 0 (Sample.goal 100 active []) = 1
  ∧ daysRemaining 2000 (Sample.goal 100 active []) = 0
  ∧ isOverdue 2000 (Sample.goal 100 active []) = true
  ∧ isOverdue 2000 (updateProgress 1500 100 (Sample.goal 100 active [])) = false.
Proof.
  destruct (goal_daysRemaining_isOverdue 2000 (Sample.goal 100 active []))
    as (_ & _ & _ & _ & Hover & Hnone & _).
  destruct (goal_daysRemaining_isOverdue 2000 (updateProgress 1500 100 (Sample.goal 100 active [])))
    as (_ & _ & _ & _ & _ & _ & Hdone & _).
  split; [reflexivity |].
  split; [apply Hnone, Hover; split; [vm_compute | ]; reflexivity |].
  split; [apply Hover; split; [vm_compute | ]; reflexivity |].
  apply Hdone. reflexivity.
Defined.

End GoalModelFacts.

(** * Goal updates and the goal handlers *)

Module GoalRouteFacts.

Import Goal.

Lemma sweepMilestone_achieved_iff now cur m :
  Milestone.achieved (sweepMilestone now cur m) = true ↔
    Milestone.achieved m = true ∨ Milestone.targetValue m ≤ cur.
Proof.
  unfold sweepMilestone. destruct (Milestone.achieved m) eqn:Ha; simpl.
  - rewrite Ha. tauto.
  - case_bool_decide; simpl; [tauto |]. rewrite Ha. split; [done | intros [? | ?]; done].
Qed.

Lemma sweepMilestone_twice now cur m :
  sweepMilestone now cur (sweepMilestone now cur m) = sweepMilestone now cur m.
Proof.
  unfold sweepMilestone. destruct (Milestone.achieved m) eqn:Ha; simpl.
  - by rewrite Ha.
  - case_bool_decide; simpl; [done |]. rewrite Ha. simpl. by rewrite bool_decide_eq_false_2.
Qed.

(** X15. After [updateProgress] a milestone is achieved exactly when it
    was achieved before or its target is at most the new value, so after
    two updates the achieved milestones are those under the higher of the
    two values even if the value went down; an update repeated at the same
    instant changes nothing; and the rule that an achieved milestone
    records its own target value is kept. *)
Theorem goal_milestone_sweep (now newValue : Z) (g : t) :
  let g' := updateProgress now newValue g in
  length (milestones g') = length (milestones g)
  ∧ (∀ i m, milestones g !! i = Some m →
       ∃ m', milestones g' !! i = Some m'
         ∧ (Milestone.achieved m' = true ↔
              Milestone.achieved m = true ∨ Milestone.targetValue m ≤ Z.max 0 newValue))
  ∧ (∀ now2 value2 i m, milestones g !! i = Some m →
       ∃ m'', milestones (updateProgress now2 value2 g') !! i = Some m''
         ∧ (Milestone.achieved m'' = true ↔
              Milestone.achieved m = true
              ∨ Milestone.targetValue m ≤ Z.max (Z.max 0 newValue) (Z.max 0 value2)))
  ∧ updateProgress now newValue g' = g'
  ∧ (Forall (λ m, Milestone.achieved m = true →
                  Milestone.achievedValue m = Milestone.targetValue m) (milestones g) →
     Forall (λ m, Milestone.achieved m = true →
                  Milestone.achievedValue m = Milestone.targetValue m) (milestones g')).
Proof.
  intros g'. split; [apply length_fmap |]. split.
  { intros i m Hm. exists (sweepMilestone now (Z.max 0 newValue) m). split.
    - subst g'. by rewrite GoalFacts.updateProgress_milestone_lookup, Hm.
    - apply sweepMilestone_achieved_iff. }
  split.
  { intros now2 value2 i m Hm.
    exists (sweepMilestone now2 (Z.max 0 value2) (sweepMilestone now (Z.max 0 newValue) m)).
    split.
    - subst g'. by rewrite !GoalFacts.updateProgress_milestone_lookup, Hm.
    - rewrite !sweepMilestone_achieved_iff, GoalFacts.sweepMilestone_targetValue.
      assert (Hmax : Milestone.targetValue m ≤ Z.max (Z.max 0 newValue) (Z.max 0 value2)
                     ↔ Milestone.targetValue m ≤ Z.max 0 newValue
                       ∨ Milestone.targetValue m ≤ Z.max 0 value2) by lia.
      tauto. }
  split.
  { subst g'. unfold updateProgress. cbn [current target status milestones
      user title description category startDate endDate priority difficulty tags isPublic
      reminders notes createdAt Current.value].
    f_equal.
    - destruct (status g); repeat case_bool_decide; simpl; try done;
        repeat case_bool_decide; done.
    - rewrite <- list_fmap_compose. apply list_fmap_ext. intros i m _. simpl.
      apply sweepMilestone_twice. }
  intros Hinv. subst g'. cbn [updateProgress milestones].
  apply Forall_fmap. eapply Forall_impl; [exact Hinv |].
  intros m Hm. simpl. unfold sweepMilestone.
  destruct (negb (Milestone.achieved m) && _); [done | exact Hm].
Qed.

Lemma goal_milestone_sweep_witness :
  let g := Sample.goal 100 active [Sample.milestone 25; Sample.milestone 75] in
  Milestone.achieved <$> milestones (updateProgress 20 10 (updateProgress 10 80 g))
    = [true; true]
  ∧ Forall (λ m, Milestone.achieved m = true →
                 Milestone.achievedValue m = Milestone.targetValue m)
      (milestones (updateProgress 10 80 g)).
Proof.
  intros g. split; [reflexivity |].
  apply (goal_milestone_sweep 10 80 g). repeat constructor; discriminate.
Defined.

End GoalRouteFacts.

(** * The goal handlers *)

Module GoalHandlerFacts.

Lemma findOne_Some (coll : gmap Z Goal.t) id userId g :
  GoalRoutes.findOne coll id userId = Some g ↔ coll !! id = Some g ∧ Goal.user g = userId.
Proof.
  unfold GoalRoutes.findOne. destruct (coll !! id) as [h |].
  - case_bool_decide as Hu; split.
    + by intros [= ->].
    + by intros [[= ->] _].
    + done.
    + by intros [[= ->] Hg].
  - split; [done | by intros [? _]].
Qed.

Lemma findOne_None (coll : gmap Z Goal.t) id userId :
  GoalRoutes.findOne coll id userId = None ↔
    coll !! id = None ∨ ∃ g, coll !! id = Some g ∧ Goal.user g ≠ userId.
Proof.
  unfold GoalRoutes.findOne. destruct (coll !! id) as [h |].
  - case_bool_decide as Hu; split.
    + done.
    + intros [? | (g & [= ->] & Hne)]; done.
    + intros _. right. by exists h.
    + done.
  - split; [by left | done].
Qed.



(** X17. [DELETE /api/goals/:id] removes a goal only for its owner: the
    goal is then gone for every later read or delete and every other goal
    is untouched; for an unknown goal or another user's goal the answer is
    404 and nothing is removed, so the owner still reads the goal. *)
Theorem goal_deleteGoal (now userId id : Z) (coll : gmap Z Goal.t) :
  let result := GoalRoutes.deleteGoal userId id coll in
  (∀ g, coll !! id = Some g → Goal.user g = userId →
     result = (GoalRoutes.Deleted, delete id coll)
     ∧ (∀ anyone, GoalRoutes.getGoal now anyone id result.2 = GoalRoutes.NotFound)
     ∧ (∀ anyone, GoalRoutes.deleteGoal anyone id result.2 = (GoalRoutes.NotFound, result.2))
     ∧ (∀ id', id' ≠ id → result.2 !! id' = coll !! id'))
  ∧ ((coll !! id = None ∨ ∃ g, coll !! id = Some g ∧ Goal.user g ≠ userId) →
     result = (GoalRoutes.NotFound, coll))
  ∧ (∀ g, coll !! id = Some g → Goal.user g ≠ userId →
       GoalRoutes.getGoal now (Goal.user g) id result.2
       = GoalRoutes.Json (Goal.toResponseFormat now (id, g))).
Proof.
  intros result. split; [| split].
  - intros g Hg Hu.
    assert (Hfind : GoalRoutes.findOne coll id userId = Some g) by (by apply findOne_Some).
    assert (Hres : result = (GoalRoutes.Deleted, delete id coll)).
    { subst result. unfold GoalRoutes.deleteGoal. by rewrite Hfind. }
    split; [done |]. rewrite Hres. cbn [snd].
    assert (Hgone : ∀ anyone, GoalRoutes.findOne (delete id coll) id anyone = None).
    { intros anyone. apply findOne_None. left. apply lookup_delete_eq. }
    split; [| split].
    + intros anyone. unfold GoalRoutes.getGoal. by rewrite Hgone.
    + intros anyone. unfold GoalRoutes.deleteGoal. by rewrite Hgone.
    + intros id' Hne. by rewrite lookup_delete_ne.
  - intros Hnone. apply findOne_None in Hnone.
    subst result. unfold GoalRoutes.deleteGoal. by rewrite Hnone.
  - intros g Hg Hu.
    assert (Hnone : GoalRoutes.findOne coll id userId = None).
    { apply findOne_None. right. by exists g. }
    subst result. unfold GoalRoutes.deleteGoal. rewrite Hnone. cbn [snd].
    unfold GoalRoutes.getGoal.
    assert (Hfind : GoalRoutes.findOne coll id (Goal.user g) = Some g)
      by (by apply findOne_Some).
    by rewrite Hfind.
Qed.

Lemma goal_deleteGoal_witness :
  (GoalRoutes.deleteGoal 2 1 Sample.collGoals) = (GoalRoutes.NotFound, Sample.collGoals)
  ∧ GoalRoutes.getGoal 10 1 1 (GoalRoutes.deleteGoal 1 1 Sample.collGoals).2
    = GoalRoutes.NotFound.
Proof.
  destruct (goal_deleteGoal 10 2 1 Sample.collGoals) as (_ & Hother & _).
  destruct (goal_deleteGoal 10 1 1 Sample.collGoals) as (Hown & _).
  split.
  - apply Hother. right. eexists. split; [reflexivity |]. vm_compute. discriminate.
  - eapply Hown; reflexivity.
Defined.

Lemma sumPercent_upper (l : list Goal.Doc) : ∀ s0 : Q,
  (foldl (λ sum (goal : Goal.Doc), sum + Goal.progressPercentage goal.2) s0 l
   <= s0 + 100 * inject_Z (Z.of_nat (length l)))%Q.
Proof.
  induction l as [| d l IH]; intros s0.
  - cbn [foldl length]. change (inject_Z (Z.of_nat 0)) with 0%Q. lra.
  - cbn [foldl length]. rewrite Nat2Z.inj_succ, <- Z.add_1_r, inject_Z_plus.
    eapply Qle_trans; [apply IH |].
    assert (Hd : (Goal.progressPercentage d.2 <= 100)%Q).
    { unfold Goal.progressPercentage. case_bool_decide; [done | apply Q.le_min_r]. }
    change (inject_Z 1) with 1%Q. lra.
Qed.

Lemma progressPercentage_nonneg (g : Goal.t) :
  0 ≤ Goal.Current.value (Goal.current g) → 0 ≤ Goal.Target.value (Goal.target g) →
  (0 <= Goal.progressPercentage g)%Q.
Proof.
  intros Hc Ht. unfold Goal.progressPercentage. case_bool_decide as Hz; [done |].
  apply PercentFacts.percent_spec; [lia | done].
Qed.

Lemma sumPercent_lower (l : list Goal.Doc) : ∀ s0 : Q,
  (∀ d : Goal.Doc, d ∈ l → (0 <= Goal.progressPercentage d.2)%Q) →
  (s0 <= foldl (λ sum (goal : Goal.Doc), sum + Goal.progressPercentage goal.2) s0 l)%Q.
Proof.
  induction l as [| d l IH]; intros s0 Hall.
  - cbn [foldl]. lra.
  - cbn [foldl]. eapply Qle_trans; [| apply IH].
    + pose proof (Hall d ltac:(left)). lra.
    + intros x Hx. apply Hall. by right.
Qed.

Lemma elem_of_active (coll : gmap Z Goal.t) userId (d : Goal.Doc) :
  d ∈ Goal.getUserActiveGoals coll userId ↔
    coll !! d.1 = Some d.2 ∧ Goal.user d.2 = userId ∧ Goal.status d.2 = Goal.active.
Proof. exact (ListFacts.elem_of_sorted_filter _ (Goal.activeOf userId) coll d). Qed.

(** X18. In the goal overview the active and the completed counts never
    add up to more than the total; the overdue count is the number of
    active goals past their end date and so at most the active count; the
    average progress is 0 without active goals and never above 100, and it
    is not negative when current values and targets are not (as the schema
    has them); the recent list has at most five goals, all completed. *)
Theorem goal_stats_overview (now userId : Z) (coll : gmap Z Goal.t) :
  let o := GoalRoutes.statsOverview now userId coll in
  let s := GoalRoutes.stats o in
  GoalRoutes.active s + GoalRoutes.completed s ≤ GoalRoutes.total s
  ∧ 0 ≤ GoalRoutes.overdue s ≤ GoalRoutes.active s
  ∧ GoalRoutes.overdue s
    = Z.of_nat (length (filter (λ d : Goal.Doc, Goal.endDate d.2 < now)
                          (Goal.getUserActiveGoals coll userId)))
  ∧ (GoalRoutes.active s = 0 → GoalRoutes.averageProgress s = 0%Q)
  ∧ (GoalRoutes.averageProgress s <= 100)%Q
  ∧ ((∀ id g, coll !! id = Some g →
        0 ≤ Goal.Current.value (Goal.current g) ∧ 0 ≤ Goal.Target.value (Goal.target g)) →
     (0 <= GoalRoutes.averageProgress s)%Q)
  ∧ (length (GoalRoutes.recentCompleted o) ≤ 5)%nat
  ∧ (∀ v, v ∈ GoalRoutes.recentCompleted o → Goal.View.status v = Goal.completed)
  ∧ (∀ v, v ∈ GoalRoutes.activeGoals o → Goal.View.status v = Goal.active).
Proof.
  intros o s.
  set (activeList := Goal.getUserActiveGoals coll userId).
  assert (Hactive : GoalRoutes.active s = Z.of_nat (length activeList)) by done.
  assert (Hlen : length activeList = length (filter (Goal.activeOf userId) (map_to_list coll))).
  { apply Permutation_length, merge_sort_Permutation. }
  split.
  { subst s o. unfold GoalRoutes.statsOverview.
    cbn [GoalRoutes.stats GoalRoutes.active GoalRoutes.completed GoalRoutes.total].
    fold activeList. rewrite Hlen.
    pose proof (AchievementRouteFacts.length_filter_disjoint
                  (Goal.activeOf userId) (GoalRoutes.completedOf userId)
                  (λ d : Goal.Doc, Goal.user d.2 = userId) (map_to_list coll)) as Hle.
    assert (length (filter (Goal.activeOf userId) (map_to_list coll))
            + length (filter (GoalRoutes.completedOf userId) (map_to_list coll))
            ≤ length (filter (λ d : Goal.Doc, Goal.user d.2 = userId) (map_to_list coll)))%nat;
      [| lia].
    apply Hle.
    - by intros x [? _].
    - by intros x [? _].
    - intros x [_ H1] [_ H2]. congruence. }
  assert (Hover : GoalRoutes.overdue s
            = Z.of_nat (length (filter (λ d : Goal.Doc, Goal.endDate d.2 < now) activeList))).
  { subst s o. unfold GoalRoutes.statsOverview. cbn [GoalRoutes.stats GoalRoutes.overdue].
    fold activeList. do 2 f_equal. apply ListFacts.filter_ext_elem_of.
    intros d Hd. apply elem_of_active in Hd as (_ & _ & Hact).
    unfold Goal.isOverdue. rewrite andb_true_iff, !bool_decide_eq_true. tauto. }
  split.
  { rewrite Hover, Hactive.
    pose proof (length_filter (λ d : Goal.Doc, Goal.endDate d.2 < now) activeList). lia. }
  split; [done |].
  assert (Havg : GoalRoutes.averageProgress s =
            if bool_decide (0 < length activeList)%nat
            then (foldl (λ sum (goal : Goal.Doc), sum + Goal.progressPercentage goal.2) 0
                    activeList / inject_Z (Z.of_nat (length activeList)))%Q
            else 0%Q) by done.
  split.
  { intros Hz. rewrite Havg, bool_decide_eq_false_2; [done | lia]. }
  split.
  { rewrite Havg. case_bool_decide as Hn; [| done].
    apply Qle_shift_div_r.
    - rewrite <- (Zlt_Qlt 0). lia.
    - eapply Qle_trans; [apply sumPercent_upper |]. lra. }
  split.
  { intros Hschema. rewrite Havg. case_bool_decide as Hn; [| done].
    apply Qle_shift_div_l.
    - rewrite <- (Zlt_Qlt 0). lia.
    - rewrite Qmult_0_l. apply sumPercent_lower.
      intros d Hd. apply elem_of_active in Hd as (Hstored & _).
      destruct (Hschema _ _ Hstored). by apply progressPercentage_nonneg. }
  split.
  { subst o. unfold GoalRoutes.statsOverview. cbn [GoalRoutes.recentCompleted].
    rewrite length_fmap, length_take. lia. }
  split.
  { intros v Hv. subst o. unfold GoalRoutes.statsOverview in Hv.
    cbn [GoalRoutes.recentCompleted] in Hv.
    apply list_elem_of_fmap in Hv as (d & -> & Hd). apply subseteq_take in Hd.
    apply ListFacts.elem_of_sorted_filter in Hd as (_ & _ & Hc). exact Hc. }
  intros v Hv. subst o. unfold GoalRoutes.statsOverview in Hv.
  cbn [GoalRoutes.activeGoals] in Hv.
  apply list_elem_of_fmap in Hv as (d & -> & Hd).
  apply elem_of_active in Hd as (_ & _ & Hact). exact Hact.
Qed.

Lemma goal_stats_overview_witness :
  let s := GoalRoutes.stats (GoalRoutes.statsOverview 2000 1 Sample.collGoals) in
  GoalRoutes.total s = 3 ∧ GoalRoutes.active s = 1 ∧ GoalRoutes.completed s = 1
  ∧ GoalRoutes.overdue s = 1 ∧ (0 <= GoalRoutes.averageProgress s)%Q.
Proof.
  intros s.
  destruct (goal_stats_overview 2000 1 Sample.collGoals) as (_ & _ & _ & _ & _ & Hnn & _).
  repeat (split; [vm_compute; reflexivity |]).
  apply Hnn. intros id g Hg.
  assert (Hall : map_Forall (λ _ g, 0 ≤ Goal.Current.value (Goal.current g)
                                     ∧ 0 ≤ Goal.Target.value (Goal.target g))
                   Sample.collGoals).
  { apply map_Forall_to_list. vm_compute. repeat constructor; discriminate. }
  exact (Hall id g Hg).
Defined.

(** X19. Reaching the target through [PUT /api/goals/:id/progress] moves
    a goal from the active to the completed side of the overview: the goal
    leaves the active listing, the active count drops by one, the completed
    count grows by one and the total stays. *)
Theorem goal_completion_moves (now userId id v : Z) (g : Goal.t) (coll : gmap Z Goal.t) :
  coll !! id = Some g → Goal.user g = userId → Goal.status g = Goal.active →
  0 ≤ v → Goal.Target.value (Goal.target g) ≤ v →
  let after := (GoalRoutes.putProgress now userId id (Some v) coll).2 in
  let s := GoalRoutes.stats (GoalRoutes.statsOverview now userId coll) in
  let s' := GoalRoutes.stats (GoalRoutes.statsOverview now userId after) in
  (∃ h, after !! id = Some h ∧ Goal.status h = Goal.completed)
  ∧ (id ∉ (Goal.getUserActiveGoals after userId).*1)
  ∧ GoalRoutes.active s' = GoalRoutes.active s - 1
  ∧ GoalRoutes.completed s' = GoalRoutes.completed s + 1
  ∧ GoalRoutes.total s' = GoalRoutes.total s.
Proof.
  intros Hg Hu Hact Hv Hreach after s s'.
  set (g' := Goal.updateProgress now v g).
  assert (Hafter : after = <[id := g']> coll).
  { subst after. unfold GoalRoutes.putProgress.
    rewrite bool_decide_eq_true_2 by done.
    by rewrite (proj2 (findOne_Some coll id userId g) (conj Hg Hu)). }
  assert (Hdone : Goal.status g' = Goal.completed).
  { subst g'. unfold Goal.updateProgress. cbn [Goal.status]. rewrite Hact.
    rewrite bool_decide_eq_true_2 by lia. by rewrite bool_decide_eq_true_2. }
  assert (Hu' : Goal.user g' = userId) by done.
  split; [exists g'; by rewrite Hafter, lookup_insert_eq |].
  split.
  { intros (d & Hid & Hd)%list_elem_of_fmap. apply elem_of_active in Hd as (Hd & _ & Hact').
    rewrite <- Hid, Hafter, lookup_insert_eq in Hd. injection Hd as Hd.
    rewrite <- Hd in Hact'. congruence. }
  assert (Hcount : ∀ (P : Z * Goal.t → Prop) `{!∀ x, Decision (P x)},
            (length (filter P (map_to_list after)) + (if decide (P (id, g)) then 1 else 0)
             = length (filter P (map_to_list coll)) + (if decide (P (id, g')) then 1 else 0))%nat).
  { intros P HP. rewrite Hafter.
    rewrite (Permutation_length (ListFacts.filter_map_to_list_insert P coll id g')).
    rewrite (Permutation_length (ListFacts.filter_map_to_list_lookup P coll id g Hg)).
    rewrite !filter_cons. repeat case_decide; simpl; lia. }
  assert (Hdown : ∀ a b : nat, (a + 1 = b + 0)%nat → Z.of_nat a = Z.of_nat b - 1) by lia.
  assert (Hup : ∀ a b : nat, (a + 0 = b + 1)%nat → Z.of_nat a = Z.of_nat b + 1) by lia.
  assert (Hsame : ∀ a b : nat, (a + 1 = b + 1)%nat → Z.of_nat a = Z.of_nat b) by lia.
  split; [| split].
  - subst s s'. unfold GoalRoutes.statsOverview. cbn [GoalRoutes.stats GoalRoutes.active].
    unfold Goal.getUserActiveGoals.
    rewrite !(Permutation_length (merge_sort_Permutation _ _)).
    pose proof (Hcount (Goal.activeOf userId) _) as Hc.
    rewrite decide_True in Hc by done.
    rewrite decide_False in Hc by (intros [_ ?]; simpl in *; congruence).
    apply (Hdown _ _ Hc).
  - subst s s'. unfold GoalRoutes.statsOverview. cbn [GoalRoutes.stats GoalRoutes.completed].
    pose proof (Hcount (GoalRoutes.completedOf userId) _) as Hc.
    rewrite decide_False in Hc by (intros [_ ?]; simpl in *; congruence).
    rewrite decide_True in Hc by done. apply (Hup _ _ Hc).
  - subst s s'. unfold GoalRoutes.statsOverview. cbn [GoalRoutes.stats GoalRoutes.total].
    pose proof (Hcount (λ d : Goal.Doc, Goal.user d.2 = userId) _) as Hc.
    rewrite !decide_True in Hc by done. apply (Hsame _ _ Hc).
Qed.

Lemma goal_completion_moves_witness :
  let after := (GoalRoutes.putProgress 10 1 1 (Some 100) Sample.collGoals).2 in
  GoalRoutes.active (GoalRoutes.stats (GoalRoutes.statsOverview 10 1 after))
  = GoalRoutes.active (GoalRoutes.stats (GoalRoutes.statsOverview 10 1 Sample.collGoals)) - 1.
Proof.
  intros after.
  apply (goal_completion_moves 10 1 1 100
           (Sample.goal 100 Goal.active [Sample.milestone 25; Sample.milestone 75])
           Sample.collGoals); [reflexivity | reflexivity | reflexivity | lia |].
  vm_compute. discriminate.
Defined.

End GoalHandlerFacts.

(** * The activity aggregations and handlers *)

Module ActivityFacts.

(** A sum with one term for every activity of a list. *)
Lemma sumKg_app (l1 l2 : list Activity.t) :
  Activity.sumKg (l1 ++ l2) = Activity.sumKg l1 + Activity.sumKg l2.
Proof. unfold Activity.sumKg. induction l1 as [| a l IH]; simpl; lia. Qed.




Global Instance totalKgDesc_total : Total Activity.totalKgDesc.
Proof. intros x y. unfold Activity.totalKgDesc. lia. Qed.

Global Instance totalKgDesc_trans : Transitive Activity.totalKgDesc.
Proof. intros x y z. unfold Activity.totalKgDesc. lia. Qed.

Lemma total_of_matched (coll : list Activity.t) userId startDate endDate :
  let matched := filter (Activity.matchStage userId startDate endDate) coll in
  Activity.Total.totalKg (Activity.getUserTotalFootprint coll userId startDate endDate)
  = Activity.sumKg matched
  ∧ Activity.Total.activityCount
      (Activity.getUserTotalFootprint coll userId startDate endDate)
    = Z.of_nat (length matched).
Proof.
  intros matched. unfold Activity.getUserTotalFootprint. fold matched.
  by destruct matched.
Qed.


End ActivityFacts.

(** * The activity handlers *)

Module ActivityRouteFacts.

Import ActivityRoutes.

Lemma length_filter_snd {A} (P : A → Prop) `{!∀ x, Decision (P x)} (l : list (Z * A)) :
  length (filter P l.*2) = length (filter (λ d : Z * A, P d.2) l).
Proof.
  induction l as [| [i a] l IH]; [done |].
  rewrite fmap_cons, !filter_cons. cbn [snd].
  destruct (decide (P a)); simpl; by rewrite IH.
Qed.

(** X21. The statistics handler applies a date range only when both
    bounds are given: with one bound alone it answers as with none, while
    the list handler applies each bound on its own. With both bounds or
    with none the [activityCount] of the statistics is the [total] of the
    uncategorised listing; in every case it is at least that total. *)
Theorem activity_stats_range (user : User.t) (coll : gmap Z Activity.t)
    (page limit : positive) :
  let counted s e := Activity.Total.activityCount (getStats user s e coll).1.1 in
  let listed s e :=
    AchievementRoutes.total (getActivities (User._id user) None s e page limit coll).2 in
  (∀ s, getStats user (Some s) None coll = getStats user None None coll)
  ∧ (∀ e, getStats user None (Some e) coll = getStats user None None coll)
  ∧ (∀ s e, counted (Some s) (Some e) = listed (Some s) (Some e))
  ∧ counted None None = listed None None
  ∧ (∀ s e, listed s e ≤ counted s e).
Proof.
  intros counted listed.
  assert (Hcounted : ∀ s e, counted s e =
            Z.of_nat (length (filter (λ d : Z * Activity.t,
                                        Activity.matchStage (User._id user) s e d.2)
                                (map_to_list coll)))).
  { intros s e. unfold counted, getStats. cbn [fst].
    destruct (ActivityFacts.total_of_matched (map_to_list coll).*2 (User._id user) s e)
      as [_ Hc].
    rewrite Hc. by rewrite length_filter_snd. }
  assert (Hlisted : ∀ s e, listed s e =
            Z.of_nat (length (filter (listFilter (User._id user) None s e)
                                (map_to_list coll)))).
  { intros s e. reflexivity. }
  split; [done |]. split; [done |]. split; [| split].
  - intros s e. rewrite Hcounted, Hlisted. f_equal. f_equal.
    apply ListFacts.filter_ext_elem_of. intros d _.
    unfold Activity.matchStage, listFilter. tauto.
  - rewrite Hcounted, Hlisted. f_equal. f_equal.
    apply ListFacts.filter_ext_elem_of. intros d _.
    unfold Activity.matchStage, listFilter. tauto.
  - intros s e. rewrite Hcounted, Hlisted. apply inj_le.
    apply ListFacts.length_filter_impl. intros d.
    unfold Activity.matchStage, listFilter. destruct s, e; tauto.
Qed.






(** X23. Logging an activity never raises a carbon-reduction progress:
    for an achievement on the [carbon_reduction] metric, the evaluation
    for the user as the create handler leaves them is at most the
    evaluation before, when the footprint of the body is not negative as
    its validation demands; and deleting a stored activity with such a
    footprint never lowers it. Neither evaluation rejects. *)
Theorem activity_lowers_carbon_reduction (cal : JsDate.Calendar) (now now2 id : Z)
    (body : Activity.t) (user : User.t) (coll : gmap Z Activity.t)
    (db : AchievementRoutes.Stores) (achievement : Achievement.t) :
  Achievement.metric (Achievement.criteria achievement) = Achievement.carbon_reduction →
  0 ≤ Activity.value (Activity.carbonFootprint body) →
  (∀ a, coll !! id = Some a → 0 ≤ Activity.value (Activity.carbonFootprint a)) →
  ∃ before afterPost afterDelete,
    AchievementRoutes.calculateAchievementProgress cal now2 db user achievement = Ok before
    ∧ AchievementRoutes.calculateAchievementProgress cal now2 db
        (postActivity now id body user coll).1.2 achievement = Ok afterPost
    ∧ AchievementRoutes.calculateAchievementProgress cal now2 db
        (deleteActivity now id user coll).1.2 achievement = Ok afterDelete
    ∧ afterPost ≤ before ≤ afterDelete.
Proof.
  intros Hm Hbody Hstored.
  unfold AchievementRoutes.calculateAchievementProgress. rewrite Hm. cbn [bindR].
  eexists _, _, _. split; [reflexivity |]. split; [reflexivity |]. split; [reflexivity |].
  assert (Hkg : ∀ a, 0 ≤ Activity.value (Activity.carbonFootprint a) → 0 ≤ Activity.carbonKg a).
  { intros a Ha. unfold Activity.carbonKg. destruct (Activity.unit _); lia. }
  split.
  - unfold postActivity. destruct (coll !! id); cbn [fst snd]; [lia |].
    cbn [addToTotal User.carbonFootprint User.total User.baseline].
    pose proof (Hkg (ownedBy (User._id user) body) Hbody). lia.
  - unfold deleteActivity, findOne. destruct (coll !! id) as [a |] eqn:Hid; [| cbn; lia].
    case_bool_decide; cbn [fst snd]; [| lia].
    cbn [addToTotal User.carbonFootprint User.total User.baseline].
    pose proof (Hkg a (Hstored a eq_refl)). lia.
Qed.

Lemma activity_lowers_carbon_reduction_witness :
  let a := Sample.achievement Achievement.carbon_reduction Achievement.lifetime 5000 5000
             Achievement.common 0 in
  let body := Sample.activityOf 1 40 "food" 3 Activity.tons in
  AchievementRoutes.calculateAchievementProgress JsDate.utc 100 (Sample.storesUp [])
    (Sample.user 4500 250) a = Ok 4250
  ∧ AchievementRoutes.calculateAchievementProgress JsDate.utc 100 (Sample.storesUp [])
      (postActivity 50 2 body (Sample.user 4500 250) ∅).1.2 a = Ok 1250
  ∧ ∃ before afterPost afterDelete,
      AchievementRoutes.calculateAchievementProgress JsDate.utc 100 (Sample.storesUp [])
        (Sample.user 4500 250) a = Ok before
      ∧ AchievementRoutes.calculateAchievementProgress JsDate.utc 100 (Sample.storesUp [])
          (postActivity 50 2 body (Sample.user 4500 250) ∅).1.2 a = Ok afterPost
      ∧ AchievementRoutes.calculateAchievementProgress JsDate.utc 100 (Sample.storesUp [])
          (deleteActivity 50 2 (Sample.user 4500 250) ∅).1.2 a = Ok afterDelete
      ∧ afterPost ≤ before ≤ afterDelete.
Proof.
  intros a body. split; [reflexivity |]. split; [reflexivity |].
  apply (activity_lowers_carbon_reduction JsDate.utc 50 100 2 body (Sample.user 4500 250) ∅
           (Sample.storesUp []) a).
  - reflexivity.
  - simpl. lia.
  - intros x Hx. by rewrite lookup_empty in Hx.
Defined.

End ActivityRouteFacts.

(** * The windows of the evaluation *)

Module WindowFacts.

Import JsDate AchievementRoutes.

Lemma localDay_mono off t t' : t ≤ t' → localDay off t ≤ localDay off t'.
Proof. intros Hle. unfold localDay, msPerDay. apply Z.div_le_mono; lia. Qed.

Lemma localDay_shift off t k : localDay off (t + k * msPerDay) = localDay off t + k.
Proof.
  unfold localDay. replace (t + k * msPerDay + off) with (t + off + k * msPerDay) by lia.
  rewrite Z.div_add; [done |]. unfold msPerDay. lia.
Qed.

Lemma localDay_setHours0 off t :
  localDay off (setHours0 (fixedOffset off) t) = localDay off t.
Proof.
  rewrite StreakFacts.setHours0_fixedOffset. unfold localDay at 1.
  replace (localDay off t * msPerDay - off + off) with (localDay off t * msPerDay) by lia.
  apply Z.div_mul. unfold msPerDay. lia.
Qed.

Lemma setHours0_le off t : setHours0 (fixedOffset off) t ≤ t.
Proof.
  cbn [setHours0 fixedOffset]. unfold localTimeOfDay.
  pose proof (Z.mod_pos_bound (t + off) msPerDay) as H. unfold msPerDay in *. lia.
Qed.

(** The weekly window starts before the daily one. *)
Lemma startDateOf_weekly_daily off now :
  startDateOf (fixedOffset off) now Achievement.weekly
  ≤ startDateOf (fixedOffset off) now Achievement.daily.
Proof.
  cbn [startDateOf setDate setHours0 fixedOffset]. unfold localTimeOfDay.
  pose proof (Z.mod_pos_bound (now + off) msPerDay) as H. unfold msPerDay in *. lia.
Qed.

(** A streak cannot reach behind the oldest activity it is given. *)
Lemma streak_le_window off now acts (w : nat) :
  (∀ a, a ∈ acts → localDay off now - Z.of_nat w ≤ localDay off (Activity.date a)) →
  streakDays (fixedOffset off) now acts ≤ Z.of_nat w + 1.
Proof.
  intros Hwin.
  pose proof (StreakFacts.streakDays_range (fixedOffset off) now acts) as Hr.
  destruct (Z_le_gt_dec (streakDays (fixedOffset off) now acts) (Z.of_nat w + 1))
    as [Hle | Hgt]; [done |]. exfalso.
  assert (Hn : streakDays (fixedOffset off) now acts
               = Z.of_nat (Z.to_nat (streakDays (fixedOffset off) now acts))) by lia.
  apply StreakFacts.streakDays_iff in Hn as (_ & Hall & _).
  assert (Hlt : (S w < Z.to_nat (streakDays (fixedOffset off) now acts))%nat) by lia.
  apply Hall, StreakFacts.dayHasActivity_fixedOffset in Hlt as (a & Ha & Hd).
  specialize (Hwin a Ha). lia.
Qed.

(** More activities never shorten a streak. *)
Lemma streakDays_mono cal now acts acts' :
  (∀ day, Spec.dayHasActivity cal acts day → Spec.dayHasActivity cal acts' day) →
  streakDays cal now acts ≤ streakDays cal now acts'.
Proof.
  intros Hsub.
  pose proof (StreakFacts.streakDays_range cal now acts) as Hr.
  pose proof (StreakFacts.streakDays_range cal now acts') as Hr'.
  destruct (Z_le_gt_dec (streakDays cal now acts) (streakDays cal now acts'))
    as [Hle | Hgt]; [done |]. exfalso.
  assert (Hn : streakDays cal now acts
               = Z.of_nat (Z.to_nat (streakDays cal now acts))) by lia.
  assert (Hn' : streakDays cal now acts'
                = Z.of_nat (Z.to_nat (streakDays cal now acts'))) by lia.
  apply StreakFacts.streakDays_iff in Hn as (_ & Hall & _).
  apply StreakFacts.streakDays_iff in Hn' as (_ & _ & Hstop).
  apply Hstop; [lia |]. apply Hsub, Hall. lia.
Qed.

(** X24. In a zone with a fixed offset the window caps the streak: the
    evaluation of a [streak_days] achievement is at most 1 on the daily
    timeframe and at most 8 on the weekly one, whatever the threshold and
    the activities. So [updateProgress] with the evaluated progress leaves
    a locked daily achievement that requires more than 1, or a locked
    weekly one that requires more than 8, locked. *)
Theorem streak_window_bound (off now now2 : Z) (db : Stores) (user : User.t)
    (achievement : Achievement.t) (progress : Z) :
  Achievement.metric (Achievement.criteria achievement) = Achievement.streak_days →
  calculateAchievementProgress (fixedOffset off) now db user achievement = Ok progress →
  let timeframe := Achievement.timeframe (Achievement.criteria achievement) in
  let required := Achievement.required (Achievement.progress achievement) in
  (timeframe = Achievement.daily → progress ≤ 1)
  ∧ (timeframe = Achievement.weekly → progress ≤ 8)
  ∧ (Achievement.isUnlocked achievement = false →
     (timeframe = Achievement.daily ∧ 1 < required)
     ∨ (timeframe = Achievement.weekly ∧ 8 < required) →
     Achievement.isUnlocked (Achievement.updateProgress now2 progress achievement) = false).
Proof.
  intros Hm Hcalc timeframe required.
  unfold calculateAchievementProgress in Hcalc. rewrite Hm in Hcalc.
  destruct (activities db) as [coll |]; [| done]. cbn [bindR] in Hcalc.
  injection Hcalc as <-. fold timeframe.
  assert (Hdaily : timeframe = Achievement.daily →
            streakDays (fixedOffset off) now
              (Activity.find coll (User._id user)
                 (startDateOf (fixedOffset off) now timeframe)) ≤ 1).
  { intros ->. apply (streak_le_window off now _ 0).
    intros a (_ & _ & Hdate & _)%StreakFacts.elem_of_Activity_find.
    cbn [startDateOf] in Hdate. apply (localDay_mono off) in Hdate.
    rewrite localDay_setHours0 in Hdate. lia. }
  assert (Hweekly : timeframe = Achievement.weekly →
            streakDays (fixedOffset off) now
              (Activity.find coll (User._id user)
                 (startDateOf (fixedOffset off) now timeframe)) ≤ 8).
  { intros ->. apply (streak_le_window off now _ 7).
    intros a (_ & _ & Hdate & _)%StreakFacts.elem_of_Activity_find.
    cbn [startDateOf setDate fixedOffset] in Hdate. apply (localDay_mono off) in Hdate.
    rewrite localDay_shift in Hdate. lia. }
  split; [intros Htf; specialize (Hdaily Htf); lia |].
  split; [intros Htf; specialize (Hweekly Htf); lia |].
  intros Hlocked Hreq.
  destruct (Achievement.isUnlocked (Achievement.updateProgress now2 _ achievement)) eqn:Hu;
    [| done].
  apply AchievementFacts.updateProgress_locked_stamp in Hu as [_ Hge]; [| done].
  fold required in Hge.
  destruct Hreq as [[Htf Hr] | [Htf Hr]];
    [specialize (Hdaily Htf) | specialize (Hweekly Htf)]; lia.
Qed.

Lemma streak_window_bound_witness :
  let now := 10 * msPerDay + 5 in
  let a := Sample.achievement Achievement.streak_days Achievement.weekly 30 30
             Achievement.common 0 in
  let coll := (λ k, Sample.activity 1 (now - k * msPerDay)) <$> [0; 1; 2; 3; 4; 5; 6; 7; 8; 9] in
  calculateAchievementProgress utc now (Sample.storesUp coll) (Sample.user 0 0) a = Ok 8
  ∧ Achievement.isUnlocked (Achievement.updateProgress (now + 1) 8 a) = false.
Proof.
  intros now a coll.
  assert (Hcalc : calculateAchievementProgress utc now (Sample.storesUp coll)
                    (Sample.user 0 0) a = Ok 8) by (vm_compute; reflexivity).
  split; [exact Hcalc |].
  pose proof (streak_window_bound 0 now (now + 1) (Sample.storesUp coll) (Sample.user 0 0)
                a 8 eq_refl Hcalc) as H.
  cbv zeta in H. destruct H as (_ & _ & Hlocked).
  apply Hlocked; [reflexivity |]. right. split; [reflexivity | simpl; lia].
Defined.

(** X25. A wider window never gives less: in a zone with a fixed offset,
    of two achievements with the same metric and threshold, one daily and
    one weekly, the evaluations reject together, and when they do not the
    daily progress is at most the weekly progress. *)
Theorem evaluation_daily_le_weekly (off now : Z) (db : Stores) (user : User.t)
    (a1 a2 : Achievement.t) :
  Achievement.metric (Achievement.criteria a1) = Achievement.metric (Achievement.criteria a2) →
  Achievement.threshold (Achievement.criteria a1)
    = Achievement.threshold (Achievement.criteria a2) →
  Achievement.timeframe (Achievement.criteria a1) = Achievement.daily →
  Achievement.timeframe (Achievement.criteria a2) = Achievement.weekly →
  match calculateAchievementProgress (fixedOffset off) now db user a1,
        calculateAchievementProgress (fixedOffset off) now db user a2 with
  | Ok daily, Ok weekly => daily ≤ weekly
  | Rejected, Rejected => True
  | _, _ => False
  end.
Proof.
  intros Hm Hth Hd Hw. unfold calculateAchievementProgress.
  rewrite <- Hm, <- Hth, Hd, Hw.
  pose proof (startDateOf_weekly_daily off now) as Hstart.
  set (daily := startDateOf (fixedOffset off) now Achievement.daily) in *.
  set (weekly := startDateOf (fixedOffset off) now Achievement.weekly) in *.
  clearbody daily weekly.
  destruct (Achievement.metric (Achievement.criteria a1)); cbn [bindR]; try lia.
  - destruct (activities db) as [coll |]; cbn [bindR]; [| done].
    assert (Activity.countDocuments coll (User._id user) daily
            ≤ Activity.countDocuments coll (User._id user) weekly); [| lia].
    unfold Activity.countDocuments. apply inj_le, ListFacts.length_filter_impl.
    unfold Activity.matches. intros a (Hu & Hdate & Hs).
    split; [done |]. split; [lia | done].
  - destruct (activities db) as [coll |]; cbn [bindR]; [| done].
    assert (streakDays (fixedOffset off) now (Activity.find coll (User._id user) daily)
            ≤ streakDays (fixedOffset off) now (Activity.find coll (User._id user) weekly));
      [| lia].
    apply streakDays_mono. intros day. unfold Spec.dayHasActivity.
    rewrite !Exists_exists. intros (a & Ha & Hday). exists a. split; [| done].
    apply StreakFacts.elem_of_Activity_find.
    apply StreakFacts.elem_of_Activity_find in Ha as (Hin & Hu & Hdate & Hs).
    split; [done |]. unfold Activity.matches. split; [done |]. split; [lia | done].
  - destruct (goals db) as [coll |]; cbn [bindR]; [| done].
    assert (Goal.countDocuments coll (User._id user) daily
            ≤ Goal.countDocuments coll (User._id user) weekly); [| lia].
    unfold Goal.countDocuments. apply inj_le, ListFacts.length_filter_impl.
    unfold Goal.matchesCompleted. intros g (Hu & Hs & Hdate).
    split; [done |]. split; [done | lia].
Qed.

Lemma evaluation_daily_le_weekly_witness :
  let now := 10 * msPerDay + 5 in
  let a1 := Sample.achievement Achievement.activities_count Achievement.daily 30 30
              Achievement.common 0 in
  let a2 := Sample.achievement Achievement.activities_count Achievement.weekly 30 30
              Achievement.common 0 in
  let coll := (λ k, Sample.activity 1 (now - k * msPerDay)) <$> [0; 1; 2; 3; 4; 5; 6; 7; 8; 9] in
  calculateAchievementProgress utc now (Sample.storesUp coll) (Sample.user 0 0) a1 = Ok 1
  ∧ calculateAchievementProgress utc now (Sample.storesUp coll) (Sample.user 0 0) a2 = Ok 8
  ∧ match calculateAchievementProgress utc now (Sample.storesUp coll) (Sample.user 0 0) a1,
          calculateAchievementProgress utc now (Sample.storesUp coll) (Sample.user 0 0) a2 with
    | Ok daily, Ok weekly => daily ≤ weekly
    | Rejected, Rejected => True
    | _, _ => False
    end.
Proof.
  intros now a1 a2 coll.
  split; [vm_compute; reflexivity |]. split; [vm_compute; reflexivity |].
  apply (evaluation_daily_le_weekly 0 now (Sample.storesUp coll) (Sample.user 0 0) a1 a2);
    reflexivity.
Defined.

End WindowFacts.

(** * The listings by category and the user statistics *)

Module CategoryFacts.

Global Instance lockedFirst_total : Total Achievement.lockedFirst.
Proof.
  intros x y. unfold Achievement.lockedFirst, Achievement.lockedFirstLeb.
  destruct (Achievement.isUnlocked x.2), (Achievement.isUnlocked y.2),
    (Achievement.rarity x.2), (Achievement.rarity y.2); vm_compute; auto.
Qed.

Global Instance lockedFirst_trans : Transitive Achievement.lockedFirst.
Proof.
  intros x y z. unfold Achievement.lockedFirst, Achievement.lockedFirstLeb.
  destruct (Achievement.isUnlocked x.2), (Achievement.isUnlocked y.2),
    (Achievement.isUnlocked z.2); try done;
  destruct (Achievement.rarity x.2), (Achievement.rarity y.2), (Achievement.rarity z.2);
    vm_compute; congruence.
Qed.

Global Instance createdAtDesc_total : Total Goal.createdAtDesc.
Proof. intros x y. unfold Goal.createdAtDesc. lia. Qed.

Global Instance createdAtDesc_trans : Transitive Goal.createdAtDesc.
Proof. intros x y z. unfold Goal.createdAtDesc. lia. Qed.

(** X26. The listings by category. [getAchievementsByCategory] holds
    exactly the stored active achievements of the user in the category,
    hidden and expired ones included, each once, every locked one before
    every unlocked one; it contains what the available and the unlocked
    listing hold of the category. [getGoalsByCategory] holds exactly the
    stored goals of the user in the category, whatever their status, each
    once, the newest first; it contains the active goals of the category. *)
Theorem category_listings (userId now : Z) (c : string) :
  (∀ coll : gmap Z Achievement.t,
     let listing := Achievement.getAchievementsByCategory coll userId c in
     (∀ d : Achievement.Doc, d ∈ listing ↔
        coll !! d.1 = Some d.2 ∧ Achievement.user d.2 = userId
        ∧ Achievement.category d.2 = c ∧ Achievement.isActive d.2 = true)
     ∧ NoDup listing.*1
     ∧ (∀ (i j : nat) (x y : Achievement.Doc),
          listing !! i = Some x → listing !! j = Some y → (i < j)%nat →
          Achievement.isUnlocked x.2 = true → Achievement.isUnlocked y.2 = true)
     ∧ (∀ d : Achievement.Doc,
          d ∈ Achievement.getUserAvailableAchievements coll userId now
          ∨ d ∈ Achievement.getUserUnlockedAchievements coll userId →
          Achievement.category d.2 = c → d ∈ listing))
  ∧ (∀ coll : gmap Z Goal.t,
       let listing := Goal.getGoalsByCategory coll userId c in
       (∀ d : Goal.Doc, d ∈ listing ↔
          coll !! d.1 = Some d.2 ∧ Goal.user d.2 = userId ∧ Goal.category d.2 = c)
       ∧ NoDup listing.*1
       ∧ (∀ (i j : nat) (x y : Goal.Doc),
            listing !! i = Some x → listing !! j = Some y → (i < j)%nat →
            Goal.createdAt y.2 ≤ Goal.createdAt x.2)
       ∧ (∀ d : Goal.Doc, d ∈ Goal.getUserActiveGoals coll userId →
            Goal.category d.2 = c → d ∈ listing)).
Proof.
  split.
  - intros coll listing.
    assert (Hin : ∀ d : Achievement.Doc, d ∈ listing ↔
              coll !! d.1 = Some d.2 ∧ Achievement.user d.2 = userId
              ∧ Achievement.category d.2 = c ∧ Achievement.isActive d.2 = true).
    { intros d.
      apply (ListFacts.elem_of_sorted_filter Achievement.lockedFirst
               (Achievement.inCategory userId c) coll d). }
    split; [exact Hin |]. split.
    { apply (ListFacts.NoDup_sorted_filter_ids Achievement.lockedFirst
               (Achievement.inCategory userId c) coll). }
    split.
    { intros i j x y Hi Hj Hij Hx.
      assert (Hsorted : StronglySorted Achievement.lockedFirst listing)
        by apply (StronglySorted_merge_sort _).
      pose proof (ListFacts.StronglySorted_lookup _ _ _ _ _ _ Hsorted Hi Hj Hij) as Hle.
      unfold Achievement.lockedFirst, Achievement.lockedFirstLeb in Hle.
      rewrite Hx in Hle. by destruct (Achievement.isUnlocked y.2). }
    intros d [Hd | Hd] Hc; apply Hin.
    + apply CheckFacts.elem_of_available in Hd as (Hl & Hu & _ & _ & Ha & _).
      done.
    + apply AchievementModelFacts.elem_of_unlocked in Hd as (Hl & Hu & _ & Ha).
      done.
  - intros coll listing.
    assert (Hin : ∀ d : Goal.Doc, d ∈ listing ↔
              coll !! d.1 = Some d.2 ∧ Goal.user d.2 = userId ∧ Goal.category d.2 = c).
    { intros d.
      apply (ListFacts.elem_of_sorted_filter Goal.createdAtDesc
               (Goal.inCategory userId c) coll d). }
    split; [exact Hin |]. split.
    { apply (ListFacts.NoDup_sorted_filter_ids Goal.createdAtDesc
               (Goal.inCategory userId c) coll). }
    split.
    { intros i j x y Hi Hj Hij.
      assert (Hsorted : StronglySorted Goal.createdAtDesc listing)
        by apply (StronglySorted_merge_sort _).
      exact (ListFacts.StronglySorted_lookup _ _ _ _ _ _ Hsorted Hi Hj Hij). }
    intros d Hd Hc. apply Hin.
    apply (ListFacts.elem_of_sorted_filter Goal.endDateAsc (Goal.activeOf userId) coll d)
      in Hd as (Hl & Hu & _).
    done.
Qed.



End CategoryFacts.

(** * Expiry *)

Module ExpiryFacts.

Import Achievement.



End ExpiryFacts.
